(** * couchbase-cluster-go: the node bootstrap agent of [cluster.go]

    A shallow embedding of the functions of [cluster.go] that elect the
    first cluster node, discover a live peer, join it, trigger a
    rebalance, poll the cluster health and retry with back-off, followed
    by the properties of these functions.

    Conventions.
    - A Go [string] is a sequence of bytes: [String.string].
    - A Go [int] is a 64-bit two's complement integer: [Z] with the
      wrap-around written out ([Int.wrap]).
    - A Go [error] is modelled by the text of its [Error()] method; the
      nil error is [None].
    - Calls that leave the process (etcd, HTTP, [time.After], [exec]) are
      events appended to a history; what the outside world answers is
      read from an environment [Env], a family of functions of the
      history so far.  Log lines are not modelled. *)

From Stdlib Require Import ZArith List String Ascii Bool Lia DecimalString.
Import ListNotations.

Set Warnings "-register-all".

Open Scope string_scope.
Open Scope Z_scope.

(** ** Go strings *)

Module Strings.

Fixpoint take (n : nat) (s : string) : string :=
  match n, s with
  | S n', String a s' => String a (take n' s')
  | _, _ => EmptyString
  end.

Fixpoint drop (n : nat) (s : string) : string :=
  match n, s with
  | S n', String _ s' => drop n' s'
  | _, _ => s
  end.

(** [strings.HasPrefix(s, p)] *)
Definition HasPrefix (s p : string) : bool := String.prefix p s.

(** [strings.Index(s, sub)]: the index of the first instance of [sub]
    in [s], [None] for Go's -1. *)
Fixpoint Index (s sub : string) : option nat :=
  if HasPrefix s sub then Some 0%nat
  else match s with
       | EmptyString => None
       | String _ s' => option_map S (Index s' sub)
       end.

(** [strings.Contains(s, sub)] is [Index(s, sub) >= 0]. *)
Definition Contains (s sub : string) : bool :=
  match Index s sub with Some _ => true | None => false end.

(** [strings.LastIndex(s, "/")] for a one-byte separator. *)
Fixpoint LastIndexByte (s : string) (c : ascii) : option nat :=
  match s with
  | EmptyString => None
  | String a s' =>
      match LastIndexByte s' c with
      | Some i => Some (S i)
      | None => if Ascii.eqb a c then Some 0%nat else None
      end
  end.

(** The loop of [strings.genSplit] for a non-empty separator and no
    limit on the number of pieces: cut at the first instance of [sep],
    go on after it.  [fuel] bounds the number of cuts. *)
Fixpoint genSplit (fuel : nat) (s sep : string) : list string :=
  match fuel with
  | O => [s]
  | S fuel' =>
      match Index s sep with
      | None => [s]
      | Some m =>
          take m s :: genSplit fuel' (drop (m + String.length sep) s) sep
      end
  end.

Fixpoint explode (s : string) : list string :=
  match s with
  | EmptyString => []
  | String a s' => String a EmptyString :: explode s'
  end.

(** [strings.Split(s, sep)].  With an empty separator Go cuts after each
    UTF-8 sequence; [explode] cuts after each byte, which is the same on
    ASCII text.  [cluster.go] only splits on [":"]. *)
Definition Split (s sep : string) : list string :=
  match sep with
  | EmptyString => explode s
  | _ => genSplit (String.length s) s sep
  end.

(** [strings.Join(elems, sep)] *)
Fixpoint Join (elems : list string) (sep : string) : string :=
  match elems with
  | [] => EmptyString
  | [e] => e
  | e :: rest => e ++ sep ++ Join rest sep
  end.

End Strings.

(** [path.Split]: the text up to and including the final slash, and the
    text after it. *)
Definition path_Split (p : string) : string * string :=
  match Strings.LastIndexByte p "/"%char with
  | None => (EmptyString, p)
  | Some i => (Strings.take (S i) p, Strings.drop (S i) p)
  end.

(** ** Go integers *)

Module Int.

Definition min_int : Z := - 2 ^ 63.
Definition max_int : Z := 2 ^ 63 - 1.

Definition in_range (z : Z) : Prop := min_int <= z <= max_int.

(** Two's complement wrap-around of a 64-bit [int]. *)
Definition wrap (z : Z) : Z := (z + 2 ^ 63) mod 2 ^ 64 - 2 ^ 63.

Definition add (a b : Z) : Z := wrap (a + b).
Definition mul (a b : Z) : Z := wrap (a * b).
(** Go's [/] truncates toward zero. *)
Definition quo (a b : Z) : Z := wrap (Z.quot a b).

(** [fmt.Sprintf("%v", i)] for an integer [i]. *)
Definition format (z : Z) : string := NilEmpty.string_of_int (Z.to_int z).

End Int.

(** ** Errors, JSON values, etcd nodes *)

Definition error := string.

(** What [json.Unmarshal] stores in an [interface{}].  [JNull] is the nil
    interface; the digits of a number are kept as they were written. *)
Inductive json : Type :=
| JNull
| JBool (b : bool)
| JNumber (literal : string)
| JString (s : string)
| JArray (elems : list json)
| JObject (fields : list (string * json)).

(** [m[key]] on a [map[string]interface{}]: nil when the key is missing. *)
Fixpoint map_index (m : list (string * json)) (key : string) : json :=
  match m with
  | [] => JNull
  | (k, v) :: m' => if String.eqb k key then v else map_index m' key
  end.

(** [etcd.Node], and [etcd.Response] with its nullable [Node]. *)
Inductive Node : Type :=
  mkNode { Key : string; Value : string; Dir : bool; Nodes : list Node }.

Record Response : Type := mkResponse { RNode : option Node }.

Inductive GetResult : Type :=
| GetErr (err : error)
| GetOk (response : Response).

(** ** HTTP *)

(** [url.Values] *)
Definition Values := list (string * list string).

Record Request : Type := mkRequest {
  req_method : string;
  req_url : string;
  req_contentType : string;
  req_user : string;
  req_password : string;
  req_form : Values   (* the body is [data.Encode()] of these values *)
}.

(** The outcome of [client.Do] followed by [ioutil.ReadAll] of the body. *)
Inductive DoResult : Type :=
| DoErr (err : error)
| DoResp (statusCode : Z) (body : string + error).

(** ** The outside world *)

Inductive Event : Type :=
| EvCreateDir (key : string) (ttl : Z)
| EvGet (key : string) (sort recursive : bool)
| EvGetJson (url user password : string)
| EvDo (r : Request)
| EvAfter (nanoseconds : Z)
| EvFree
| EvWorker
| EvSleeper (retryCount : Z).

(** The most recent event is at the head. *)
Definition History := list Event.

Record Env : Type := mkEnv {
  (** [etcdClient.CreateDir(key, ttl)]: its error. *)
  etcd_CreateDir : History -> string -> Z -> option error;
  (** [etcdClient.Get(key, sort, recursive)] *)
  etcd_Get : History -> string -> bool -> bool -> GetResult;
  (** [getJsonData(url, &jsonMap)] *)
  http_getJsonMap : History -> string -> string -> string ->
                    list (string * json) + error;
  (** [getJsonData(url, &jsonList)] *)
  http_getJsonList : History -> string -> string -> string ->
                     list json + error;
  (** [http.NewRequest(method, url, body)]: its error. *)
  http_NewRequest : string -> string -> option error;
  http_Do : History -> Request -> DoResult;
  (** [exec.Command("free", "-m").Output()] *)
  os_free : History -> string + error
}.

(** Computations that extend the history. *)
Definition M (A : Type) : Type := History -> A * History.

Definition ret {A} (a : A) : M A := fun h => (a, h).

Definition bind {A B} (m : M A) (k : A -> M B) : M B :=
  fun h => let (a, h') := m h in k a h'.

Notation "x <- m ;; k" := (bind m (fun x => k))
  (at level 61, m at next level, right associativity).
Notation "' pat <- m ;; k" := (bind m (fun x => match x with pat => k end))
  (at level 61, pat pattern, m at next level, right associativity).
Notation "m ;;; k" := (bind m (fun _ => k))
  (at level 61, right associativity).

(** [call ev answer]: ask the world, then record the event. *)
Definition call {A} (ev : Event) (answer : History -> A) : M A :=
  fun h => (answer h, ev :: h).

Definition time_Second : Z := 1000000000.

(** [<-time.After(time.Second * time.Duration(seconds))] *)
Definition sleep_seconds (seconds : Z) : M unit :=
  call (EvAfter (Int.mul time_Second seconds)) (fun _ => tt).

(** ** Constants and the receiver *)

Definition KEY_NODE_STATE : string := "/couchbase.com/couchbase-node-state".
Definition KEY_USER_PASS : string := "/couchbase.com/userpass".
Definition TTL_NONE : Z := 0.
Definition MAX_RETRIES_JOIN_CLUSTER : nat := 10.
Definition MAX_RETRIES_START_COUCHBASE : nat := 10.
Definition COUCHBASE_DEFAULT_ADMIN_USERNAME : string := "admin".
Definition COUCHBASE_DEFAULT_ADMIN_PASSWORD : string := "password".
Definition LOCAL_COUCHBASE_PORT : string := "8091".

Record CouchbaseCluster : Type := mkCluster {
  LocalCouchbaseIp : string;
  LocalCouchbasePort : string;
  LocalCouchbaseVersion : string;
  AdminUsername : string;
  AdminPassword : string;
  defaultBucketRamQuotaMB : string;
  defaultBucketReplicaNumber : string
}.

(** ** Membership: election and peer discovery *)

Section Membership.

Variable env : Env.

Definition BecomeFirstClusterNode : M (bool * option error) :=
  err <- call (EvCreateDir KEY_NODE_STATE TTL_NONE)
              (fun h => etcd_CreateDir env h KEY_NODE_STATE TTL_NONE) ;;
  match err with
  | Some e =>
      if Strings.Contains e "Key already exists"
      then ret (false, None)
      else ret (false, Some e)
  | None => ret (true, None)
  end.

(** [path.Join(KEY_NODE_STATE)] is [KEY_NODE_STATE]: the constant is a
    clean path already. *)
Definition FindLiveNode : M (string * option error) :=
  let key := KEY_NODE_STATE in
  r <- call (EvGet key false false)
            (fun h => etcd_Get env h key false false) ;;
  match r with
  | GetErr e => ret (EmptyString, Some ("Error getting key.  Err: " ++ e))
  | GetOk response =>
      match RNode response with
      | None => ret (EmptyString, None)
      | Some node =>
          match Nodes node with
          | [] => ret (EmptyString, None)
          | subNode :: _ => ret (snd (path_Split (Key subNode)), None)
          end
      end
  end.

End Membership.

(** ** The REST gateway *)

Section Gateway.

Variable env : Env.
Variable c : CouchbaseCluster.

(** Modelled from the spec: [getJsonDataMiddleware] is not among the
    sources.  It performs a GET with the admin credentials and fails
    with a transport error or a decode error if the body is not
    well-formed JSON of the shape of [into]; the environment gives the
    outcome. *)
Definition getJsonData_map (endpointUrl : string)
  : M (list (string * json) + error) :=
  call (EvGetJson endpointUrl (AdminUsername c) (AdminPassword c))
       (fun h => http_getJsonMap env h endpointUrl
                   (AdminUsername c) (AdminPassword c)).

Definition getJsonData_list (endpointUrl : string)
  : M (list json + error) :=
  call (EvGetJson endpointUrl (AdminUsername c) (AdminPassword c))
       (fun h => http_getJsonList env h endpointUrl
                   (AdminUsername c) (AdminPassword c)).

Definition POST (defaultAdminCreds : bool) (endpointUrl : string)
           (data : Values) : M (option error) :=
  match http_NewRequest env "POST" endpointUrl with
  | Some e => ret (Some e)
  | None =>
      let req :=
        if defaultAdminCreds
        then mkRequest "POST" endpointUrl
               "application/x-www-form-urlencoded"
               COUCHBASE_DEFAULT_ADMIN_USERNAME
               COUCHBASE_DEFAULT_ADMIN_PASSWORD data
        else mkRequest "POST" endpointUrl
               "application/x-www-form-urlencoded"
               (AdminUsername c) (AdminPassword c) data in
      r <- call (EvDo req) (fun h => http_Do env h req) ;;
      match r with
      | DoErr e => ret (Some e)
      | DoResp statusCode bodyBytes =>
          let body :=
            match bodyBytes with
            | inr e => "Unable to read body: " ++ e
            | inl b => b
            end in
          if (statusCode <? 200) || (statusCode >? 299)
          then ret (Some ("Failed to POST to " ++ endpointUrl
                          ++ ".  Status code: " ++ Int.format statusCode
                          ++ ".  Body: " ++ body))
          else ret None
      end
  end.

Definition GetClusterNodes (liveNodeIp : string)
  : M (list json * option error) :=
  let liveNodePort := LocalCouchbasePort c in
  let endpointUrl :=
    "http://" ++ liveNodeIp ++ ":" ++ liveNodePort ++ "/pools/default" in
  r <- getJsonData_map endpointUrl ;;
  match r with
  | inr e => ret ([], Some e)
  | inl jsonMap =>
      match map_index jsonMap "nodes" with
      | JArray nodeMaps => ret (nodeMaps, None)
      | _ => ret ([], Some "Unexpected data type in nodes field")
      end
  end.

End Gateway.

(** ** Health *)

Section Health.

Variable env : Env.
Variable c : CouchbaseCluster.

(** The loop of [CheckIfInClusterAndHealthy] over the nodes. *)
Fixpoint CheckIfInCluster_nodes (nodes : list json) : bool * option error :=
  match nodes with
  | [] => (false, None)
  | node :: rest =>
      match node with
      | JObject nodeMap =>
          match map_index nodeMap "hostname" with
          | JString hostnameStr =>
              if Strings.Contains hostnameStr (LocalCouchbaseIp c)
              then match map_index nodeMap "status" with
                   | JString statusStr =>
                       if String.eqb statusStr "healthy"
                       then (true, None)
                       else CheckIfInCluster_nodes rest
                   | _ => (false, Some "No status string found")
                   end
              else CheckIfInCluster_nodes rest
          | _ => (false, Some "No hostname string found")
          end
      | _ => (false, Some "Node had unexpected data type")
      end
  end.

Definition CheckIfInClusterAndHealthy (liveNodeIp : string)
  : M (bool * option error) :=
  '(nodes, err) <- GetClusterNodes env c liveNodeIp ;;
  match err with
  | Some e => ret (false, Some e)
  | None => ret (CheckIfInCluster_nodes nodes)
  end.

(** The loop of [CheckNumNodesClusterHealthy] over the nodes. *)
Fixpoint CheckHealthy_nodes (nodes : list json) : bool * option error :=
  match nodes with
  | [] => (true, None)
  | node :: rest =>
      match node with
      | JObject nodeMap =>
          match map_index nodeMap "status" with
          | JString statusStr =>
              if negb (String.eqb statusStr "healthy")
              then (false, None)
              else CheckHealthy_nodes rest
          | _ => (false, Some "No status string found")
          end
      | _ => (false, Some "Node had unexpected data type")
      end
  end.

Definition CheckNumNodesClusterHealthy (numNodes : Z) (liveNodeIp : string)
  : M (bool * option error) :=
  '(nodes, err) <- GetClusterNodes env c liveNodeIp ;;
  match err with
  | Some e => ret (false, Some e)
  | None =>
      if negb (numNodes =? -1)
         && (Z.of_nat (List.length nodes) <? numNodes)
      then ret (false, None)
      else ret (CheckHealthy_nodes nodes)
  end.

Definition CheckAllNodesClusterHealthy (liveNodeIp : string)
  : M (bool * option error) :=
  CheckNumNodesClusterHealthy (-1) liveNodeIp.

Definition IsRebalancing (liveNodeIp : string) : M (bool * option error) :=
  let liveNodePort := LocalCouchbasePort c in
  let endpointUrl :=
    "http://" ++ liveNodeIp ++ ":" ++ liveNodePort
    ++ "/pools/default/rebalanceProgress" in
  r <- getJsonData_map env c endpointUrl ;;
  match r with
  | inr e => ret (true, Some e)
  | inl jsonMap =>
      match map_index jsonMap "status" with
      | JString str =>
          if String.eqb str "none" then ret (false, None)
          else ret (true, None)
      | _ => ret (true, Some "Unexepected type in status field in json")
      end
  end.

(** The loop of [HasDefaultBucket]: an entry that is not an object, or
    whose name is not a string, is passed over by [continue]. *)
Fixpoint HasDefaultBucket_entries (jsonList : list json)
  : bool * option error :=
  match jsonList with
  | [] => (false, None)
  | bucketEntry :: rest =>
      match bucketEntry with
      | JObject bucketEntryMap =>
          match map_index bucketEntryMap "name" with
          | JString name =>
              if String.eqb name "default" then (true, None)
              else HasDefaultBucket_entries rest
          | _ => HasDefaultBucket_entries rest
          end
      | _ => HasDefaultBucket_entries rest
      end
  end.

Definition HasDefaultBucket : M (bool * option error) :=
  let endpointUrl :=
    "http://" ++ LocalCouchbaseIp c ++ ":" ++ LocalCouchbasePort c
    ++ "/pools/default/buckets" in
  r <- getJsonData_list env c endpointUrl ;;
  match r with
  | inr e => ret (false, Some e)
  | inl jsonList => ret (HasDefaultBucket_entries jsonList)
  end.

End Health.

(** ** Host memory and the cluster RAM quota *)

Module Text.

Definition is_space (a : ascii) : bool := Ascii.eqb a " "%char.

Definition is_digit (a : ascii) : bool :=
  let n := nat_of_ascii a in (48 <=? n)%nat && (n <=? 57)%nat.

(** White space of [strings.TrimSpace] among the ASCII bytes. *)
Definition is_white (a : ascii) : bool :=
  let n := nat_of_ascii a in
  ((9 <=? n)%nat && (n <=? 13)%nat) || (n =? 32)%nat.

(** The longest prefix whose bytes satisfy [p], and what follows it. *)
Fixpoint span (p : ascii -> bool) (s : string) : string * string :=
  match s with
  | EmptyString => (EmptyString, EmptyString)
  | String a s' =>
      if p a then let (l, r) := span p s' in (String a l, r)
      else (EmptyString, s)
  end.

Fixpoint rev_string (s acc : string) : string :=
  match s with
  | EmptyString => acc
  | String a s' => rev_string s' (String a acc)
  end.

(** [strings.TrimSpace] on ASCII text. *)
Definition TrimSpace (s : string) : string :=
  let s1 := snd (span is_white s) in
  let r := snd (span is_white (rev_string s1 EmptyString)) in
  rev_string r EmptyString.

(** [regexp.MustCompile(`Mem:[ ]*[0-9]*`).FindString(s)]: the leftmost
    match starts at the first instance of [Mem:] and takes the spaces,
    then the digits, that follow it; no match gives the empty string. *)
Definition FindString_Mem (s : string) : string :=
  match Strings.Index s "Mem:" with
  | None => EmptyString
  | Some i =>
      let (spaces, rest) := span is_space (Strings.drop (i + 4) s) in
      let (digits, _) := span is_digit rest in
      "Mem:" ++ spaces ++ digits
  end.

Fixpoint digits_value (s : string) (acc : Z) : option Z :=
  match s with
  | EmptyString => Some acc
  | String a s' =>
      if is_digit a
      then digits_value s' (10 * acc + (Z.of_nat (nat_of_ascii a) - 48))
      else None
  end.

Definition quote : string := String (ascii_of_nat 34) EmptyString.

Definition syntaxError (s : string) : error :=
  "strconv.Atoi: parsing " ++ quote ++ s ++ quote ++ ": invalid syntax".

Definition rangeError (s : string) : error :=
  "strconv.Atoi: parsing " ++ quote ++ s ++ quote ++ ": value out of range".

(** The digits of [strconv.Atoi], after the sign; [s] is the whole
    argument, for the error text. *)
Definition Atoi_digits (s : string) (neg : bool) (ds : string) : Z + error :=
  match ds with
  | EmptyString => inr (syntaxError s)
  | _ =>
      match digits_value ds 0 with
      | None => inr (syntaxError s)
      | Some v =>
          let n := if neg then - v else v in
          if (Int.min_int <=? n) && (n <=? Int.max_int) then inl n
          else inr (rangeError s)
      end
  end.

(** [strconv.Atoi]: an optional sign, then decimal digits, within the
    range of [int].  The error text quotes [s] as it is, which is what
    [strconv.Quote] does for printable ASCII without quotes and
    backslashes. *)
Definition Atoi (s : string) : Z + error :=
  match s with
  | String a ds =>
      if Ascii.eqb a "-" then Atoi_digits s true ds
      else if Ascii.eqb a "+" then Atoi_digits s false ds
      else Atoi_digits s false s
  | EmptyString => Atoi_digits s false s
  end.

(** Every byte of the text satisfies [p]. *)
Fixpoint all_bytes (p : ascii -> bool) (s : string) : bool :=
  match s with
  | EmptyString => true
  | String a s' => p a && all_bytes p s'
  end.

(** [fmt.Sprintf("%v", b)] for a [[]byte]. *)
Fixpoint format_bytes_list (s : string) : list string :=
  match s with
  | EmptyString => []
  | String a s' => Int.format (Z.of_nat (nat_of_ascii a)) :: format_bytes_list s'
  end.

Definition format_bytes (s : string) : string :=
  "[" ++ Strings.Join (format_bytes_list s) " " ++ "]".

End Text.

Section Ram.

Variable env : Env.
Variable c : CouchbaseCluster.

Definition CalculateTotalRam : M (Z * option error) :=
  r <- call EvFree (os_free env) ;;
  match r with
  | inr e => ret (-1, Some e)
  | inl output =>
      let memPair := Text.FindString_Mem output in
      if String.eqb memPair EmptyString
      then ret (-1, Some ("Could not extract Mem total from "
                          ++ Text.format_bytes output))
      else if negb (Strings.Contains memPair ":")
      then ret (-1, Some ("Could not extract Mem total from "
                          ++ Text.format_bytes output ++ ", no :"))
      else
        let memPairs := Strings.Split memPair ":" in
        let outputTrimmed := Text.TrimSpace (nth 1 memPairs EmptyString) in
        match Text.Atoi outputTrimmed with
        | inr e => ret (-1, Some e)
        | inl i => ret (i, None)
        end
  end.

Definition CalculateClusterRam : M (string * option error) :=
  '(totalRamMb, err) <- CalculateTotalRam ;;
  match err with
  | Some e => ret (EmptyString, Some e)
  | None =>
      let clusterRam := Int.quo (Int.mul totalRamMb 75) 100 in
      ret (Int.format clusterRam, None)
  end.

Definition SetClusterRam : M (option error) :=
  '(ramMb, err) <- CalculateClusterRam ;;
  let ramMb := match err with Some _ => "1024" | None => ramMb end in
  let endpointUrl :=
    "http://" ++ LocalCouchbaseIp c ++ ":" ++ LocalCouchbasePort c
    ++ "/pools/default" in
  let data : Values := [("memoryQuota", [ramMb])] in
  POST env c false endpointUrl data.

End Ram.

(** ** Join and rebalance *)

Section Join.

Variable env : Env.
Variable c : CouchbaseCluster.

(** The loop of [OtpNodeList]; on a malformed entry the identifiers
    collected so far are returned with the error. *)
Fixpoint OtpNodeList_nodes (nodes : list json) (otpNodeList : list string)
  : list string * option error :=
  match nodes with
  | [] => (otpNodeList, None)
  | node :: rest =>
      match node with
      | JObject nodeMap =>
          match map_index nodeMap "otpNode" with
          | JString otpNodeStr =>
              OtpNodeList_nodes rest (otpNodeList ++ [otpNodeStr])
          | _ => (otpNodeList, Some "No otpNode string found")
          end
      | _ => (otpNodeList, Some "Node had unexpected data type")
      end
  end.

Definition OtpNodeList (liveNodeIp : string)
  : M (list string * option error) :=
  let otpNodeList : list string := [] in
  '(nodes, err) <- GetClusterNodes env c liveNodeIp ;;
  match err with
  | Some e => ret (otpNodeList, Some e)
  | None => ret (OtpNodeList_nodes nodes otpNodeList)
  end.

Definition TriggerRebalance (liveNodeIp : string) : M (option error) :=
  '(otpNodeList, err) <- OtpNodeList liveNodeIp ;;
  match err with
  | Some _ => ret None        (* [if err != nil { return nil }] *)
  | None =>
      let liveNodePort := LocalCouchbasePort c in
      let endpointUrl :=
        "http://" ++ liveNodeIp ++ ":" ++ liveNodePort
        ++ "/controller/rebalance" in
      let otpNodes := Strings.Join otpNodeList "," in
      let data : Values :=
        [("ejectedNodes", []); ("knownNodes", [otpNodes])] in
      POST env c false endpointUrl data
  end.

Definition AddNode (liveNodeIp : string) : M (option error) :=
  let liveNodePort := LocalCouchbasePort c in
  let endpointUrl :=
    "http://" ++ liveNodeIp ++ ":" ++ liveNodePort
    ++ "/controller/addNode" in
  let data : Values :=
    [("hostname", [LocalCouchbaseIp c]);
     ("user", [AdminUsername c]);
     ("password", [AdminPassword c])] in
  err <- POST env c false endpointUrl data ;;
  match err with
  | Some e =>
      if Strings.Contains e "Node is already part of cluster"
      then ret None
      else ret (Some e)
  | None => ret None
  end.

(** [remaining] is [MAX_RETRIES_JOIN_CLUSTER - i]. *)
Fixpoint AddNodeRetry_loop (remaining : nat) (numSecondsToSleep : Z)
         (liveNodeIp : string) : M (option error) :=
  match remaining with
  | O => ret (Some "Unable to AddNode after several attempts")
  | S remaining' =>
      let numSecondsToSleep := Int.add numSecondsToSleep 10 in
      err <- AddNode liveNodeIp ;;
      match err with
      | Some _ =>
          sleep_seconds numSecondsToSleep ;;;
          AddNodeRetry_loop remaining' numSecondsToSleep liveNodeIp
      | None => ret None
      end
  end.

Definition AddNodeRetry (liveNodeIp : string) : M (option error) :=
  AddNodeRetry_loop MAX_RETRIES_JOIN_CLUSTER 0 liveNodeIp.

Fixpoint WaitUntilNoRebalanceRunning_loop (remaining : nat)
         (numSecondsToSleep : Z) (liveNodeIp : string) : M (option error) :=
  match remaining with
  | O => ret (Some "Unable to rebalance after several attempts")
  | S remaining' =>
      let numSecondsToSleep := Int.add numSecondsToSleep 100 in
      '(isRebalancing, err) <- IsRebalancing env c liveNodeIp ;;
      match err with
      | Some e => ret (Some e)
      | None =>
          if isRebalancing
          then sleep_seconds numSecondsToSleep ;;;
               WaitUntilNoRebalanceRunning_loop remaining'
                 numSecondsToSleep liveNodeIp
          else ret None
      end
  end.

Definition WaitUntilNoRebalanceRunning (liveNodeIp : string)
  : M (option error) :=
  WaitUntilNoRebalanceRunning_loop MAX_RETRIES_JOIN_CLUSTER 0 liveNodeIp.

Definition JoinLiveNode (liveNodeIp : string) : M (option error) :=
  '(inCluster, err) <- CheckIfInClusterAndHealthy env c liveNodeIp ;;
  match err with
  | Some e => ret (Some e)
  | None =>
      err <- (if negb inCluster then AddNodeRetry liveNodeIp
              else ret None) ;;
      match err with
      | Some e => ret (Some e)
      | None =>
          err <- WaitUntilNoRebalanceRunning liveNodeIp ;;
          match err with
          | Some e => ret (Some e)
          | None => TriggerRebalance liveNodeIp
          end
      end
  end.

Fixpoint JoinExistingCluster_loop (remaining : nat) (sleepSeconds : Z)
  : M (option error) :=
  match remaining with
  | O => ret (Some "Failed to join cluster after several retries")
  | S remaining' =>
      '(liveNodeIp, _) <- FindLiveNode env ;;
      if negb (String.eqb liveNodeIp EmptyString)
      then JoinLiveNode liveNodeIp
      else
        let sleepSeconds := Int.add sleepSeconds 10 in
        sleep_seconds sleepSeconds ;;;
        JoinExistingCluster_loop remaining' sleepSeconds
  end.

Definition JoinExistingCluster : M (option error) :=
  JoinExistingCluster_loop MAX_RETRIES_JOIN_CLUSTER 0.

End Join.

(** ** The retry loop *)

(** [RetryWorker] and [RetrySleeper] are closures: they may act on the
    outside world themselves. *)
Definition RetryWorker := M (bool * option error).
Definition RetrySleeper := Z -> M (bool * Z).

(** [RetryLoop] is a [for] without a bound: [fuel] bounds the number of
    rounds, and the outer [None] says that the fuel ran out.  The calls of
    the two closures are recorded as [EvWorker] and [EvSleeper]. *)
Fixpoint RetryLoop_from (fuel : nat) (worker : RetryWorker)
         (sleeper : RetrySleeper) (numAttempts : Z)
  : M (option (option error)) :=
  match fuel with
  | O => ret None
  | S fuel' =>
      '(workerFinished, err) <- (call EvWorker (fun _ => tt) ;;; worker) ;;
      match err with
      | Some e => ret (Some (Some e))
      | None =>
          if workerFinished then ret (Some None)
          else
            '(shouldContinue, sleepSeconds) <-
              (call (EvSleeper numAttempts) (fun _ => tt) ;;;
               sleeper numAttempts) ;;
            if negb shouldContinue
            then ret (Some (Some ("RetryLoop giving up after "
                                  ++ Int.format numAttempts ++ " attempts")))
            else
              sleep_seconds sleepSeconds ;;;
              RetryLoop_from fuel' worker sleeper (Int.add numAttempts 1)
      end
  end.

Definition RetryLoop (fuel : nat) (worker : RetryWorker)
           (sleeper : RetrySleeper) : M (option (option error)) :=
  RetryLoop_from fuel worker sleeper 1.

Section Waiting.

Variable env : Env.
Variable c : CouchbaseCluster.

(** The sleeper of [WaitUntilClusterRunning] and
    [WaitUntilNumNodesRunning]. *)
Definition wait_sleeper (maxAttempts : Z) : RetrySleeper :=
  fun numAttempts =>
    if numAttempts >? maxAttempts then ret (false, -1)
    else
      let sleepSeconds := Int.mul 10 numAttempts in
      ret (true, sleepSeconds).

Definition WaitUntilNumNodesRunning_worker (numNodes : Z) : RetryWorker :=
  '(liveNodeIp, err) <- FindLiveNode env ;;
  match err with
  | Some _ => ret (false, None)
  | None =>
      if String.eqb liveNodeIp EmptyString then ret (false, None)
      else
        '(ok, err) <- CheckNumNodesClusterHealthy env c numNodes liveNodeIp ;;
        match err with
        | Some _ => ret (false, None)
        | None => if negb ok then ret (false, None) else ret (true, None)
        end
  end.

Definition WaitUntilNumNodesRunning (fuel : nat) (numNodes maxAttempts : Z)
  : M (option (option error)) :=
  RetryLoop fuel (WaitUntilNumNodesRunning_worker numNodes)
            (wait_sleeper maxAttempts).

End Waiting.

(** ** Admin credentials *)

(** A call either returns or panics (a nil dereference, an index out of
    range). *)
Inductive Outcome (A : Type) : Type :=
| Returned (a : A)
| Panicked.
Arguments Returned {A} a.
Arguments Panicked {A}.

Definition set_AdminCreds (c : CouchbaseCluster) (user password : string)
  : CouchbaseCluster :=
  mkCluster (LocalCouchbaseIp c) (LocalCouchbasePort c)
            (LocalCouchbaseVersion c) user password
            (defaultBucketRamQuotaMB c) (defaultBucketReplicaNumber c).

Section Credentials.

Variable env : Env.

(** The receiver is a pointer: the function returns the cluster it
    leaves behind together with its error.  [path.Join(KEY_USER_PASS)]
    is [KEY_USER_PASS]. *)
Fixpoint LoadAdminCredsFromEtcd_loop (remaining : nat)
         (c : CouchbaseCluster)
  : M (Outcome (option error) * CouchbaseCluster) :=
  let key := KEY_USER_PASS in
  let sleepSeconds := 10 in
  match remaining with
  | O => ret (Returned
                (Some "Unable to load admin creds after several retries"),
              c)
  | S remaining' =>
      r <- call (EvGet key false false)
                (fun h => etcd_Get env h key false false) ;;
      match r with
      | GetErr _ =>
          sleep_seconds sleepSeconds ;;;
          LoadAdminCredsFromEtcd_loop remaining' c
      | GetOk response =>
          match RNode response with
          | None => ret (Panicked, c)
          | Some node =>
              let userpassRaw := Value node in
              if negb (Strings.Contains userpassRaw ":")
              then ret (Returned (Some ("Invalid user/pass: "
                                        ++ userpassRaw)), c)
              else
                match Strings.Split userpassRaw ":" with
                | user :: password :: _ =>
                    ret (Returned None, set_AdminCreds c user password)
                | [user] => ret (Panicked, set_AdminCreds c user
                                             (AdminPassword c))
                | [] => ret (Panicked, c)
                end
          end
      end
  end.

Definition LoadAdminCredsFromEtcd (c : CouchbaseCluster)
  : M (Outcome (option error) * CouchbaseCluster) :=
  LoadAdminCredsFromEtcd_loop MAX_RETRIES_JOIN_CLUSTER c.

End Credentials.

(** ** Environments used to run the functions *)

(** ** The membership directory in the store *)

(** What the store holds at the key of the membership directory: nothing,
    or a directory with its children. *)
Inductive Directory : Type :=
| DirAbsent
| DirPresent (children : list Node).

(** The error with which etcd answers a read of a key that does not exist
    (its error code 100), as the client prints it; [index] is the index
    of the store at that time. *)
Definition key_not_found (key : string) (index : Z) : error :=
  "100: Key not found (" ++ key ++ ") [" ++ Int.format index ++ "]".

(** What [etcdClient.Get] of the membership directory answers in a state
    of the store: for a key that does not exist the client returns the
    error of etcd, not a response; for a directory, its node with the
    children. *)
Definition Get_answer (d : Directory) (index : Z) : GetResult :=
  match d with
  | DirAbsent => GetErr (key_not_found KEY_NODE_STATE index)
  | DirPresent children =>
      GetOk (mkResponse
               (Some (mkNode KEY_NODE_STATE EmptyString true children)))
  end.

Module Scenario.

Definition cluster : CouchbaseCluster :=
  mkCluster "10.0.0.2" "8091" "3.0.1" "user" "passw0rd" "128" "1".

(** An outside world where every call succeeds and every answer is
    empty. *)
Definition quiet : Env :=
  mkEnv (fun _ _ _ => None)
        (fun _ _ _ _ => GetOk (mkResponse None))
        (fun _ _ _ _ => inl [])
        (fun _ _ _ _ => inl [])
        (fun _ _ => None)
        (fun _ _ => DoResp 200 (inl EmptyString))
        (fun _ => inr "exec: free: executable file not found in $PATH").

Definition with_CreateDir (f : History -> string -> Z -> option error)
           (e : Env) : Env :=
  mkEnv f (etcd_Get e) (http_getJsonMap e) (http_getJsonList e)
        (http_NewRequest e) (http_Do e) (os_free e).

Definition with_Get (f : History -> string -> bool -> bool -> GetResult)
           (e : Env) : Env :=
  mkEnv (etcd_CreateDir e) f (http_getJsonMap e) (http_getJsonList e)
        (http_NewRequest e) (http_Do e) (os_free e).

Definition with_getJsonMap
           (f : History -> string -> string -> string ->
                list (string * json) + error) (e : Env) : Env :=
  mkEnv (etcd_CreateDir e) (etcd_Get e) f (http_getJsonList e)
        (http_NewRequest e) (http_Do e) (os_free e).

Definition with_getJsonList
           (f : History -> string -> string -> string -> list json + error)
           (e : Env) : Env :=
  mkEnv (etcd_CreateDir e) (etcd_Get e) (http_getJsonMap e) f
        (http_NewRequest e) (http_Do e) (os_free e).

Definition with_Do (f : History -> Request -> DoResult) (e : Env) : Env :=
  mkEnv (etcd_CreateDir e) (etcd_Get e) (http_getJsonMap e)
        (http_getJsonList e) (http_NewRequest e) f (os_free e).

Definition with_free (f : History -> string + error) (e : Env) : Env :=
  mkEnv (etcd_CreateDir e) (etcd_Get e) (http_getJsonMap e)
        (http_getJsonList e) (http_NewRequest e) (http_Do e) f.

(** Another node created the membership directory first. *)
Definition lost_race : Env :=
  with_CreateDir
    (fun _ _ _ =>
       Some "105: Key already exists (/couchbase.com/couchbase-node-state) [7]")
    quiet.

(** No node has created the membership directory yet. *)
Definition absent_directory : Env :=
  with_Get (fun _ _ _ _ => Get_answer DirAbsent 7) quiet.

Definition etcd_down : Env :=
  with_CreateDir (fun _ _ _ => Some "501: All the given peers are not reachable")
    (with_Get (fun _ _ _ _ =>
                 GetErr "501: All the given peers are not reachable")
              quiet).

Definition peer (ip : string) : Node :=
  mkNode ("/couchbase.com/couchbase-node-state/" ++ ip) "up" false [].

Definition directory (children : list Node) : GetResult :=
  GetOk (mkResponse (Some (mkNode KEY_NODE_STATE EmptyString true children))).

Definition one_peer : Env :=
  with_Get (fun _ _ _ _ => directory [peer "10.0.0.1"; peer "10.0.0.3"])
           quiet.

(** The peer lists two members; the second entry has no [otpNode]. *)
Definition two_members : list json :=
  [JObject [("hostname", JString "10.0.0.1:8091");
            ("otpNode", JString "ns_1@10.0.0.1");
            ("status", JString "healthy")];
   JObject [("hostname", JString "10.0.0.3:8091");
            ("status", JString "warmup")]].

Definition two_member_cluster : Env :=
  with_getJsonMap (fun _ _ _ _ => inl [("nodes", JArray two_members)])
                  one_peer.

Definition pools_unreachable : Env :=
  with_getJsonMap (fun _ _ _ _ => inr "dial tcp 10.0.0.1:8091: connection refused")
                  one_peer.

(** The peer answers every POST with status 400 and this body. *)
Definition already_member : Env :=
  with_Do (fun _ _ =>
             DoResp 400 (inl "[Prepare join failed. Node is already part of cluster.]"))
          one_peer.

Definition buckets : list json :=
  [JString "beer-sample";
   JObject [("name", JNumber "7")];
   JObject [("bucketType", JString "membase"); ("name", JString "default")]].

Definition has_buckets : Env :=
  with_getJsonList (fun _ _ _ _ => inl buckets) quiet.

(** What [free -m] prints on a host with 4000 MB of memory. *)
Definition free_output : string :=
  "             total       used       free     shared    buffers     cached
Mem:          4000       2601       1399          0          4       1877
-/+ buffers/cache:        720       3280
Swap:            0          0          0
".

Definition host_4000 : Env := with_free (fun _ => inl free_output) quiet.

(** The directory is empty for the first two reads of etcd; then one peer
    has published itself. *)
Definition late_peer : Env :=
  with_Get (fun h _ _ _ =>
              if (List.length (filter (fun ev => match ev with
                                                 | EvGet _ _ _ => true
                                                 | _ => false
                                                 end) h) <? 2)%nat
              then directory []
              else directory [peer "10.0.0.1"])
           two_member_cluster.

(** The credentials entry cannot be read at first; the third read gives a
    password with a colon in it. *)
Definition late_creds : Env :=
  with_Get (fun h _ _ _ =>
              if (List.length (filter (fun ev => match ev with
                                                 | EvGet _ _ _ => true
                                                 | _ => false
                                                 end) h) <? 2)%nat
              then GetErr "501: All the given peers are not reachable"
              else GetOk (mkResponse
                            (Some (mkNode KEY_USER_PASS "admin:s3cret:2024"
                                     false []))))
           quiet.

End Scenario.


(** ** Vocabulary of the statements *)

(** A well-formed bucket entry named [default]: an object whose [name]
    field is the string ["default"]. *)
Definition is_default_bucket (entry : json) : bool :=
  match entry with
  | JObject fields =>
      match map_index fields "name" with
      | JString name => String.eqb name "default"
      | _ => false
      end
  | _ => false
  end.

(** The request that [AddNode] posts to the peer. *)
Definition addNode_url (c : CouchbaseCluster) (liveNodeIp : string) : string :=
  "http://" ++ liveNodeIp ++ ":" ++ LocalCouchbasePort c
  ++ "/controller/addNode".

Definition addNode_request (c : CouchbaseCluster) (liveNodeIp : string)
  : Request :=
  mkRequest "POST" (addNode_url c liveNodeIp)
    "application/x-www-form-urlencoded" (AdminUsername c) (AdminPassword c)
    [("hostname", [LocalCouchbaseIp c]);
     ("user", [AdminUsername c]);
     ("password", [AdminPassword c])].

(** The address and the form of the POST of [SetClusterRam]. *)
Definition clusterRam_url (c : CouchbaseCluster) : string :=
  "http://" ++ LocalCouchbaseIp c ++ ":" ++ LocalCouchbasePort c
  ++ "/pools/default".

Definition clusterRam_form (ramMb : string) : Values :=
  [("memoryQuota", [ramMb])].

Definition buckets_url (c : CouchbaseCluster) : string :=
  "http://" ++ LocalCouchbaseIp c ++ ":" ++ LocalCouchbasePort c
  ++ "/pools/default/buckets".

(** Whether the history holds a POST, and how many reads of etcd. *)
Definition is_Do (ev : Event) : bool :=
  match ev with EvDo _ => true | _ => false end.

Definition is_Get (ev : Event) : bool :=
  match ev with EvGet _ _ _ => true | _ => false end.

(** The events of [k] rounds of peer discovery that found no peer, the
    most recent first: round [j] reads the membership directory and then
    waits [10 * j] seconds. *)
Fixpoint backoff_events (k : nat) : list Event :=
  match k with
  | O => []
  | S k' =>
      EvAfter (10 * Z.of_nat k * time_Second)
      :: EvGet KEY_NODE_STATE false false
      :: backoff_events k'
  end.

(** The same, as the loop of [JoinExistingCluster] builds it from its
    counter [sleepSeconds]. *)
Fixpoint discovery_rounds (k : nat) (sleepSeconds : Z) (h : History)
  : History :=
  match k with
  | O => h
  | S k' =>
      discovery_rounds k' (Int.add sleepSeconds 10)
        (EvAfter (Int.mul time_Second (Int.add sleepSeconds 10))
         :: EvGet KEY_NODE_STATE false false :: h)
  end.

(** The address that a round of discovery finds after the history [h]. *)
Definition found_peer (env : Env) (h : History) : string :=
  fst (fst (FindLiveNode env h)).

(** A computation that adds no read of etcd to the history. *)
Definition adds_no_Get {A} (m : M A) : Prop :=
  forall h, filter is_Get (snd (m h)) = filter is_Get h.

(** A read of the credentials entry that failed, and the wait of ten
    seconds that follows it; [j] of them. *)
Definition failed_read (h : History) : History :=
  EvAfter (Int.mul time_Second 10) :: EvGet KEY_USER_PASS false false :: h.

Definition failed_reads (j : nat) (h : History) : History :=
  Nat.iter j failed_read h.

(** The text holds no colon. *)
Definition no_colon (s : string) : Prop := Strings.Contains s ":" = false.

(** [k] rounds of [RetryLoop] in which the worker returns "not yet" with
    no error and the sleeper says to continue: the attempt counter and
    the history they lead to, [None] if the rounds do not go this way. *)
Fixpoint retry_rounds (worker : RetryWorker) (sleeper : RetrySleeper)
         (k : nat) (numAttempts : Z) (h : History) : option (Z * History) :=
  match k with
  | O => Some (numAttempts, h)
  | S k' =>
      match worker (EvWorker :: h) with
      | ((false, None), h1) =>
          match sleeper numAttempts (EvSleeper numAttempts :: h1) with
          | ((true, sleepSeconds), h2) =>
              retry_rounds worker sleeper k' (Int.add numAttempts 1)
                (EvAfter (Int.mul time_Second sleepSeconds) :: h2)
          | _ => None
          end
      | _ => None
      end
  end.

(** The error of [RetryLoop] when the sleeper says to stop. *)
Definition giving_up (numAttempts : Z) : error :=
  "RetryLoop giving up after " ++ Int.format numAttempts ++ " attempts".

From Stdlib Require DecimalPos.

(** ** Initialising the first node *)

Definition set_Version (c : CouchbaseCluster) (version : string)
  : CouchbaseCluster :=
  mkCluster (LocalCouchbaseIp c) (LocalCouchbasePort c) version
            (AdminUsername c) (AdminPassword c)
            (defaultBucketRamQuotaMB c) (defaultBucketReplicaNumber c).



Section Init.

Variable env : Env.

(** The receiver is a pointer: the cluster it leaves behind is returned
    with the error.  [remaining] is [MAX_RETRIES_JOIN_CLUSTER - i]. *)
Fixpoint FetchClusterDetails_loop (remaining : nat) (c : CouchbaseCluster)
  : M (option error * CouchbaseCluster) :=
  match remaining with
  | O => ret (Some "Unable to fetch cluster details after several attempts",
              c)
  | S remaining' =>
      let endpointUrl :=
        "http://" ++ LocalCouchbaseIp c ++ ":" ++ LocalCouchbasePort c
        ++ "/pools" in
      r <- getJsonData_map env c endpointUrl ;;
      match r with
      | inr _ =>
          sleep_seconds 10 ;;;
          FetchClusterDetails_loop remaining' c
      | inl jsonMap =>
          match map_index jsonMap "implementationVersion" with
          | JString versionStr => ret (None, set_Version c versionStr)
          | _ => ret (Some "Expected implementationVersion to contain a string",
                      c)
          end
      end
  end.

Definition FetchClusterDetails (c : CouchbaseCluster)
  : M (option error * CouchbaseCluster) :=
  FetchClusterDetails_loop MAX_RETRIES_JOIN_CLUSTER c.

Variable c : CouchbaseCluster.

Definition ClusterInit : M (option error) :=
  let endpointUrl :=
    "http://" ++ LocalCouchbaseIp c ++ ":" ++ LocalCouchbasePort c
    ++ "/settings/web" in
  let data : Values :=
    [("username", [AdminUsername c]);
     ("password", [AdminPassword c]);
     ("port", [LocalCouchbasePort c])] in
  err <- POST env c true endpointUrl data ;;
  match err with
  | Some e => ret (Some e)
  | None => SetClusterRam env c
  end.

Definition CreateDefaultBucket : M (option error) :=
  '(hasDefaultBucket, err) <- HasDefaultBucket env c ;;
  match err with
  | Some e => ret (Some e)
  | None =>
      if hasDefaultBucket then ret None
      else
        let endpointUrl :=
          "http://" ++ LocalCouchbaseIp c ++ ":" ++ LocalCouchbasePort c
          ++ "/pools/default/buckets" in
        let data : Values :=
          [("name", ["default"]);
           ("ramQuotaMB", [defaultBucketRamQuotaMB c]);
           ("authType", ["none"]);
           ("replicaNumber", [defaultBucketReplicaNumber c]);
           ("proxyPort", ["11215"])] in
        POST env c false endpointUrl data
  end.

(** The worker of [WaitUntilClusterRunning]. *)
Definition WaitUntilClusterRunning_worker : RetryWorker :=
  '(liveNodeIp, err) <- FindLiveNode env ;;
  match err with
  | Some _ => ret (false, None)
  | None =>
      if String.eqb liveNodeIp EmptyString then ret (false, None)
      else
        '(ok, err) <- CheckAllNodesClusterHealthy env c liveNodeIp ;;
        match err with
        | Some _ => ret (false, None)
        | None => if negb ok then ret (false, None) else ret (true, None)
        end
  end.

Definition WaitUntilClusterRunning (fuel : nat) (maxAttempts : Z)
  : M (option (option error)) :=
  RetryLoop fuel WaitUntilClusterRunning_worker (wait_sleeper maxAttempts).

End Init.

(** ** Vocabulary of the further statements *)

(** The request that [POST] sends. *)
Definition post_request (c : CouchbaseCluster) (defaultAdminCreds : bool)
           (endpointUrl : string) (data : Values) : Request :=
  if defaultAdminCreds
  then mkRequest "POST" endpointUrl "application/x-www-form-urlencoded"
         COUCHBASE_DEFAULT_ADMIN_USERNAME COUCHBASE_DEFAULT_ADMIN_PASSWORD data
  else mkRequest "POST" endpointUrl "application/x-www-form-urlencoded"
         (AdminUsername c) (AdminPassword c) data.

(** The fields of a node entry of [/pools/default], when the entry is an
    object and the field a string. *)
Definition string_field (field : string) (node : json) : option string :=
  match node with
  | JObject fields =>
      match map_index fields field with
      | JString s => Some s
      | _ => None
      end
  | _ => None
  end.

Definition otpNode_of : json -> option string := string_field "otpNode".
Definition status_of : json -> option string := string_field "status".
Definition hostname_of : json -> option string := string_field "hostname".

Definition is_healthy (node : json) : bool :=
  match status_of node with
  | Some s => String.eqb s "healthy"
  | None => false
  end.

(** The entry is the local node, by its address, and it is healthy. *)
Definition is_healthy_member (c : CouchbaseCluster) (node : json) : bool :=
  match hostname_of node with
  | Some hostname =>
      Strings.Contains hostname (LocalCouchbaseIp c) && is_healthy node
  | None => false
  end.

(** The entry has the strings that [CheckIfInClusterAndHealthy] reads: a
    hostname, and a status when the hostname is the local node's. *)
Definition member_entry_ok (c : CouchbaseCluster) (node : json) : bool :=
  match hostname_of node with
  | Some hostname =>
      if Strings.Contains hostname (LocalCouchbaseIp c)
      then match status_of node with Some _ => true | None => false end
      else true
  | None => false
  end.

Definition pools_default_url (c : CouchbaseCluster) (liveNodeIp : string)
  : string :=
  "http://" ++ liveNodeIp ++ ":" ++ LocalCouchbasePort c ++ "/pools/default".

Definition rebalance_url (c : CouchbaseCluster) (liveNodeIp : string)
  : string :=
  "http://" ++ liveNodeIp ++ ":" ++ LocalCouchbasePort c
  ++ "/controller/rebalance".

Definition rebalanceProgress_url (c : CouchbaseCluster) (liveNodeIp : string)
  : string :=
  "http://" ++ liveNodeIp ++ ":" ++ LocalCouchbasePort c
  ++ "/pools/default/rebalanceProgress".

Definition settings_web_url (c : CouchbaseCluster) : string :=
  "http://" ++ LocalCouchbaseIp c ++ ":" ++ LocalCouchbasePort c
  ++ "/settings/web".

Definition pools_url (c : CouchbaseCluster) : string :=
  "http://" ++ LocalCouchbaseIp c ++ ":" ++ LocalCouchbasePort c ++ "/pools".

(** The GET of [getJsonData], as an event. *)
Definition get_event (c : CouchbaseCluster) (url : string) : Event :=
  EvGetJson url (AdminUsername c) (AdminPassword c).

(** The address of everything that is asked of the peer [liveNodeIp]. *)
Definition peer_base (c : CouchbaseCluster) (liveNodeIp : string) : string :=
  "http://" ++ liveNodeIp ++ ":" ++ LocalCouchbasePort c ++ "/".

(** An event of the join sequence: a wait, or a GET or a POST to the peer
    that carries the configured admin identity. *)
Definition peer_event (c : CouchbaseCluster) (liveNodeIp : string)
           (ev : Event) : bool :=
  match ev with
  | EvAfter _ => true
  | EvGetJson url user password =>
      String.prefix (peer_base c liveNodeIp) url
      && String.eqb user (AdminUsername c)
      && String.eqb password (AdminPassword c)
  | EvDo r =>
      String.eqb (req_method r) "POST"
      && String.prefix (peer_base c liveNodeIp) (req_url r)
      && String.eqb (req_user r) (AdminUsername c)
      && String.eqb (req_password r) (AdminPassword c)
  | _ => false
  end.

(** The events [added] all satisfy [q], and at most [n] of them are
    POSTs. *)
Definition within (q : Event -> bool) (n : nat) (added : list Event) : Prop :=
  forallb q added = true /\ (List.length (filter is_Do added) <= n)%nat.

(** The computation [m] only adds events to the history, and what it adds
    satisfies [P]. *)
Definition emits {A} (P : list Event -> Prop) (m : M A) : Prop :=
  forall h, exists added, snd (m h) = (added ++ h)%list /\ P added.

(** The events of [k] polls of [WaitUntilNoRebalanceRunning] that found a
    rebalance in progress, the most recent first: poll [j] is followed by
    a wait of [100 * j] seconds. *)
Fixpoint rebalance_wait_events (c : CouchbaseCluster) (liveNodeIp : string)
         (k : nat) : list Event :=
  match k with
  | O => []
  | S k' =>
      EvAfter (100 * Z.of_nat k * time_Second)
      :: get_event c (rebalanceProgress_url c liveNodeIp)
      :: rebalance_wait_events c liveNodeIp k'
  end.

(** The same, as the loop builds it from its counter. *)
Fixpoint rebalance_wait_rounds (c : CouchbaseCluster) (liveNodeIp : string)
         (k : nat) (numSecondsToSleep : Z) (h : History) : History :=
  match k with
  | O => h
  | S k' =>
      rebalance_wait_rounds c liveNodeIp k' (Int.add numSecondsToSleep 100)
        (EvAfter (Int.mul time_Second (Int.add numSecondsToSleep 100))
         :: get_event c (rebalanceProgress_url c liveNodeIp) :: h)
  end.

(** The events of [k] failed attempts of [AddNodeRetry], the most recent
    first: attempt [j] posts and then waits [10 * j] seconds. *)
Fixpoint addNode_retry_events (c : CouchbaseCluster) (liveNodeIp : string)
         (k : nat) : list Event :=
  match k with
  | O => []
  | S k' =>
      EvAfter (10 * Z.of_nat k * time_Second)
      :: EvDo (addNode_request c liveNodeIp)
      :: addNode_retry_events c liveNodeIp k'
  end.

Fixpoint addNode_retry_rounds (c : CouchbaseCluster) (liveNodeIp : string)
         (k : nat) (numSecondsToSleep : Z) (h : History) : History :=
  match k with
  | O => h
  | S k' =>
      addNode_retry_rounds c liveNodeIp k' (Int.add numSecondsToSleep 10)
        (EvAfter (Int.mul time_Second (Int.add numSecondsToSleep 10))
         :: EvDo (addNode_request c liveNodeIp) :: h)
  end.

(** The form that [ClusterInit] posts with the factory-default identity. *)
Definition settings_web_form (c : CouchbaseCluster) : Values :=
  [("username", [AdminUsername c]);
   ("password", [AdminPassword c]);
   ("port", [LocalCouchbasePort c])].

(** The form that [CreateDefaultBucket] posts. *)
Definition default_bucket_form (c : CouchbaseCluster) : Values :=
  [("name", ["default"]);
   ("ramQuotaMB", [defaultBucketRamQuotaMB c]);
   ("authType", ["none"]);
   ("replicaNumber", [defaultBucketReplicaNumber c]);
   ("proxyPort", ["11215"])].

(** A fetch of [/pools] that failed, and the wait of ten seconds that
    follows it; [j] of them. *)
Definition failed_fetch (c : CouchbaseCluster) (h : History) : History :=
  EvAfter (Int.mul time_Second 10) :: get_event c (pools_url c) :: h.

Definition failed_fetches (c : CouchbaseCluster) (j : nat) (h : History)
  : History :=
  Nat.iter j (failed_fetch c) h.

(** The retry loop has returned: with no error, or with the error of
    [numAttempts] exhausted attempts. *)
Definition done_or_gave_up (numAttempts : Z) (r : option (option error))
  : Prop :=
  r = Some None \/ r = Some (Some (giving_up numAttempts)).

(** ** The major version *)

Module Utf8.

Definition RuneError : Z := 65533.

Definition byte (a : ascii) : Z := Z.of_nat (nat_of_ascii a).

(** The table [first] of [unicode/utf8]: what a first byte announces. *)
Definition first (x : Z) : Z :=
  if x <? 128 then 240            (* as: ASCII *)
  else if x <? 194 then 241       (* xx: invalid *)
  else if x <? 224 then 2         (* s1 *)
  else if x =? 224 then 19        (* s2 *)
  else if x <? 237 then 3         (* s3 *)
  else if x =? 237 then 35        (* s4 *)
  else if x <? 240 then 3         (* s3 *)
  else if x =? 240 then 52        (* s5 *)
  else if x <? 244 then 4         (* s6 *)
  else if x =? 244 then 68        (* s7 *)
  else 241.                       (* xx *)

(** The table [acceptRanges]: the bounds of the second byte. *)
Definition acceptRange (i : Z) : Z * Z :=
  if i =? 0 then (128, 191)
  else if i =? 1 then (160, 191)
  else if i =? 2 then (128, 159)
  else if i =? 3 then (144, 191)
  else if i =? 4 then (128, 143)
  else (0, 0).

(** [utf8.DecodeRuneInString]: the first rune of [s] and its width. *)
Definition DecodeRuneInString (s : string) : Z * Z :=
  match s with
  | EmptyString => (RuneError, 0)
  | String a0 rest =>
      let s0 := byte a0 in
      let x := first s0 in
      if x >=? 240 then ((if Z.odd x then RuneError else s0), 1)
      else
        let sz := Z.land x 7 in
        let (lo, hi) := acceptRange (Z.shiftr x 4) in
        if Z.of_nat (String.length s) <? sz then (RuneError, 1)
        else
          match rest with
          | EmptyString => (RuneError, 1)
          | String a1 rest1 =>
              let s1 := byte a1 in
              if (s1 <? lo) || (hi <? s1) then (RuneError, 1)
              else if sz <=? 2
              then (Z.lor (Z.shiftl (Z.land s0 31) 6) (Z.land s1 63), 2)
              else
                match rest1 with
                | EmptyString => (RuneError, 1)
                | String a2 rest2 =>
                    let s2 := byte a2 in
                    if (s2 <? 128) || (191 <? s2) then (RuneError, 1)
                    else if sz <=? 3
                    then (Z.lor (Z.shiftl (Z.land s0 15) 12)
                            (Z.lor (Z.shiftl (Z.land s1 63) 6)
                                   (Z.land s2 63)), 3)
                    else
                      match rest2 with
                      | EmptyString => (RuneError, 1)
                      | String a3 _ =>
                          let s3 := byte a3 in
                          if (s3 <? 128) || (191 <? s3) then (RuneError, 1)
                          else (Z.lor (Z.shiftl (Z.land s0 7) 18)
                                  (Z.lor (Z.shiftl (Z.land s1 63) 12)
                                     (Z.lor (Z.shiftl (Z.land s2 63) 6)
                                            (Z.land s3 63))), 4)
                      end
                end
          end
  end.

End Utf8.

(** [CouchbaseMajorVersion]: the first rune of the version is printed
    with [%v], which gives the decimal text of its code point, and that
    text is read back by [strconv.Atoi]. *)
Definition CouchbaseMajorVersion (c : CouchbaseCluster) : Z * option error :=
  if (String.length (LocalCouchbaseVersion c) =? 0)%nat
  then (-1, Some "c.localcouchbaseversion is empty ")
  else
    let (firstCharVerion, _) :=
      Utf8.DecodeRuneInString (LocalCouchbaseVersion c) in
    match Text.Atoi (Int.format firstCharVerion) with
    | inr e => (-1, Some e)
    | inl majorVersion => (majorVersion, None)
    end.

(** ** The arguments of the command line ([cli.go]) *)

(** A value of the parsed arguments, an [interface{}]. *)
Inductive value : Type :=
| VNil
| VBool (b : bool)
| VString (s : string)
| VInt (z : Z)
| VStrings (l : list string).

(** [map[string]interface{}] *)
Definition Arguments := list (string * value).

(** [val, ok := m[key]] *)
Fixpoint args_index (m : Arguments) (key : string) : option value :=
  match m with
  | [] => None
  | (k, v) :: m' => if String.eqb k key then Some v else args_index m' key
  end.

Module Strconv.

(** [ErrSyntax] and [ErrRange] *)
Inductive Err : Type :=
| ErrSyntax
| ErrRange.

(** [*strconv.NumError], as a value: the function, the input and the
    cause.  The callers here pass the error on and never print it, so its
    text, which quotes the input with [strconv.Quote], is not modelled. *)
Record NumError : Type := mkNumError {
  Func : string;
  Num : string;
  Cause : Err
}.

Definition maxUint64 : Z := 2 ^ 64 - 1.

(** The loop of [ParseUint(s, 10, 64)]: [n] is the value of the bytes
    read so far.  A byte that is no digit and an overflow of 64 bits end
    it, whichever comes first. *)
Fixpoint ParseUint_loop (s : string) (n : Z) : Z + Err :=
  match s with
  | EmptyString => inl n
  | String c s' =>
      if Text.is_digit c then
        let d := Z.of_nat (nat_of_ascii c) - 48 in
        let cutoff := maxUint64 / 10 + 1 in
        if n >=? cutoff then inr ErrRange
        else
          let n1 := n * 10 + d in
          if n1 >? maxUint64 then inr ErrRange
          else ParseUint_loop s' n1
      else inr ErrSyntax
  end.

(** [strconv.ParseUint(s, 10, 64)]: the value and the cause of the
    error. *)
Definition ParseUint (s : string) : Z * option Err :=
  match s with
  | EmptyString => (0, Some ErrSyntax)
  | _ =>
      match ParseUint_loop s 0 with
      | inl n => (n, None)
      | inr ErrSyntax => (0, Some ErrSyntax)
      | inr ErrRange => (maxUint64, Some ErrRange)
      end
  end.

(** [strconv.ParseInt(s, 10, 64)]: an optional sign, then [ParseUint];
    a syntax error is passed on with the whole input, and a value out of
    the range of 64 signed bits gives the nearest bound and a range
    error. *)
Definition ParseInt (s : string) : Z * option NumError :=
  let fnParseInt := "ParseInt" in
  match s with
  | EmptyString => (0, Some (mkNumError fnParseInt s ErrSyntax))
  | String a rest =>
      let s0 := s in
      let neg := Ascii.eqb a "-" in
      let s := if Ascii.eqb a "+" || Ascii.eqb a "-" then rest else s in
      let (un, err) := ParseUint s in
      match err with
      | Some ErrSyntax => (0, Some (mkNumError fnParseInt s0 ErrSyntax))
      | _ =>
          let cutoff := 2 ^ 63 in
          if negb neg && (un >=? cutoff)
          then (cutoff - 1, Some (mkNumError fnParseInt s0 ErrRange))
          else if neg && (un >? cutoff)
          then (- cutoff, Some (mkNumError fnParseInt s0 ErrRange))
          else (if neg then - un else un, None)
      end
  end.

End Strconv.

(** The [error] that [ExtractIntArg] returns: one made by [fmt.Errorf],
    with its text, or the error of [strconv.ParseInt]. *)
Inductive arg_error : Type :=
| ErrText (text : error)
| ErrNum (e : Strconv.NumError).

Definition IsCommandEnabled (arguments : Arguments) (commandKey : string)
  : bool :=
  match args_index arguments commandKey with
  | None => false
  | Some val =>
      match val with
      | VBool boolVal => boolVal
      | _ => false
      end
  end.

(** The nil slice is the empty list. *)
Definition ExtractEtcdServerList (docOptParsed : Arguments) : list string :=
  match args_index docOptParsed "--etcd-servers" with
  | None => []
  | Some rawServerList =>
      match rawServerList with
      | VString rawServerListStr => Strings.Split rawServerListStr ","
      | _ => []
      end
  end.

Definition ExtractStringArg (docOptParsed : Arguments) (argToExtract : string)
  : string * option error :=
  match args_index docOptParsed argToExtract with
  | None => (EmptyString, Some ("Did not find arg: " ++ argToExtract))
  | Some rawVal =>
      match rawVal with
      | VString stringVal => (stringVal, None)
      | _ => (EmptyString, Some ("Invalid type for " ++ argToExtract))
      end
  end.

Definition ExtractUserPass (docOptParsed : Arguments)
  : string * option error :=
  ExtractStringArg docOptParsed "--userpass".

Definition ExtractDockerTagOrLatest (docOptParsed : Arguments) : string :=
  let (dockerTag, err) := ExtractStringArg docOptParsed "--docker-tag" in
  match err with
  | Some _ => "latest"
  | None => if String.eqb dockerTag EmptyString then "latest" else dockerTag
  end.

Definition ExtractCbVersion (docOptParsed : Arguments)
  : string * option error :=
  ExtractStringArg docOptParsed "--version".

(** [int(intVal)] keeps the value: [int] has 64 bits. *)
Definition ExtractIntArg (docOptParsed : Arguments) (argToExtract : string)
  : Z * option arg_error :=
  match args_index docOptParsed argToExtract with
  | None => (-1, Some (ErrText ("Did not find arg: " ++ argToExtract)))
  | Some rawVal =>
      match rawVal with
      | VString stringVal =>
          let (intVal, err) := Strconv.ParseInt stringVal in
          match err with
          | Some e => (-1, Some (ErrNum e))
          | None => (intVal, None)
          end
      | _ => (-1, Some (ErrText ("Invalid type for " ++ argToExtract)))
      end
  end.

Definition ExtractBoolArg (docOptParsed : Arguments) (argToExtract : string)
  : bool :=
  match args_index docOptParsed argToExtract with
  | None => false
  | Some rawVal =>
      match rawVal with
      | VBool boolVal => boolVal
      | _ => false
      end
  end.

Definition ExtractSkipCheckCleanState (docOptParsed : Arguments) : bool :=
  ExtractBoolArg docOptParsed "--skip-clean-slate-check".

Definition ExtractNumNodes (docOptParsed : Arguments)
  : Z * option arg_error :=
  ExtractIntArg docOptParsed "--num-nodes".

(** The text starts with a byte that satisfies [p]. *)
Definition starts_with (p : ascii -> bool) (s : string) : bool :=
  match s with
  | EmptyString => false
  | String a _ => p a
  end.

(** ** Further environments *)

Module Scenario2.

Definition three_members : list json :=
  [JObject [("hostname", JString "10.0.0.1:8091");
            ("otpNode", JString "ns_1@10.0.0.1");
            ("status", JString "healthy")];
   JObject [("hostname", JString "10.0.0.2:8091");
            ("otpNode", JString "ns_1@10.0.0.2");
            ("status", JString "healthy")];
   JObject [("hostname", JString "10.0.0.3:8091");
            ("otpNode", JString "ns_1@10.0.0.3");
            ("status", JString "healthy")]].

(** A peer with three healthy members, no rebalance in progress, and the
    version of the local node. *)
Definition healthy_cluster : Env :=
  Scenario.with_getJsonMap
    (fun _ _ _ _ =>
       inl [("nodes", JArray three_members);
            ("status", JString "none");
            ("implementationVersion", JString "3.0.1-1444-rel-enterprise")])
    Scenario.one_peer.

End Scenario2.

(** An event that changes nothing outside: a read of etcd, a GET, a wait,
    or a call of a closure of the retry loop. *)
Definition read_only (ev : Event) : bool :=
  match ev with
  | EvGet _ _ _ | EvGetJson _ _ _ | EvAfter _ | EvWorker | EvSleeper _ => true
  | _ => false
  end.

(** The two clusters differ at most in the admin identity. *)
Definition same_but_creds (c c' : CouchbaseCluster) : Prop :=
  LocalCouchbaseIp c' = LocalCouchbaseIp c
  /\ LocalCouchbasePort c' = LocalCouchbasePort c
  /\ LocalCouchbaseVersion c' = LocalCouchbaseVersion c
  /\ defaultBucketRamQuotaMB c' = defaultBucketRamQuotaMB c
  /\ defaultBucketReplicaNumber c' = defaultBucketReplicaNumber c.

(** ** Paths *)

Module Path.

(** The elements of a path: the texts between its slashes. *)
Fixpoint split_slash (p : string) : list string :=
  match p with
  | EmptyString => [EmptyString]
  | String a p' =>
      if Ascii.eqb a "/" then EmptyString :: split_slash p'
      else match split_slash p' with
           | x :: l => String a x :: l
           | [] => [String a EmptyString]
           end
  end.

(** What [..] does to the buffer, given last byte first: bytes are dropped
    down to the last slash, that slash included, but not below
    [dotdot]. *)
Fixpoint backtrack (out : list ascii) (dotdot : nat) : list ascii :=
  match out with
  | [] => []
  | x :: out' =>
      if (dotdot <? List.length out')%nat && negb (Ascii.eqb x "/")
      then backtrack out' dotdot
      else out'
  end.

Definition push (s : string) (out : list ascii) : list ascii :=
  List.rev_append (list_ascii_of_string s) out.

(** One turn of the loop of [path.Clean], on the element [elem]: the
    buffer [out], last byte first, and the mark [dotdot]. *)
Definition clean_step (rooted : bool) (state : list ascii * nat)
           (elem : string) : list ascii * nat :=
  let (out, dotdot) := state in
  if String.eqb elem EmptyString then state
  else if String.eqb elem "." then state
  else if String.eqb elem ".." then
    if (dotdot <? List.length out)%nat then (backtrack out dotdot, dotdot)
    else if negb rooted then
      let out1 := if (0 <? List.length out)%nat then push "/" out else out in
      let out2 := push ".." out1 in
      (out2, List.length out2)
    else state
  else
    let out1 :=
      if (rooted && negb (List.length out =? 1)%nat)
         || (negb rooted && negb (List.length out =? 0)%nat)
      then push "/" out else out in
    (push elem out1, dotdot).

(** [path.Clean]: the shortest path that names the same place.  The loop
    of the library goes over the path element by element, as the fold
    does here. *)
Definition Clean (p : string) : string :=
  match p with
  | EmptyString => "."
  | String a _ =>
      let rooted := Ascii.eqb a "/" in
      let init := if rooted then (["/"%char], 1%nat) else ([], 0%nat) in
      let out := fst (fold_left (clean_step rooted) (split_slash p) init) in
      match out with
      | [] => "."
      | _ => string_of_list_ascii (List.rev out)
      end
  end.

(** [path.Join]: the elements that are not empty, joined by slashes, then
    cleaned; the empty text when there is none. *)
Definition Join (elem : list string) : string :=
  match filter (fun e => negb (String.eqb e EmptyString)) elem with
  | [] => EmptyString
  | es => Clean (Strings.Join es "/")
  end.

End Path.

(** ** The host: commands, heartbeat, start-up *)

Definition DEFAULT_BUCKET_RAM_MB : string := "128".
Definition DEFAULT_BUCKET_REPLICA_NUMBER : string := "1".

(** What the start-up of a node and its heartbeat do besides the calls of
    the sections above: they refresh and set keys of etcd, run commands
    and get a page. *)
Inductive HostEvent : Type :=
| HvCore (ev : Event)
| HvUpdateDir (key : string) (ttl : Z)
| HvSet (key value : string) (ttl : Z)
| HvCommand (dir : string) (argv : list string)
| HvHttpGet (url : string).

(** The most recent event is at the head. *)
Definition HostHistory := list HostEvent.

Record HostEnv : Type := mkHostEnv {
  host_core : Env;
  (** [etcdClient.UpdateDir(key, ttl)]: its error. *)
  etcd_UpdateDir : HostHistory -> string -> Z -> option error;
  (** [etcdClient.Set(key, value, ttl)]: its error. *)
  etcd_Set : HostHistory -> string -> string -> Z -> option error;
  (** [exec.Command(argv...)] run in the directory [dir]: the combined
      output and the error. *)
  os_command : HostHistory -> string -> list string -> string * option error;
  (** [http.Get(url)]: the status code of the response, or the error. *)
  http_Get : HostHistory -> string -> Z + error
}.

Definition HM (A : Type) : Type := HostHistory -> A * HostHistory.

Definition hret {A} (a : A) : HM A := fun w => (a, w).

Definition hbind {A B} (m : HM A) (k : A -> HM B) : HM B :=
  fun w => let (a, w') := m w in k a w'.

Definition hcall {A} (ev : HostEvent) (answer : HostHistory -> A) : HM A :=
  fun w => (answer w, ev :: w).

(** The calls of the sections above that a history of the host holds. *)
Fixpoint core_of (w : HostHistory) : History :=
  match w with
  | [] => []
  | HvCore ev :: w' => ev :: core_of w'
  | _ :: w' => core_of w'
  end.

(** A computation of the sections above, run on the host: it sees the
    calls of its own kind, and what it adds is added to the history of the
    host. *)
Definition lift {A} (m : M A) : HM A :=
  fun w =>
    let h := core_of w in
    let (a, h') := m h in
    (a, (map HvCore (firstn (List.length h' - List.length h) h') ++ w)%list).

Definition hsleep_seconds (seconds : Z) : HM unit :=
  hcall (HvCore (EvAfter (Int.mul time_Second seconds))) (fun _ => tt).

Section Host.

Variable henv : HostEnv.

Definition command (dir : string) (argv : list string)
  : HM (string * option error) :=
  hcall (HvCommand dir argv) (fun w => os_command henv w dir argv).

(** [cmd.Dir] is empty unless it is set. *)
Definition PrepareVarDirectory : HM (option error) :=
  hbind (command "/opt/couchbase/var"
           ["mkdir"; "-p"; "lib/couchbase"; "lib/couchbase/config";
            "lib/couchbase/data"; "lib/couchbase/stats";
            "lib/couchbase/logs"; "lib/moxi"])
    (fun r =>
       match snd r with
       | Some e => hret (Some e)
       | None =>
           hbind (command EmptyString
                    ["chown"; "-R"; "couchbase:couchbase";
                     "/opt/couchbase/var"])
             (fun r =>
                match snd r with
                | Some e => hret (Some e)
                | None => hret None
                end)
       end).

Definition CouchbaseServiceRunning : HM (bool * option error) :=
  hbind (command EmptyString ["service"; "couchbase-server"; "status"])
    (fun r =>
       match snd r with
       | Some _ => hret (false, None)
       | None => hret (Strings.Contains (fst r) "is running", None)
       end).

(** [remaining] is [MAX_RETRIES_START_COUCHBASE - i]. *)
Fixpoint StartCouchbaseService_loop (remaining : nat) : HM (option error) :=
  match remaining with
  | O => hret (Some "Unable to start couchbase service after several retries")
  | S remaining' =>
      hbind (command EmptyString ["service"; "couchbase-server"; "start"])
        (fun r =>
           match snd r with
           | Some e => hret (Some e)
           | None =>
               hbind CouchbaseServiceRunning
                 (fun s =>
                    match snd s with
                    | Some e => hret (Some e)
                    | None =>
                        if fst s then hret None
                        else hbind (hsleep_seconds 10)
                               (fun _ => StartCouchbaseService_loop remaining')
                    end)
           end)
  end.

Definition StartCouchbaseService : HM (option error) :=
  StartCouchbaseService_loop MAX_RETRIES_START_COUCHBASE.

Variable c : CouchbaseCluster.

Fixpoint WaitForRestService_loop (remaining : nat) : HM (option error) :=
  match remaining with
  | O => hret (Some "Unable to connect to REST api after several attempts")
  | S remaining' =>
      let endpointUrl :=
        "http://" ++ LocalCouchbaseIp c ++ ":" ++ LocalCouchbasePort c
        ++ "/" in
      hbind (hcall (HvHttpGet endpointUrl)
                   (fun w => http_Get henv w endpointUrl))
        (fun r =>
           match r with
           | inl statusCode =>
               if statusCode =? 200 then hret None
               else hbind (hsleep_seconds 10)
                      (fun _ => WaitForRestService_loop remaining')
           | inr _ =>
               hbind (hsleep_seconds 10)
                 (fun _ => WaitForRestService_loop remaining')
           end)
  end.

Definition WaitForRestService : HM (option error) :=
  WaitForRestService_loop MAX_RETRIES_START_COUCHBASE.

(** The key under which the node publishes itself. *)
Definition node_state_key : string :=
  Path.Join [KEY_NODE_STATE; LocalCouchbaseIp c].

Definition PublishNodeStateEtcd (ttlSeconds : Z) : HM (option error) :=
  let key := node_state_key in
  hcall (HvSet key "up" ttlSeconds)
        (fun w => etcd_Set henv w key "up" ttlSeconds).

(** [EventLoop] is a [for] with no exit: [ticks] turns of it, and the
    value of its variable [lastErr] after them. *)
Fixpoint EventLoop (ticks : nat) (lastErr : option error)
  : HM (option error) :=
  match ticks with
  | O => hret lastErr
  | S ticks' =>
      let ttlSeconds := 10 in
      hbind (hcall (HvUpdateDir KEY_NODE_STATE ttlSeconds)
                   (fun w => etcd_UpdateDir henv w KEY_NODE_STATE ttlSeconds))
        (fun _ =>
           hbind (PublishNodeStateEtcd ttlSeconds)
             (fun err =>
                let lastErr :=
                  match err with
                  | Some e => Some e
                  | None =>
                      match lastErr with
                      | Some _ => None
                      | None => lastErr
                      end
                  end in
                hbind (hsleep_seconds (ttlSeconds / 2))
                  (fun _ => EventLoop ticks' lastErr)))
  end.

End Host.

(** How a call of [StartCouchbaseNode] stands: it has returned, or it is
    in its event loop, which it never leaves. *)
Inductive Started : Type :=
| StartReturned (err : option error)
| StartRunning (lastErr : option error).

Definition set_defaults (c : CouchbaseCluster) : CouchbaseCluster :=
  mkCluster (LocalCouchbaseIp c) LOCAL_COUCHBASE_PORT
            (LocalCouchbaseVersion c) (AdminUsername c) (AdminPassword c)
            DEFAULT_BUCKET_RAM_MB DEFAULT_BUCKET_REPLICA_NUMBER.

Section Startup.

Variable henv : HostEnv.

(** The receiver is a pointer: the cluster is returned too.  [ticks]
    bounds the turns of the event loop that are run. *)
Definition StartCouchbaseNode (ticks : nat) (c : CouchbaseCluster)
  : HM (Started * CouchbaseCluster) :=
  if String.eqb (LocalCouchbaseIp c) EmptyString
  then hret (StartReturned
               (Some "You must define LocalCouchbaseIp before calling"), c)
  else
    let c := set_defaults c in
    hbind (lift (BecomeFirstClusterNode (host_core henv)))
      (fun r =>
         let success := fst r in
         match snd r with
         | Some e => hret (StartReturned (Some e), c)
         | None =>
    hbind (PrepareVarDirectory henv)
      (fun err =>
         match err with
         | Some e => hret (StartReturned (Some e), c)
         | None =>
    hbind (StartCouchbaseService henv)
      (fun err =>
         match err with
         | Some e => hret (StartReturned (Some e), c)
         | None =>
    hbind (lift (FetchClusterDetails (host_core henv) c))
      (fun r =>
         let c := snd r in
         match fst r with
         | Some e => hret (StartReturned (Some e), c)
         | None =>
    hbind (if success
           then hbind (lift (ClusterInit (host_core henv) c))
                  (fun err =>
                     match err with
                     | Some e => hret (Some e)
                     | None => lift (CreateDefaultBucket (host_core henv) c)
                     end)
           else lift (JoinExistingCluster (host_core henv) c))
      (fun err =>
         match err with
         | Some e => hret (StartReturned (Some e), c)
         | None =>
    hbind (EventLoop henv c ticks None)
      (fun lastErr => hret (StartRunning lastErr, c))
         end)
         end)
         end)
         end)
         end).

End Startup.

(** The events of [n] turns of the event loop, the most recent first:
    each turn refreshes the membership directory for ten seconds,
    publishes the node for ten seconds, and waits five. *)
Fixpoint heartbeat_events (c : CouchbaseCluster) (n : nat)
  : list HostEvent :=
  match n with
  | O => []
  | S n' =>
      HvCore (EvAfter (5 * time_Second))
      :: HvSet (node_state_key c) "up" 10
      :: HvUpdateDir KEY_NODE_STATE 10
      :: heartbeat_events c n'
  end.

(** A path element that [path.Clean] keeps as it is: it is not empty,
    holds no slash, and is neither [.] nor [..]. *)
Definition plain_element (s : string) : Prop :=
  s <> EmptyString /\ Strings.Index s "/" = None /\ s <> "." /\ s <> "..".

(** The computation only adds to the history of the host. *)
Definition hextends {A} (m : HM A) : Prop :=
  forall w, exists added, snd (m w) = (added ++ w)%list.

Definition service_start : list string :=
  ["service"; "couchbase-server"; "start"].

Definition service_status : list string :=
  ["service"; "couchbase-server"; "status"].

(** The error of the start command run after the history [w]. *)
Definition start_error (henv : HostEnv) (w : HostHistory) : option error :=
  snd (os_command henv w EmptyString service_start).

(** Whether the status command, run after the start command, says that
    the service is running; a status command that fails says it is
    not. *)
Definition runs_after_start (henv : HostEnv) (w : HostHistory) : bool :=
  let r := os_command henv (HvCommand EmptyString service_start :: w)
             EmptyString service_status in
  match snd r with
  | Some _ => false
  | None => Strings.Contains (fst r) "is running"
  end.

(** A turn of [StartCouchbaseService] that started the service and did
    not find it running, with the wait of ten seconds; [k] of them. *)
Definition service_round (w : HostHistory) : HostHistory :=
  HvCore (EvAfter (Int.mul time_Second 10))
  :: HvCommand EmptyString service_status
  :: HvCommand EmptyString service_start :: w.

Definition service_rounds (k : nat) (w : HostHistory) : HostHistory :=
  Nat.iter k service_round w.


(** The address that [WaitForRestService] asks. *)
Definition rest_url (c : CouchbaseCluster) : string :=
  "http://" ++ LocalCouchbaseIp c ++ ":" ++ LocalCouchbasePort c ++ "/".

(** Whether the REST service answers 200 after the history [w]; an error
    of the GET says it does not. *)
Definition rest_up (henv : HostEnv) (c : CouchbaseCluster) (w : HostHistory)
  : bool :=
  match http_Get henv w (rest_url c) with
  | inl statusCode => statusCode =? 200
  | inr _ => false
  end.

(** A turn of [WaitForRestService] that did not get a 200, with the wait
    of ten seconds; [k] of them. *)
Definition rest_round (c : CouchbaseCluster) (w : HostHistory)
  : HostHistory :=
  HvCore (EvAfter (Int.mul time_Second 10)) :: HvHttpGet (rest_url c) :: w.

Definition rest_rounds (c : CouchbaseCluster) (k : nat) (w : HostHistory)
  : HostHistory :=
  Nat.iter k (rest_round c) w.

Module HostScenario.

(** A host where every command succeeds with no output, etcd accepts
    every write and the REST service answers 200. *)
Definition quiet_host (core : Env) : HostEnv :=
  mkHostEnv core (fun _ _ _ => None) (fun _ _ _ _ => None)
            (fun _ _ _ => (EmptyString, None)) (fun _ _ => inl 200).

(** The service needs time: the status says running once seven calls have
    been made. *)
Definition slow_service : HostEnv :=
  mkHostEnv Scenario.quiet (fun _ _ _ => None) (fun _ _ _ _ => None)
            (fun w _ _ =>
               if (List.length w <? 7)%nat
               then ("couchbase-server is not running", None)
               else ("couchbase-server is running", None))
            (fun _ _ => inl 200).

(** The REST service refuses the connection, then answers 503, then
    200. *)
Definition slow_rest : HostEnv :=
  mkHostEnv Scenario.quiet (fun _ _ _ => None) (fun _ _ _ _ => None)
            (fun _ _ _ => (EmptyString, None))
            (fun w _ =>
               match List.length w with
               | O => inr "dial tcp 10.0.0.2:8091: connection refused"
               | 2%nat => inl 503
               | _ => inl 200
               end).

(** A node that was given its address and nothing else. *)
Definition fresh_node : CouchbaseCluster :=
  mkCluster "10.0.0.2" EmptyString EmptyString EmptyString EmptyString
            EmptyString EmptyString.

(** A node that was given no address. *)
Definition no_address : CouchbaseCluster :=
  mkCluster EmptyString EmptyString EmptyString EmptyString EmptyString
            EmptyString EmptyString.

End HostScenario.

(** ** The commands that wait for the cluster *)



Section Commands.

Variable env : Env.



End Commands.


Module CommandScenario.


End CommandScenario.
(** * Properties *)

Ltac run := unfold bind, ret, call; simpl.

(** ** Strings *)

Module StringFacts.

Import Strings.

Lemma take_drop (n : nat) (s : string) : take n s ++ drop n s = s.
Proof.
  revert s; induction n as [|n IH]; intros [|a s]; simpl; try reflexivity.
  now rewrite IH.
Qed.

Lemma LastIndexByte_None_no_byte (s : string) (c : ascii) :
  LastIndexByte s c = None -> Index s (String c EmptyString) = None.
Proof.
  induction s as [|a s IH]; simpl; intros H.
  - reflexivity.
  - destruct (LastIndexByte s c) eqn:E; [discriminate|].
    destruct (Ascii.eqb a c) eqn:Eac; [discriminate|].
    unfold HasPrefix; simpl.
    destruct (ascii_dec c a) as [->|_].
    + rewrite Ascii.eqb_refl in Eac; discriminate.
    + now rewrite IH.
Qed.

Lemma LastIndexByte_split (s : string) (c : ascii) (i : nat) :
  LastIndexByte s c = Some i ->
  (exists d, take (S i) s = d ++ String c EmptyString)
  /\ Index (drop (S i) s) (String c EmptyString) = None.
Proof.
  revert i; induction s as [|a s IH]; simpl; intros i H; [discriminate|].
  destruct (LastIndexByte s c) as [j|] eqn:E.
  - injection H as <-.
    destruct (IH j eq_refl) as [[d Hd] Hn]. split; [|exact Hn].
    exists (String a d). simpl in Hd |- *. now rewrite Hd.
  - destruct (Ascii.eqb a c) eqn:Eac; [|discriminate].
    injection H as <-. apply Ascii.eqb_eq in Eac; subst a. split.
    + exists EmptyString. reflexivity.
    + simpl. destruct s; now apply LastIndexByte_None_no_byte.
Qed.

(** [path.Split] cuts its argument in two; the second part holds no
    slash and the first is empty or ends with one. *)
Lemma path_Split_last_element (p : string) :
  fst (path_Split p) ++ snd (path_Split p) = p
  /\ Index (snd (path_Split p)) "/" = None
  /\ (fst (path_Split p) = EmptyString
      \/ exists d, fst (path_Split p) = d ++ "/").
Proof.
  unfold path_Split.
  destruct (LastIndexByte p "/") as [i|] eqn:E; cbn [fst snd].
  - destruct (LastIndexByte_split _ _ _ E) as [[d Hd] Hn].
    repeat split.
    + apply take_drop.
    + exact Hn.
    + right. exists d. exact Hd.
  - repeat split.
    + now apply LastIndexByte_None_no_byte.
    + now left.
Qed.

End StringFacts.

Module ContainsFacts.

Import Strings.

Lemma Index_app_r (a b sub : string) :
  Index b sub <> None -> Index (a ++ b) sub <> None.
Proof.
  intros Hb. induction a as [|x a IH]; [exact Hb|].
  cbn [append Index].
  destruct (HasPrefix (String x (a ++ b)) sub); [discriminate|].
  destruct (Index (a ++ b) sub); [discriminate | contradiction].
Qed.

Lemma Contains_app_r (a b sub : string) :
  Contains b sub = true -> Contains (a ++ b) sub = true.
Proof.
  unfold Contains. intros Hb.
  pose proof (Index_app_r a b sub) as H.
  destruct (Index b sub); [|discriminate].
  destruct (Index (a ++ b) sub); [reflexivity|].
  exfalso. apply H; [discriminate | reflexivity].
Qed.

End ContainsFacts.

Module SplitFacts.

Import Strings.

Lemma HasPrefix_length (s p : string) :
  HasPrefix s p = true -> (String.length p <= String.length s)%nat.
Proof.
  unfold HasPrefix. revert s. induction p as [|a p IH]; intros s H.
  - cbn. lia.
  - destruct s as [|b s]; cbn in H; [discriminate|].
    destruct (ascii_dec a b); [|discriminate].
    cbn. apply IH in H. lia.
Qed.

Lemma Index_bound (s sub : string) (m : nat) :
  Index s sub = Some m -> (m + String.length sub <= String.length s)%nat.
Proof.
  revert m. induction s as [|a s IH]; intros m; cbn [Index].
  - destruct (HasPrefix EmptyString sub) eqn:E; [|discriminate].
    intros [= <-]. apply HasPrefix_length in E. cbn in *. lia.
  - destruct (HasPrefix (String a s) sub) eqn:E.
    + intros [= <-]. apply HasPrefix_length in E. cbn in *. lia.
    + destruct (Index s sub) as [i|]; [|discriminate].
      intros [= <-]. specialize (IH i eq_refl). cbn. lia.
Qed.

Lemma length_drop (n : nat) (s : string) :
  String.length (drop n s) = (String.length s - n)%nat.
Proof.
  revert s. induction n as [|n IH]; intros [|a s]; cbn; auto.
Qed.

Lemma take_app (u r : string) : take (String.length u) (u ++ r) = u.
Proof.
  induction u as [|a u IH]; cbn.
  - now destruct r.
  - now rewrite IH.
Qed.

Lemma drop_app (u r : string) : drop (String.length u) (u ++ r) = r.
Proof.
  induction u as [|a u IH]; cbn; [now destruct r | exact IH].
Qed.

(** With a non-empty separator, the pieces do not depend on the fuel once
    it covers the length of the text. *)
Lemma genSplit_fuel (a : ascii) (sep' : string) (f1 f2 : nat) (s : string) :
  (String.length s <= f1)%nat -> (String.length s <= f2)%nat ->
  genSplit f1 s (String a sep') = genSplit f2 s (String a sep').
Proof.
  revert f2 s. induction f1 as [|f1 IH]; intros f2 s H1 H2.
  - destruct s; [|cbn in H1; lia].
    destruct f2; reflexivity.
  - destruct f2 as [|f2].
    + destruct s; [|cbn in H2; lia]. reflexivity.
    + cbn [genSplit].
      destruct (Index s (String a sep')) as [m|] eqn:E; [|reflexivity].
      f_equal. apply Index_bound in E. cbn [String.length] in E.
      apply IH; rewrite length_drop; cbn [String.length]; lia.
Qed.

Lemma Index_colon_app (u r : string) :
  Contains u ":" = false ->
  Index (u ++ ":" ++ r) ":" = Some (String.length u).
Proof.
  unfold Contains. change (":" ++ r) with (String ":"%char r).
  induction u as [|a u IH]; intros Hu.
  - cbn. now destruct r.
  - cbn [Index] in Hu. cbn [append Index String.length].
    unfold HasPrefix in *. cbn [prefix] in *.
    destruct (ascii_dec ":" a).
    + destruct u; cbn in Hu; discriminate.
    + destruct (Index u ":") eqn:E; [discriminate|].
      now rewrite IH.
Qed.

Lemma Contains_colon_app (u r : string) :
  Contains (u ++ ":" ++ r) ":" = true.
Proof.
  apply ContainsFacts.Contains_app_r. cbn. now destruct r.
Qed.

(** A text without colon is its only piece. *)
Lemma Split_no_colon (s : string) :
  Contains s ":" = false -> Split s ":" = [s].
Proof.
  unfold Contains, Split. intros H.
  destruct (String.length s); cbn [genSplit]; [reflexivity|].
  now destruct (Index s ":").
Qed.

(** The first piece is the text before the first colon; the other pieces
    are those of the text after it. *)
Lemma Split_colon_app (u r : string) :
  Contains u ":" = false ->
  Split (u ++ ":" ++ r) ":" = u :: Split r ":".
Proof.
  intros Hu. unfold Split.
  assert (Hlen : String.length (u ++ ":" ++ r)
                 = S (String.length u + String.length r)).
  { clear. induction u as [|a u IH]; cbn in *; [reflexivity | now rewrite IH]. }
  rewrite Hlen. cbn [genSplit]. rewrite (Index_colon_app u r Hu).
  rewrite take_app. f_equal.
  replace (drop (String.length u + String.length ":") (u ++ ":" ++ r)) with r.
  - apply genSplit_fuel; lia.
  - cbn [String.length]. rewrite Nat.add_1_r.
    clear. induction u as [|a u IH]; cbn; [now destruct r | exact IH].
Qed.

End SplitFacts.

Module TextFacts.

Import Strings Text.

Lemma span_parts (p : ascii -> bool) (s : string) :
  fst (span p s) ++ snd (span p s) = s
  /\ all_bytes p (fst (span p s)) = true.
Proof.
  induction s as [|a s [IH1 IH2]]; [now split|].
  cbn [span]. destruct (p a) eqn:Ea; [|now split].
  destruct (span p s) as [l r]. cbn [fst snd] in *.
  split; [cbn; now rewrite IH1 | cbn; now rewrite Ea].
Qed.

(** Nothing is cut from a text that does not start with a byte of [p]. *)
Lemma span_none (p q : ascii -> bool) (s : string) :
  (forall a, q a = true -> p a = false) ->
  all_bytes q s = true -> snd (span p s) = s.
Proof.
  intros Hpq. destruct s as [|a s]; [reflexivity|]. cbn.
  intros H. apply andb_true_iff in H. destruct H as [Ha _].
  now rewrite (Hpq a Ha).
Qed.

Lemma span_spaces_digits (spaces digits : string) :
  all_bytes is_space spaces = true ->
  all_bytes is_digit digits = true ->
  snd (span is_white (spaces ++ digits)) = digits.
Proof.
  intros Hs Hd. induction spaces as [|a spaces IH].
  - cbn [append]. apply (span_none is_white is_digit); [|exact Hd].
    intros a Ha. unfold is_digit, is_white in *.
    apply andb_true_iff in Ha. destruct Ha as [H1 H2].
    apply Nat.leb_le in H1. apply Nat.leb_le in H2.
    apply orb_false_iff. split.
    + apply andb_false_iff. right. apply Nat.leb_gt. lia.
    + apply Nat.eqb_neq. lia.
  - cbn in Hs. apply andb_true_iff in Hs. destruct Hs as [Ha Hs].
    cbn [append span]. unfold is_space in Ha. apply Ascii.eqb_eq in Ha.
    subst a. cbn. specialize (IH Hs).
    destruct (span is_white (spaces ++ digits)). exact IH.
Qed.

Lemma all_bytes_rev (p : ascii -> bool) (s acc : string) :
  all_bytes p (rev_string s acc) = all_bytes p s && all_bytes p acc.
Proof.
  revert acc. induction s as [|a s IH]; intros acc; [reflexivity|].
  cbn [rev_string all_bytes]. rewrite IH. cbn [all_bytes].
  destruct (p a), (all_bytes p s); reflexivity.
Qed.

Lemma rev_string_rev (s acc acc' : string) :
  rev_string (rev_string s acc) acc' = rev_string acc (s ++ acc').
Proof.
  revert acc acc'. induction s as [|a s IH]; intros acc acc'; [reflexivity|].
  cbn [rev_string append]. now rewrite IH.
Qed.

(** [TrimSpace] leaves the digits that follow the spaces. *)
Lemma TrimSpace_spaces_digits (spaces digits : string) :
  all_bytes is_space spaces = true ->
  all_bytes is_digit digits = true ->
  TrimSpace (spaces ++ digits) = digits.
Proof.
  intros Hs Hd. unfold TrimSpace.
  rewrite (span_spaces_digits _ _ Hs Hd).
  replace (snd (span is_white (rev_string digits EmptyString)))
    with (rev_string digits EmptyString).
  - rewrite rev_string_rev. cbn [rev_string]. clear.
    induction digits as [|a d IH]; cbn; [reflexivity | now rewrite IH].
  - symmetry. apply (span_spaces_digits EmptyString); [reflexivity|].
    rewrite all_bytes_rev, Hd. reflexivity.
Qed.

Lemma digits_value_nonneg (s : string) (acc v : Z) :
  digits_value s acc = Some v -> 0 <= acc -> 0 <= v.
Proof.
  revert acc. induction s as [|a s IH]; intros acc; cbn [digits_value].
  - now intros [= <-].
  - destruct (is_digit a) eqn:Ea; [|discriminate].
    intros H Hacc. apply (IH _ H).
    unfold is_digit in Ea. apply andb_true_iff in Ea.
    destruct Ea as [H1 _]. apply Nat.leb_le in H1. lia.
Qed.

(** On digits, [Atoi] gives a number from 0 to the largest [int]. *)
Lemma Atoi_digits_range (digits : string) (n : Z) :
  all_bytes is_digit digits = true ->
  Atoi digits = inl n -> 0 <= n <= Int.max_int.
Proof.
  intros Hd H.
  assert (Hpos : Atoi_digits digits false digits = inl n).
  { destruct digits as [|a ds]; [exact H|]. unfold Atoi in H.
    cbn in Hd. apply andb_true_iff in Hd. destruct Hd as [Ha _].
    destruct (Ascii.eqb_spec a "-") as [->|_]; [discriminate Ha|].
    destruct (Ascii.eqb_spec a "+") as [->|_]; [discriminate Ha|].
    exact H. }
  unfold Atoi_digits in Hpos.
  destruct digits as [|a ds]; [discriminate|].
  destruct (digits_value (String a ds) 0) as [v|] eqn:Ev; [|discriminate].
  cbn zeta in Hpos.
  destruct ((Int.min_int <=? v) && (v <=? Int.max_int)) eqn:Er;
    [|discriminate].
  injection Hpos as <-. apply andb_true_iff in Er. destruct Er as [_ Er].
  apply Z.leb_le in Er. split; [|exact Er].
  now apply (digits_value_nonneg _ 0 v Ev).
Qed.

(** A match of the pattern is [Mem:], spaces, digits. *)
Lemma FindString_Mem_shape (output : string) :
  FindString_Mem output = EmptyString
  \/ exists spaces digits,
      FindString_Mem output = "Mem:" ++ spaces ++ digits
      /\ all_bytes is_space spaces = true
      /\ all_bytes is_digit digits = true.
Proof.
  unfold FindString_Mem.
  destruct (Index output "Mem:") as [i|]; [right | now left].
  pose proof (span_parts is_space (drop (i + 4) output)) as [_ Hs].
  destruct (span is_space (drop (i + 4) output)) as [spaces rest].
  pose proof (span_parts is_digit rest) as [_ Hd].
  destruct (span is_digit rest) as [digits rest'].
  now exists spaces, digits.
Qed.

Lemma no_colon_spaces_digits (spaces digits : string) :
  all_bytes is_space spaces = true ->
  all_bytes is_digit digits = true ->
  Contains (spaces ++ digits) ":" = false.
Proof.
  intros Hs Hd. unfold Contains.
  induction spaces as [|a spaces IH].
  - cbn [append]. induction digits as [|d digits IHd]; [reflexivity|].
    cbn in Hd. apply andb_true_iff in Hd. destruct Hd as [Ha Hd].
    cbn [Index]. unfold HasPrefix. cbn [prefix].
    destruct (ascii_dec ":" d) as [<-|_]; [discriminate Ha|].
    specialize (IHd Hd). now destruct (Index digits ":").
  - cbn in Hs. apply andb_true_iff in Hs. destruct Hs as [Ha Hs].
    unfold is_space in Ha. apply Ascii.eqb_eq in Ha. subst a.
    cbn [append Index]. unfold HasPrefix. cbn [prefix].
    destruct (ascii_dec ":" " "); [discriminate|].
    specialize (IH Hs). now destruct (Index (spaces ++ digits) ":").
Qed.

End TextFacts.

(** ** Integers *)

Module IntFacts.

Lemma wrap_in_range (z : Z) : Int.in_range z -> Int.wrap z = z.
Proof.
  unfold Int.in_range, Int.min_int, Int.max_int, Int.wrap. intros H.
  rewrite Z.mod_small; lia.
Qed.

(** Without overflow, three quarters of a non-negative reading. *)
Lemma three_quarters (n : Z) :
  0 <= n -> n * 75 <= Int.max_int ->
  Int.quo (Int.mul n 75) 100 = n * 75 / 100.
Proof.
  intros H0 Hmax. unfold Int.quo, Int.mul.
  assert (Hr : Int.in_range (n * 75))
    by (unfold Int.in_range, Int.min_int, Int.max_int in *; lia).
  rewrite (wrap_in_range _ Hr).
  rewrite Z.quot_div_nonneg by lia.
  apply wrap_in_range.
  assert (0 <= n * 75 / 100 <= n * 75).
  { split; [apply Z.div_pos; lia|].
    apply Z.div_le_upper_bound; lia. }
  unfold Int.in_range, Int.min_int, Int.max_int in *. lia.
Qed.

End IntFacts.

(** ** Election and peer discovery *)

Section MembershipFacts.

Variable env : Env.

(** C1.  [BecomeFirstClusterNode] makes one attempt to create the
    membership directory.  It returns [(true, nil)] exactly when the
    creation succeeds; when the creation fails with the store's "Key
    already exists" error it returns [(false, nil)]; every other
    creation error is returned as it is, with [false]. *)
Theorem BecomeFirstClusterNode_outcome (h : History) :
  let created := etcd_CreateDir env h KEY_NODE_STATE TTL_NONE in
  let r := fst (BecomeFirstClusterNode env h) in
  (r = (true, None) <-> created = None)
  /\ (forall e, created = Some e ->
                Strings.Contains e "Key already exists" = true ->
                r = (false, None))
  /\ (forall e, created = Some e ->
                Strings.Contains e "Key already exists" = false ->
                r = (false, Some e))
  /\ snd (BecomeFirstClusterNode env h)
     = EvCreateDir KEY_NODE_STATE TTL_NONE :: h.
Proof.
  unfold BecomeFirstClusterNode; run.
  destruct (etcd_CreateDir env h KEY_NODE_STATE TTL_NONE) as [e|] eqn:Ec.
  - destruct (Strings.Contains e "Key already exists") eqn:Ek; cbn.
    + repeat split; try discriminate.
      * intros e' [= <-] He. congruence.
    + repeat split; try discriminate.
      * intros e' [= <-] He. congruence.
      * now intros e' [= <-] _.
  - cbn. repeat split; discriminate.
Qed.

(** A failed read of the membership directory is reported, wrapped, with
    an empty address. *)
Lemma FindLiveNode_get_error (h : History) (e : error) :
  etcd_Get env h KEY_NODE_STATE false false = GetErr e ->
  FindLiveNode env h
  = ((EmptyString, Some ("Error getting key.  Err: " ++ e)),
     EvGet KEY_NODE_STATE false false :: h).
Proof. intros H. unfold FindLiveNode; run. now rewrite H. Qed.

(** A response without a node is no error either. *)
Lemma FindLiveNode_nil_node (h : History) :
  etcd_Get env h KEY_NODE_STATE false false = GetOk (mkResponse None) ->
  fst (FindLiveNode env h) = (EmptyString, None).
Proof. intros H. unfold FindLiveNode; run. now rewrite H. Qed.

(** C3.  In a state of the store where the membership directory is
    absent, etcd answers the read with its "Key not found" error, and
    [FindLiveNode] returns the empty string together with an error that
    wraps it.  Where the directory is there and has no children,
    [FindLiveNode] returns the empty string and no error; where it has
    children, it returns, with no error, the last path element of the
    first child's key: what follows the final slash of the key. *)
Theorem FindLiveNode_first_child
        (h : History) (d : Directory) (index : Z) :
  etcd_Get env h KEY_NODE_STATE false false = Get_answer d index ->
  (d = DirAbsent ->
   fst (FindLiveNode env h)
   = (EmptyString,
      Some ("Error getting key.  Err: 100: Key not found "
            ++ "(/couchbase.com/couchbase-node-state) ["
            ++ Int.format index ++ "]")))
  /\ (d = DirPresent [] ->
      fst (FindLiveNode env h) = (EmptyString, None))
  /\ (forall subNode rest,
         d = DirPresent (subNode :: rest) ->
         exists dir ip,
           fst (FindLiveNode env h) = (ip, None)
           /\ Key subNode = dir ++ ip
           /\ Strings.Index ip "/" = None
           /\ (dir = EmptyString \/ exists d', dir = d' ++ "/")).
Proof.
  intros Hget. unfold FindLiveNode; run. rewrite Hget. split; [|split].
  - now intros ->.
  - now intros ->.
  - intros subNode rest ->. cbn.
    destruct (StringFacts.path_Split_last_element (Key subNode))
      as [Hcat [Hno Hdir]].
    exists (fst (path_Split (Key subNode))), (snd (path_Split (Key subNode))).
    repeat split; auto.
Qed.

End MembershipFacts.

Lemma BecomeFirstClusterNode_outcome_witness :
  fst (BecomeFirstClusterNode Scenario.lost_race []) = (false, None).
Proof.
  pose proof (BecomeFirstClusterNode_outcome Scenario.lost_race []) as H.
  cbv zeta in H. destruct H as [_ [H _]].
  apply (H "105: Key already exists (/couchbase.com/couchbase-node-state) [7]");
    reflexivity.
Defined.

Lemma FindLiveNode_first_child_witness :
  exists dir ip,
    fst (FindLiveNode Scenario.one_peer []) = (ip, None)
    /\ Key (Scenario.peer "10.0.0.1") = dir ++ ip
    /\ Strings.Index ip "/" = None
    /\ (dir = EmptyString \/ exists d, dir = d ++ "/").
Proof.
  refine (proj2 (proj2 (FindLiveNode_first_child Scenario.one_peer []
                          (DirPresent [Scenario.peer "10.0.0.1";
                                       Scenario.peer "10.0.0.3"])
                          0 eq_refl))
            (Scenario.peer "10.0.0.1") [Scenario.peer "10.0.0.3"] eq_refl).
Defined.

(** C3, the absent directory.  A node that looks for a peer before any
    node has created the membership directory gets an error, not the
    empty answer of an empty directory. *)
Lemma FindLiveNode_absent_directory :
  etcd_Get Scenario.absent_directory [] KEY_NODE_STATE false false
  = Get_answer DirAbsent 7
  /\ fst (FindLiveNode Scenario.absent_directory [])
     = (EmptyString,
        Some ("Error getting key.  Err: 100: Key not found "
              ++ "(/couchbase.com/couchbase-node-state) [7]"))
  /\ fst (FindLiveNode Scenario.absent_directory []) <> (EmptyString, None).
Proof.
  split; [reflexivity|]. split; [reflexivity | discriminate].
Qed.

Example FindLiveNode_one_peer :
  fst (FindLiveNode Scenario.one_peer []) = ("10.0.0.1", None).
Proof. reflexivity. Qed.

(** ** The REST gateway and the health checks *)

Section GatewayFacts.

Variable env : Env.
Variable c : CouchbaseCluster.

(** [POST] with the configured credentials: a status from 200 to 299 is
    no error. *)
Lemma POST_2xx (h : History) (url : string) (data : Values)
      (statusCode : Z) (body : string + error) :
  http_NewRequest env "POST" url = None ->
  http_Do env h (mkRequest "POST" url "application/x-www-form-urlencoded"
                   (AdminUsername c) (AdminPassword c) data)
  = DoResp statusCode body ->
  200 <= statusCode <= 299 ->
  fst (POST env c false url data h) = None.
Proof.
  intros Hn Hd Hs. unfold POST. rewrite Hn. run. rewrite Hd.
  replace (statusCode <? 200) with false by (symmetry; apply Z.ltb_ge; lia).
  replace (statusCode >? 299) with false
    by (symmetry; rewrite Z.gtb_ltb; apply Z.ltb_ge; lia).
  reflexivity.
Qed.

(** [POST] with the configured credentials: any other status is an error
    whose text ends with the body of the response. *)
Lemma POST_not_2xx (h : History) (url : string) (data : Values)
      (statusCode : Z) (body : string) :
  http_NewRequest env "POST" url = None ->
  http_Do env h (mkRequest "POST" url "application/x-www-form-urlencoded"
                   (AdminUsername c) (AdminPassword c) data)
  = DoResp statusCode (inl body) ->
  statusCode < 200 \/ 299 < statusCode ->
  fst (POST env c false url data h)
  = Some ("Failed to POST to " ++ url ++ ".  Status code: "
          ++ Int.format statusCode ++ ".  Body: " ++ body).
Proof.
  intros Hn Hd Hs. unfold POST. rewrite Hn. run. rewrite Hd.
  replace ((statusCode <? 200) || (statusCode >? 299)) with true; [reflexivity|].
  symmetry. apply orb_true_iff. rewrite Z.gtb_ltb, !Z.ltb_lt. exact Hs.
Qed.

(** [AddNode] in terms of what its [POST] returns. *)
Lemma AddNode_of_POST (h : History) (liveNodeIp : string) :
  fst (AddNode env c liveNodeIp h)
  = match fst (POST env c false (addNode_url c liveNodeIp)
                 (req_form (addNode_request c liveNodeIp)) h) with
    | Some e => if Strings.Contains e "Node is already part of cluster"
                then None else Some e
    | None => None
    end.
Proof.
  unfold AddNode, addNode_url, addNode_request; cbn [req_form]. unfold bind at 1.
  destruct (POST env c false _ _ h) as [[e|] h']; cbn [fst].
  - now destruct (Strings.Contains e "Node is already part of cluster").
  - reflexivity.
Qed.

(** C6.  [AddNode] returns no error when its POST succeeds, in particular
    on a status from 200 to 299, and when its POST fails with an error
    whose text contains "Node is already part of cluster", in particular
    on another status with that text in the body of the response; every
    other error of the POST is returned. *)
Theorem AddNode_absorbs_already_member (h : History) (liveNodeIp : string) :
  let posted :=
    fst (POST env c false (addNode_url c liveNodeIp)
           (req_form (addNode_request c liveNodeIp)) h) in
  let r := fst (AddNode env c liveNodeIp h) in
  (posted = None -> r = None)
  /\ (forall e, posted = Some e ->
        Strings.Contains e "Node is already part of cluster" = true ->
        r = None)
  /\ (forall e, posted = Some e ->
        Strings.Contains e "Node is already part of cluster" = false ->
        r = Some e)
  /\ (forall statusCode body,
        http_NewRequest env "POST" (addNode_url c liveNodeIp) = None ->
        http_Do env h (addNode_request c liveNodeIp)
        = DoResp statusCode body ->
        200 <= statusCode <= 299 ->
        r = None)
  /\ (forall statusCode body,
        http_NewRequest env "POST" (addNode_url c liveNodeIp) = None ->
        http_Do env h (addNode_request c liveNodeIp)
        = DoResp statusCode (inl body) ->
        statusCode < 200 \/ 299 < statusCode ->
        Strings.Contains body "Node is already part of cluster" = true ->
        r = None).
Proof.
  intros posted r. subst r. rewrite AddNode_of_POST. fold posted.
  repeat split.
  - now intros ->.
  - now intros e -> ->.
  - now intros e -> ->.
  - intros statusCode body Hn Hd Hs.
    assert (HP := POST_2xx h (addNode_url c liveNodeIp)
                    (req_form (addNode_request c liveNodeIp))
                    statusCode body Hn Hd Hs).
    unfold posted. now rewrite HP.
  - intros statusCode body Hn Hd Hs Hb.
    assert (HP := POST_not_2xx h (addNode_url c liveNodeIp)
                    (req_form (addNode_request c liveNodeIp))
                    statusCode body Hn Hd Hs).
    unfold posted. rewrite HP.
    rewrite ContainsFacts.Contains_app_r; [reflexivity|].
    apply (ContainsFacts.Contains_app_r (addNode_url c liveNodeIp)).
    apply (ContainsFacts.Contains_app_r ".  Status code: ").
    apply (ContainsFacts.Contains_app_r (Int.format statusCode)).
    apply (ContainsFacts.Contains_app_r ".  Body: "). exact Hb.
Qed.

End GatewayFacts.

Lemma AddNode_absorbs_already_member_witness :
  fst (AddNode Scenario.already_member Scenario.cluster "10.0.0.1" []) = None.
Proof.
  pose proof (AddNode_absorbs_already_member Scenario.already_member
                Scenario.cluster [] "10.0.0.1") as H.
  cbv zeta in H. destruct H as [_ [_ [_ [_ H]]]].
  apply (H 400 "[Prepare join failed. Node is already part of cluster.]");
    [reflexivity | reflexivity | lia | reflexivity].
Defined.

Section RebalanceFacts.

Variable env : Env.
Variable c : CouchbaseCluster.

(** [GetClusterNodes] makes one GET. *)
Lemma GetClusterNodes_history (h : History) (liveNodeIp : string) :
  snd (GetClusterNodes env c liveNodeIp h)
  = EvGetJson ("http://" ++ liveNodeIp ++ ":" ++ LocalCouchbasePort c
               ++ "/pools/default") (AdminUsername c) (AdminPassword c) :: h.
Proof.
  unfold GetClusterNodes, getJsonData_map; run.
  destruct (http_getJsonMap env h _ _ _) as [m|e]; [|reflexivity].
  now destruct (map_index m "nodes").
Qed.

Lemma OtpNodeList_history (h : History) (liveNodeIp : string) :
  snd (OtpNodeList env c liveNodeIp h)
  = snd (GetClusterNodes env c liveNodeIp h).
Proof.
  unfold OtpNodeList, bind.
  destruct (GetClusterNodes env c liveNodeIp h) as [[nodes [e|]] h'];
    reflexivity.
Qed.

(** [OtpNodeList] reports an entry that is not an object, or that has no
    [otpNode] string. *)
Lemma OtpNodeList_nodes_malformed (before : list json) (node : json)
      (rest : list json) (acc : list string) :
  Forall (fun n => exists fields s,
              n = JObject fields /\ map_index fields "otpNode" = JString s)
         before ->
  (forall fields s,
      node = JObject fields -> map_index fields "otpNode" <> JString s) ->
  exists ids e, OtpNodeList_nodes (before ++ node :: rest) acc = (ids, Some e).
Proof.
  intros Hb Hn. revert acc.
  induction Hb as [|n before [fields [s [-> Hs]]] _ IH]; intros acc.
  - cbn. destruct node as [| | | |elems|fields]; try (eexists _, _; reflexivity).
    destruct (map_index fields "otpNode") eqn:E;
      try (eexists _, _; reflexivity).
    exfalso. exact (Hn fields s eq_refl E).
  - cbn. rewrite Hs. apply IH.
Qed.

(** C4.  When [OtpNodeList] fails, [TriggerRebalance] posts nothing and
    returns the nil error: the error of the node list is dropped. *)
Theorem TriggerRebalance_drops_node_list_error
        (h : History) (liveNodeIp : string) (ids : list string) (e : error) :
  fst (OtpNodeList env c liveNodeIp h) = (ids, Some e) ->
  TriggerRebalance env c liveNodeIp h
  = (None, snd (GetClusterNodes env c liveNodeIp h)).
Proof.
  intros H. unfold TriggerRebalance, bind.
  rewrite <- OtpNodeList_history.
  destruct (OtpNodeList env c liveNodeIp h) as [[ids' err] h'].
  cbn in H. injection H as -> ->. reflexivity.
Qed.

(** C5.  When [minExpected] is not -1 and the peer lists fewer members
    than [minExpected], [CheckNumNodesClusterHealthy] returns [false] and
    no error after its one GET, whatever the listed entries are; so it
    does for two listed members and [minExpected = 3]. *)
Theorem CheckNumNodesClusterHealthy_too_few
        (h : History) (numNodes : Z) (liveNodeIp : string)
        (nodes : list json) :
  fst (GetClusterNodes env c liveNodeIp h) = (nodes, None) ->
  (numNodes <> -1 ->
   Z.of_nat (List.length nodes) < numNodes ->
   CheckNumNodesClusterHealthy env c numNodes liveNodeIp h
   = ((false, None), snd (GetClusterNodes env c liveNodeIp h)))
  /\ (List.length nodes = 2%nat ->
      fst (CheckNumNodesClusterHealthy env c 3 liveNodeIp h) = (false, None)).
Proof.
  intros Hg. unfold CheckNumNodesClusterHealthy, bind.
  destruct (GetClusterNodes env c liveNodeIp h) as [[nodes' err] h'].
  cbn in Hg. injection Hg as -> ->. split.
  - intros Hne Hlt.
    replace (numNodes =? -1) with false by (symmetry; now apply Z.eqb_neq).
    replace (Z.of_nat (List.length nodes) <? numNodes) with true
      by (symmetry; now apply Z.ltb_lt).
    reflexivity.
  - intros Hlen. rewrite Hlen. reflexivity.
Qed.

(** With enough listed members the entries are inspected: a malformed
    first entry is an error. *)
Lemma CheckNumNodesClusterHealthy_inspects
      (h : History) (liveNodeIp : string) (rest : list json) :
  fst (GetClusterNodes env c liveNodeIp h) = (JNull :: rest, None) ->
  fst (CheckNumNodesClusterHealthy env c (-1) liveNodeIp h)
  = (false, Some "Node had unexpected data type").
Proof.
  intros Hg. unfold CheckNumNodesClusterHealthy, bind.
  destruct (GetClusterNodes env c liveNodeIp h) as [[nodes' err] h'].
  cbn in Hg. injection Hg as -> ->. reflexivity.
Qed.

End RebalanceFacts.

Lemma TriggerRebalance_drops_node_list_error_witness :
  TriggerRebalance Scenario.two_member_cluster Scenario.cluster "10.0.0.1" []
  = (None,
     [EvGetJson "http://10.0.0.1:8091/pools/default" "user" "passw0rd"]).
Proof.
  exact (TriggerRebalance_drops_node_list_error Scenario.two_member_cluster
           Scenario.cluster [] "10.0.0.1" ["ns_1@10.0.0.1"]
           "No otpNode string found" eq_refl).
Defined.

Example TriggerRebalance_unreachable_peer :
  TriggerRebalance Scenario.pools_unreachable Scenario.cluster "10.0.0.1" []
  = (None,
     [EvGetJson "http://10.0.0.1:8091/pools/default" "user" "passw0rd"]).
Proof. reflexivity. Qed.

Example OtpNodeList_unreachable_peer :
  fst (OtpNodeList Scenario.pools_unreachable Scenario.cluster "10.0.0.1" [])
  = ([], Some "dial tcp 10.0.0.1:8091: connection refused").
Proof. reflexivity. Qed.

Lemma CheckNumNodesClusterHealthy_too_few_witness :
  CheckNumNodesClusterHealthy Scenario.two_member_cluster
    Scenario.cluster 5 "10.0.0.1" []
  = ((false, None),
     [EvGetJson "http://10.0.0.1:8091/pools/default" "user" "passw0rd"])
  /\ fst (CheckNumNodesClusterHealthy Scenario.two_member_cluster
            Scenario.cluster 3 "10.0.0.1" []) = (false, None).
Proof.
  split.
  - apply (proj1 (CheckNumNodesClusterHealthy_too_few
                    Scenario.two_member_cluster Scenario.cluster [] 5
                    "10.0.0.1" Scenario.two_members eq_refl)).
    + lia.
    + cbn. lia.
  - exact (proj2 (CheckNumNodesClusterHealthy_too_few
                    Scenario.two_member_cluster Scenario.cluster [] 3
                    "10.0.0.1" Scenario.two_members eq_refl) eq_refl).
Defined.

(** ** The default bucket *)

Section BucketFacts.

Variable env : Env.
Variable c : CouchbaseCluster.

Lemma is_default_bucket_spec (entry : json) :
  is_default_bucket entry = true
  <-> exists fields,
      entry = JObject fields /\ map_index fields "name" = JString "default".
Proof.
  split.
  - destruct entry as [| | | | |fields]; cbn; try discriminate.
    destruct (map_index fields "name") as [| | |name| |] eqn:E;
      try discriminate.
    intros Hn. apply String.eqb_eq in Hn. subst name. now exists fields.
  - intros [fields [-> Hn]]. cbn. now rewrite Hn.
Qed.

(** The loop passes over every entry that is not a default bucket and
    stops at the first that is. *)
Lemma HasDefaultBucket_entries_existsb (jsonList : list json) :
  HasDefaultBucket_entries jsonList
  = (existsb is_default_bucket jsonList, None).
Proof.
  induction jsonList as [|entry rest IH]; [reflexivity|].
  cbn [HasDefaultBucket_entries existsb].
  destruct entry as [| | | | |fields]; cbn [is_default_bucket orb]; auto.
  destruct (map_index fields "name") as [| | |name| |]; cbn [orb]; auto.
  destruct (String.eqb name "default"); cbn [orb]; auto.
Qed.

(** C10.  On a fetched bucket list, [HasDefaultBucket] returns no error,
    and [true] if and only if some entry is an object whose [name] is the
    string ["default"]; the other entries are passed over.  It returns an
    error only when the fetch or the decoding fails, and then that one. *)
Theorem HasDefaultBucket_iff (h : History) :
  let fetched := http_getJsonList env h (buckets_url c)
                   (AdminUsername c) (AdminPassword c) in
  let r := fst (HasDefaultBucket env c h) in
  (forall jsonList,
      fetched = inl jsonList ->
      r = (existsb is_default_bucket jsonList, None)
      /\ (r = (true, None)
          <-> exists entry fields,
              In entry jsonList /\ entry = JObject fields
              /\ map_index fields "name" = JString "default"))
  /\ (forall e, fetched = inr e -> r = (false, Some e))
  /\ (snd r <> None <-> exists e, fetched = inr e).
Proof.
  unfold HasDefaultBucket, getJsonData_list, buckets_url; run.
  destruct (http_getJsonList env h _ _ _) as [jsonList|e]; cbn [fst snd].
  - rewrite HasDefaultBucket_entries_existsb. split; [|split].
    + intros l [= <-]. split; [reflexivity|]. split.
      * intros Hr. injection Hr as Hr.
        apply existsb_exists in Hr. destruct Hr as [entry [Hin Hd]].
        apply is_default_bucket_spec in Hd. destruct Hd as [fields [He Hn]].
        now exists entry, fields.
      * intros [entry [fields [Hin [He Hn]]]].
        f_equal. apply existsb_exists. exists entry. split; [exact Hin|].
        apply is_default_bucket_spec. now exists fields.
    + discriminate.
    + split; [intros Hc; now contradiction Hc | intros [e He]; discriminate].
  - split; [|split].
    + discriminate.
    + now intros e' [= <-].
    + split; [intros _; now exists e | discriminate].
Qed.

End BucketFacts.

Lemma HasDefaultBucket_iff_witness :
  fst (HasDefaultBucket Scenario.has_buckets Scenario.cluster [])
  = (true, None).
Proof.
  pose proof (HasDefaultBucket_iff Scenario.has_buckets Scenario.cluster [])
    as H.
  cbv zeta in H. destruct H as [H _].
  destruct (H Scenario.buckets eq_refl) as [_ [_ Hex]].
  apply Hex.
  exists (JObject [("bucketType", JString "membase");
                   ("name", JString "default")]),
         [("bucketType", JString "membase"); ("name", JString "default")].
  cbn. intuition.
Defined.

(** ** The cluster RAM quota *)

(** A reading of the total memory is never negative. *)
Lemma CalculateTotalRam_range (env : Env) (h : History) (N : Z) :
  fst (CalculateTotalRam env h) = (N, None) -> 0 <= N <= Int.max_int.
Proof.
  unfold CalculateTotalRam, bind, call.
  destruct (os_free env h) as [output|e]; [|discriminate].
  destruct (TextFacts.FindString_Mem_shape output)
    as [-> | [spaces [digits [-> [Hs Hd]]]]]; [discriminate|].
  replace (String.eqb ("Mem:" ++ spaces ++ digits) EmptyString) with false
    by reflexivity.
  change ("Mem:" ++ spaces ++ digits) with ("Mem" ++ ":" ++ spaces ++ digits).
  rewrite SplitFacts.Contains_colon_app. cbn [negb].
  rewrite (SplitFacts.Split_colon_app "Mem" (spaces ++ digits)) by reflexivity.
  rewrite SplitFacts.Split_no_colon
    by now apply TextFacts.no_colon_spaces_digits.
  cbn [nth]. rewrite TextFacts.TrimSpace_spaces_digits by assumption.
  destruct (Text.Atoi digits) as [n|e] eqn:Ea; [|discriminate].
  cbn. intros [= <-]. now apply (TextFacts.Atoi_digits_range digits).
Qed.

Section RamFacts.

Variable env : Env.
Variable c : CouchbaseCluster.

(** [CalculateTotalRam] runs [free -m] once. *)
Lemma CalculateTotalRam_history (h : History) :
  snd (CalculateTotalRam env h) = EvFree :: h.
Proof.
  unfold CalculateTotalRam; run.
  destruct (os_free env h) as [output|e]; [|reflexivity].
  destruct (String.eqb (Text.FindString_Mem output) EmptyString);
    [reflexivity|].
  destruct (Strings.Contains (Text.FindString_Mem output) ":");
    [|reflexivity].
  cbn [negb].
  now destruct (Text.Atoi _).
Qed.

Lemma CalculateClusterRam_of_total (h : History) :
  CalculateClusterRam env h
  = (match fst (CalculateTotalRam env h) with
     | (_, Some e) => (EmptyString, Some e)
     | (totalRamMb, None) =>
         (Int.format (Int.quo (Int.mul totalRamMb 75) 100), None)
     end, EvFree :: h).
Proof.
  unfold CalculateClusterRam, bind.
  rewrite <- CalculateTotalRam_history.
  destruct (CalculateTotalRam env h) as [[n [e|]] h']; reflexivity.
Qed.

(** C7.  On a total-memory reading of [N] MB the quota is the decimal
    text of [(N * 75) / 100] in the arithmetic of [int], which is three
    quarters of [N] rounded down as long as [N * 75] does not overflow,
    3000 for 4000; it is what [SetClusterRam] posts as [memoryQuota].
    When the reading fails, [SetClusterRam] posts 1024 instead and returns
    what that POST returns. *)
Theorem SetClusterRam_quota (h : History) :
  (forall N,
      fst (CalculateTotalRam env h) = (N, None) ->
      fst (CalculateClusterRam env h)
      = (Int.format (Int.quo (Int.mul N 75) 100), None)
      /\ (N * 75 <= Int.max_int ->
          fst (CalculateClusterRam env h) = (Int.format (N * 75 / 100), None))
      /\ (N = 4000 -> fst (CalculateClusterRam env h) = ("3000", None))
      /\ SetClusterRam env c h
         = POST env c false (clusterRam_url c)
             (clusterRam_form (Int.format (Int.quo (Int.mul N 75) 100)))
             (EvFree :: h))
  /\ (forall n e,
         fst (CalculateTotalRam env h) = (n, Some e) ->
         fst (CalculateClusterRam env h) = (EmptyString, Some e)
         /\ SetClusterRam env c h
            = POST env c false (clusterRam_url c) (clusterRam_form "1024")
                (EvFree :: h)).
Proof.
  split.
  - intros N HN.
    assert (Hq : CalculateClusterRam env h
                 = ((Int.format (Int.quo (Int.mul N 75) 100), None),
                    EvFree :: h))
      by (rewrite CalculateClusterRam_of_total, HN; reflexivity).
    split; [now rewrite Hq|]. split; [|split].
    + intros Hmax. rewrite Hq. cbn [fst].
      destruct (CalculateTotalRam_range env h N HN) as [H0 _].
      now rewrite IntFacts.three_quarters.
    + intros ->. now rewrite Hq.
    + unfold SetClusterRam, bind. now rewrite Hq.
  - intros n e Hn.
    assert (Hq : CalculateClusterRam env h
                 = ((EmptyString, Some e), EvFree :: h))
      by (rewrite CalculateClusterRam_of_total, Hn; reflexivity).
    split; [now rewrite Hq|].
    unfold SetClusterRam, bind. now rewrite Hq.
Qed.

End RamFacts.

Example CalculateTotalRam_free_output :
  fst (CalculateTotalRam Scenario.host_4000 []) = (4000, None).
Proof. reflexivity. Qed.

Example SetClusterRam_without_free :
  SetClusterRam Scenario.quiet Scenario.cluster []
  = (None,
     [EvDo (mkRequest "POST" "http://10.0.0.2:8091/pools/default"
              "application/x-www-form-urlencoded" "user" "passw0rd"
              [("memoryQuota", ["1024"])]);
      EvFree]).
Proof. reflexivity. Qed.

Lemma SetClusterRam_quota_witness :
  fst (CalculateClusterRam Scenario.host_4000 []) = ("3000", None)
  /\ SetClusterRam Scenario.quiet Scenario.cluster []
     = POST Scenario.quiet Scenario.cluster false
         (clusterRam_url Scenario.cluster) (clusterRam_form "1024") [EvFree].
Proof.
  split.
  - destruct (proj1 (SetClusterRam_quota Scenario.host_4000 Scenario.cluster [])
                4000 eq_refl) as [_ [H _]].
    apply H. unfold Int.max_int. lia.
  - exact (proj2 (proj2 (SetClusterRam_quota Scenario.quiet Scenario.cluster [])
                    (-1) "exec: free: executable file not found in $PATH"
                    eq_refl)).
Defined.

(** ** Joining an existing cluster *)

Module Reads.

Lemma ret_adds_no_Get {A} (a : A) : adds_no_Get (ret a).
Proof. intros h. reflexivity. Qed.

Lemma call_adds_no_Get {A} (ev : Event) (answer : History -> A) :
  is_Get ev = false -> adds_no_Get (call ev answer).
Proof. intros Hev h. unfold call. cbn. now rewrite Hev. Qed.

Lemma bind_adds_no_Get {A B} (m : M A) (k : A -> M B) :
  adds_no_Get m -> (forall a, adds_no_Get (k a)) -> adds_no_Get (bind m k).
Proof.
  intros Hm Hk h. unfold bind. specialize (Hm h).
  destruct (m h) as [a h']. cbn in Hm. now rewrite Hk.
Qed.

End Reads.

Ltac no_reads :=
  repeat first
    [ apply Reads.ret_adds_no_Get
    | apply Reads.call_adds_no_Get; reflexivity
    | apply Reads.bind_adds_no_Get; [|intros]
    | match goal with
      | |- adds_no_Get (match ?x with _ => _ end) => destruct x
      | |- adds_no_Get (if ?x then _ else _) => destruct x
      | |- adds_no_Get (let (_, _) := ?x in _) => destruct x
      end
    | assumption ].

Section JoinFacts.

Variable env : Env.
Variable c : CouchbaseCluster.

Lemma getJsonData_map_adds_no_Get (url : string) :
  adds_no_Get (getJsonData_map env c url).
Proof. unfold getJsonData_map. no_reads. Qed.

Lemma POST_adds_no_Get (creds : bool) (url : string) (data : Values) :
  adds_no_Get (POST env c creds url data).
Proof. unfold POST. no_reads. Qed.

Lemma GetClusterNodes_adds_no_Get (ip : string) :
  adds_no_Get (GetClusterNodes env c ip).
Proof.
  unfold GetClusterNodes.
  apply Reads.bind_adds_no_Get; [apply getJsonData_map_adds_no_Get|].
  intros. no_reads.
Qed.

Lemma IsRebalancing_adds_no_Get (ip : string) :
  adds_no_Get (IsRebalancing env c ip).
Proof.
  unfold IsRebalancing.
  apply Reads.bind_adds_no_Get; [apply getJsonData_map_adds_no_Get|].
  intros. no_reads.
Qed.

Lemma sleep_seconds_adds_no_Get (s : Z) : adds_no_Get (sleep_seconds s).
Proof. unfold sleep_seconds. no_reads. Qed.

Lemma AddNode_adds_no_Get (ip : string) : adds_no_Get (AddNode env c ip).
Proof.
  unfold AddNode.
  apply Reads.bind_adds_no_Get; [apply POST_adds_no_Get|].
  intros. no_reads.
Qed.

Lemma AddNodeRetry_loop_adds_no_Get (n : nat) (s : Z) (ip : string) :
  adds_no_Get (AddNodeRetry_loop env c n s ip).
Proof.
  revert s. induction n as [|n IH]; intros s; cbn [AddNodeRetry_loop].
  - no_reads.
  - apply Reads.bind_adds_no_Get; [apply AddNode_adds_no_Get|].
    intros [e|]; [|no_reads].
    apply Reads.bind_adds_no_Get; [apply sleep_seconds_adds_no_Get|].
    intros _. apply IH.
Qed.

Lemma WaitUntilNoRebalanceRunning_loop_adds_no_Get
      (n : nat) (s : Z) (ip : string) :
  adds_no_Get (WaitUntilNoRebalanceRunning_loop env c n s ip).
Proof.
  revert s. induction n as [|n IH]; intros s;
    cbn [WaitUntilNoRebalanceRunning_loop].
  - no_reads.
  - apply Reads.bind_adds_no_Get; [apply IsRebalancing_adds_no_Get|].
    intros [[|] [e|]]; try solve [no_reads].
    apply Reads.bind_adds_no_Get; [apply sleep_seconds_adds_no_Get|].
    intros _. apply IH.
Qed.

Lemma TriggerRebalance_adds_no_Get (ip : string) :
  adds_no_Get (TriggerRebalance env c ip).
Proof.
  unfold TriggerRebalance, OtpNodeList.
  apply Reads.bind_adds_no_Get.
  - apply Reads.bind_adds_no_Get; [apply GetClusterNodes_adds_no_Get|].
    intros. no_reads.
  - intros [ids [e|]]; [no_reads | apply POST_adds_no_Get].
Qed.

(** The join-and-rebalance sequence talks to the peer only: it never
    reads etcd. *)
Lemma JoinLiveNode_adds_no_Get (ip : string) :
  adds_no_Get (JoinLiveNode env c ip).
Proof.
  unfold JoinLiveNode, CheckIfInClusterAndHealthy.
  apply Reads.bind_adds_no_Get.
  - apply Reads.bind_adds_no_Get; [apply GetClusterNodes_adds_no_Get|].
    intros. no_reads.
  - intros [inCluster [e|]]; [no_reads|].
    apply Reads.bind_adds_no_Get.
    + destruct inCluster; cbn [negb]; [no_reads|].
      apply AddNodeRetry_loop_adds_no_Get.
    + intros [e|]; [no_reads|].
      apply Reads.bind_adds_no_Get;
        [apply WaitUntilNoRebalanceRunning_loop_adds_no_Get|].
      intros [e|]; [no_reads | apply TriggerRebalance_adds_no_Get].
Qed.

Lemma FindLiveNode_history (h : History) :
  snd (FindLiveNode env h) = EvGet KEY_NODE_STATE false false :: h.
Proof.
  unfold FindLiveNode; run.
  destruct (etcd_Get env h KEY_NODE_STATE false false) as [e|[[node|]]];
    try reflexivity.
  cbn. now destruct (Nodes node).
Qed.

(** One round of the loop of [JoinExistingCluster]. *)
Lemma JoinExistingCluster_loop_step (n : nat) (s : Z) (h : History) :
  JoinExistingCluster_loop env c (S n) s h
  = if String.eqb (found_peer env h) EmptyString
    then JoinExistingCluster_loop env c n (Int.add s 10)
           (discovery_rounds 1 s h)
    else JoinLiveNode env c (found_peer env h)
           (EvGet KEY_NODE_STATE false false :: h).
Proof.
  cbn [JoinExistingCluster_loop discovery_rounds]. unfold bind at 1.
  unfold found_peer. rewrite <- FindLiveNode_history.
  destruct (FindLiveNode env h) as [[ip err] h']. cbn [fst snd].
  now destruct (String.eqb ip EmptyString).
Qed.

(** [k] rounds that find no peer. *)
Lemma JoinExistingCluster_loop_no_peer (k n : nat) (s : Z) (h : History) :
  (forall j, (j < k)%nat ->
             found_peer env (discovery_rounds j s h) = EmptyString) ->
  JoinExistingCluster_loop env c (k + n) s h
  = JoinExistingCluster_loop env c n
      (Nat.iter k (fun x => Int.add x 10) s) (discovery_rounds k s h).
Proof.
  revert s h. induction k as [|k IH]; intros s h Hno; [reflexivity|].
  cbn [Nat.add]. rewrite JoinExistingCluster_loop_step.
  assert (H0 := Hno 0%nat ltac:(lia)). cbn [discovery_rounds] in H0.
  rewrite H0. cbn [String.eqb discovery_rounds].
  rewrite IH.
  - now rewrite Nat.iter_succ_r.
  - intros j Hj. apply (Hno (S j)). lia.
Qed.

(** From a counter of zero, up to ten rounds wait 10, 20, ... seconds. *)
Lemma discovery_rounds_backoff (k : nat) (h : History) :
  (k <= 10)%nat -> discovery_rounds k 0 h = (backoff_events k ++ h)%list.
Proof.
  intros Hk. do 11 (destruct k as [|k]; [reflexivity|]). lia.
Qed.

Lemma backoff_events_reads (k : nat) (h : History) :
  List.length (filter is_Get ((backoff_events k ++ h)%list))
  = (k + List.length (filter is_Get h))%nat.
Proof.
  induction k as [|k IH]; [reflexivity|].
  cbn [backoff_events app filter is_Get List.length]. now rewrite IH.
Qed.

(** Either some round among the first [n] finds a peer, or none does. *)
Lemma first_peer_or_none (n : nat) (h : History) :
  (exists k, (k < n)%nat
             /\ (forall j, (j < k)%nat ->
                           found_peer env ((backoff_events j ++ h)%list) = EmptyString)
             /\ found_peer env ((backoff_events k ++ h)%list) <> EmptyString)
  \/ (forall j, (j < n)%nat ->
                found_peer env ((backoff_events j ++ h)%list) = EmptyString).
Proof.
  induction n as [|n [[k [Hk [Hno Hyes]]] | Hno]].
  - right. intros j Hj. lia.
  - left. exists k. repeat split; auto.
  - destruct (string_dec (found_peer env ((backoff_events n ++ h)%list)) EmptyString)
      as [He|Hne].
    + right. intros j Hj.
      destruct (Nat.eq_dec j n) as [->|Hjn]; [exact He | apply Hno; lia].
    + left. exists n. repeat split; auto.
Qed.

(** C8.  [JoinExistingCluster] looks for a peer at most ten times, waiting
    10 seconds more after each round that finds none.  In the first round
    that finds a non-empty address it returns what [JoinLiveNode] returns
    for that peer; when ten rounds find none it returns an error.  In
    all, at most ten reads of etcd are made. *)
Theorem JoinExistingCluster_bounded_discovery (h : History) :
  (forall k, (k < 10)%nat ->
     (forall j, (j < k)%nat ->
                found_peer env ((backoff_events j ++ h)%list) = EmptyString) ->
     found_peer env ((backoff_events k ++ h)%list) <> EmptyString ->
     JoinExistingCluster env c h
     = JoinLiveNode env c (found_peer env ((backoff_events k ++ h)%list))
         (EvGet KEY_NODE_STATE false false :: (backoff_events k ++ h)%list))
  /\ ((forall j, (j < 10)%nat ->
                 found_peer env ((backoff_events j ++ h)%list) = EmptyString) ->
      JoinExistingCluster env c h
      = (Some "Failed to join cluster after several retries",
         (backoff_events 10 ++ h)%list))
  /\ (List.length (filter is_Get (snd (JoinExistingCluster env c h)))
      <= List.length (filter is_Get h) + 10)%nat.
Proof.
  assert (Hfound : forall k, (k < 10)%nat ->
     (forall j, (j < k)%nat ->
                found_peer env ((backoff_events j ++ h)%list) = EmptyString) ->
     found_peer env ((backoff_events k ++ h)%list) <> EmptyString ->
     JoinExistingCluster env c h
     = JoinLiveNode env c (found_peer env ((backoff_events k ++ h)%list))
         (EvGet KEY_NODE_STATE false false :: (backoff_events k ++ h)%list)).
  { intros k Hk Hno Hyes. unfold JoinExistingCluster, MAX_RETRIES_JOIN_CLUSTER.
    replace 10%nat with (k + S (9 - k))%nat by lia.
    rewrite JoinExistingCluster_loop_no_peer.
    - rewrite JoinExistingCluster_loop_step.
      rewrite discovery_rounds_backoff by lia.
      apply String.eqb_neq in Hyes. now rewrite Hyes.
    - intros j Hj. rewrite discovery_rounds_backoff by lia. now apply Hno. }
  assert (Hnone : (forall j, (j < 10)%nat ->
                 found_peer env ((backoff_events j ++ h)%list) = EmptyString) ->
      JoinExistingCluster env c h
      = (Some "Failed to join cluster after several retries",
         (backoff_events 10 ++ h)%list)).
  { intros Hno. unfold JoinExistingCluster, MAX_RETRIES_JOIN_CLUSTER.
    change 10%nat with (10 + 0)%nat at 1.
    rewrite JoinExistingCluster_loop_no_peer.
    - now rewrite discovery_rounds_backoff by lia.
    - intros j Hj. rewrite discovery_rounds_backoff by lia. now apply Hno. }
  split; [exact Hfound|]. split; [exact Hnone|].
  destruct (first_peer_or_none 10 h) as [[k [Hk [Hno Hyes]]] | Hno].
  - rewrite (Hfound k Hk Hno Hyes), JoinLiveNode_adds_no_Get.
    cbn [filter is_Get List.length]. rewrite backoff_events_reads. lia.
  - rewrite (Hnone Hno). cbn [snd]. rewrite backoff_events_reads. lia.
Qed.

End JoinFacts.

(** ** Admin credentials *)

Section CredentialFacts.

Variable env : Env.

(** [j] reads that fail: the loop waits ten seconds after each and goes
    on. *)
Lemma LoadAdminCredsFromEtcd_loop_retries
      (j n : nat) (c : CouchbaseCluster) (h : History) :
  (forall i, (i < j)%nat ->
     exists e, etcd_Get env (failed_reads i h) KEY_USER_PASS false false
               = GetErr e) ->
  LoadAdminCredsFromEtcd_loop env (j + n) c h
  = LoadAdminCredsFromEtcd_loop env n c (failed_reads j h).
Proof.
  revert h. induction j as [|j IH]; intros h Hfail; [reflexivity|].
  cbn [Nat.add LoadAdminCredsFromEtcd_loop]. unfold bind at 1, call at 1.
  destruct (Hfail 0%nat ltac:(lia)) as [e He]. cbn in He. rewrite He.
  unfold bind at 1, sleep_seconds, call at 1.
  rewrite IH.
  - unfold failed_reads. now rewrite Nat.iter_succ_r.
  - intros i Hi. destruct (Hfail (S i) ltac:(lia)) as [e' He'].
    exists e'. unfold failed_reads in *. now rewrite Nat.iter_succ_r in He'.
Qed.

(** C9.  Once a read of the credentials entry succeeds, there is no
    further read.  A value without colon is an error and leaves the
    cluster as it was.  Otherwise [AdminUsername] becomes the text before
    the first colon and [AdminPassword] the text after it up to the second
    colon, or up to the end when there is none: what follows a second
    colon is dropped.  The cluster that is left is written out field by
    field: the two fields of the identity are set, the other five are
    those of [c]. *)
Theorem LoadAdminCredsFromEtcd_parse
        (c : CouchbaseCluster) (h : History) (j : nat) (node : Node) :
  (j < 10)%nat ->
  (forall i, (i < j)%nat ->
     exists e, etcd_Get env (failed_reads i h) KEY_USER_PASS false false
               = GetErr e) ->
  etcd_Get env (failed_reads j h) KEY_USER_PASS false false
  = GetOk (mkResponse (Some node)) ->
  let r := LoadAdminCredsFromEtcd env c h in
  let h' := EvGet KEY_USER_PASS false false :: failed_reads j h in
  (no_colon (Value node) ->
   r = ((Returned (Some ("Invalid user/pass: " ++ Value node)), c), h'))
  /\ (forall user password,
         Value node = user ++ ":" ++ password ->
         no_colon user -> no_colon password ->
         r = ((Returned None,
               mkCluster (LocalCouchbaseIp c) (LocalCouchbasePort c)
                         (LocalCouchbaseVersion c) user password
                         (defaultBucketRamQuotaMB c)
                         (defaultBucketReplicaNumber c)), h'))
  /\ (forall user password rest,
         Value node = user ++ ":" ++ password ++ ":" ++ rest ->
         no_colon user -> no_colon password ->
         r = ((Returned None,
               mkCluster (LocalCouchbaseIp c) (LocalCouchbasePort c)
                         (LocalCouchbaseVersion c) user password
                         (defaultBucketRamQuotaMB c)
                         (defaultBucketReplicaNumber c)), h')).
Proof.
  intros Hj Hfail Hok r h'.
  assert (Hr : r = ((if negb (Strings.Contains (Value node) ":")
                     then (Returned (Some ("Invalid user/pass: "
                                           ++ Value node)), c)
                     else match Strings.Split (Value node) ":" with
                          | user :: password :: _ =>
                              (Returned None, set_AdminCreds c user password)
                          | [user] =>
                              (Panicked,
                               set_AdminCreds c user (AdminPassword c))
                          | [] => (Panicked, c)
                          end), h')).
  { subst r h'. unfold LoadAdminCredsFromEtcd, MAX_RETRIES_JOIN_CLUSTER.
    replace 10%nat with (j + S (9 - j))%nat by lia.
    rewrite (LoadAdminCredsFromEtcd_loop_retries j _ c h Hfail).
    cbn [LoadAdminCredsFromEtcd_loop]. unfold bind at 1, call at 1.
    rewrite Hok. cbn [RNode].
    destruct (negb (Strings.Contains (Value node) ":")); [reflexivity|].
    now destruct (Strings.Split (Value node) ":") as [|user [|password rest]]. }
  clearbody r. subst r. unfold no_colon. split; [|split].
  - intros Hno. now rewrite Hno.
  - intros user password Hv Hu Hp. rewrite Hv.
    rewrite SplitFacts.Contains_colon_app. cbn [negb].
    rewrite (SplitFacts.Split_colon_app _ _ Hu).
    now rewrite (SplitFacts.Split_no_colon _ Hp).
  - intros user password rest Hv Hu Hp. rewrite Hv.
    rewrite SplitFacts.Contains_colon_app. cbn [negb].
    rewrite (SplitFacts.Split_colon_app _ _ Hu).
    now rewrite (SplitFacts.Split_colon_app _ _ Hp).
Qed.

End CredentialFacts.

Lemma LoadAdminCredsFromEtcd_parse_witness :
  LoadAdminCredsFromEtcd Scenario.late_creds Scenario.cluster []
  = ((Returned None,
      mkCluster "10.0.0.2" "8091" "3.0.1" "admin" "s3cret" "128" "1"),
     EvGet KEY_USER_PASS false false :: failed_reads 2 []).
Proof.
  assert (Hfail : forall i, (i < 2)%nat ->
            exists e, etcd_Get Scenario.late_creds (failed_reads i [])
                        KEY_USER_PASS false false = GetErr e).
  { intros i Hi. exists "501: All the given peers are not reachable".
    destruct i as [|[|i]]; [reflexivity | reflexivity | lia]. }
  refine (proj2 (proj2 (LoadAdminCredsFromEtcd_parse Scenario.late_creds
                          Scenario.cluster [] 2
                          (mkNode KEY_USER_PASS "admin:s3cret:2024" false [])
                          _ Hfail eq_refl))
            "admin" "s3cret" "2024" eq_refl eq_refl eq_refl).
  lia.
Defined.

Example LoadAdminCredsFromEtcd_late_creds :
  fst (LoadAdminCredsFromEtcd Scenario.late_creds Scenario.cluster [])
  = (Returned None,
     mkCluster "10.0.0.2" "8091" "3.0.1" "admin" "s3cret" "128" "1").
Proof. reflexivity. Qed.

(** ** The retry loop *)

Section RetryFacts.

Variable worker : RetryWorker.
Variable sleeper : RetrySleeper.

(** The loop goes through the rounds that ask for another attempt. *)
Lemma RetryLoop_from_rounds (k fuel : nat) (a n : Z) (h0 h : History) :
  retry_rounds worker sleeper k a h0 = Some (n, h) ->
  RetryLoop_from (k + fuel) worker sleeper a h0
  = RetryLoop_from fuel worker sleeper n h.
Proof.
  revert a h0. induction k as [|k IH]; intros a h0 Hk.
  - cbn in Hk. now injection Hk as -> ->.
  - cbn [retry_rounds] in Hk. cbn [Nat.add RetryLoop_from].
    unfold bind at 1. unfold bind at 1, call at 1.
    destruct (worker (EvWorker :: h0)) as [[[|] [e|]] h1]; try discriminate.
    unfold bind at 1. unfold bind at 1, call at 1.
    destruct (sleeper a (EvSleeper a :: h1)) as [[[|] s] h2];
      try discriminate.
    cbn [negb]. unfold bind at 1, sleep_seconds, call at 1.
    now apply IH.
Qed.

(** The counter after [k] rounds that started at 1. *)
Lemma retry_rounds_attempts (k : nat) (a n : Z) (h0 h : History) :
  retry_rounds worker sleeper k a h0 = Some (n, h) ->
  n = Nat.iter k (fun x => Int.add x 1) a.
Proof.
  revert a h0. induction k as [|k IH]; intros a h0 Hk.
  - cbn in Hk. now injection Hk as -> _.
  - cbn [retry_rounds] in Hk.
    destruct (worker (EvWorker :: h0)) as [[[|] [e|]] h1]; try discriminate.
    destruct (sleeper a (EvSleeper a :: h1)) as [[[|] s] h2];
      try discriminate.
    apply IH in Hk. now rewrite Nat.iter_succ_r.
Qed.

Lemma iter_add_1 (k : nat) :
  Z.of_nat k < Int.max_int ->
  Nat.iter k (fun x => Int.add x 1) 1 = Z.of_nat k + 1.
Proof.
  induction k as [|k IH]; intros Hk; [reflexivity|].
  rewrite Nat.iter_succ, IH by lia. unfold Int.add.
  rewrite IntFacts.wrap_in_range; [lia|].
  unfold Int.in_range, Int.min_int, Int.max_int in *. lia.
Qed.

(** C2.  After [k] rounds in which the worker asked for another attempt
    and the sleeper agreed, so that this is attempt [n = k + 1]:
    - when the worker returns an error, [RetryLoop] returns that error and
      leaves the history as the worker left it: the sleeper is not called;
    - when the worker says it is done, [RetryLoop] returns no error;
    - when the worker asks for another attempt and the sleeper says to
      stop, [RetryLoop] returns its own error, "RetryLoop giving up after
      n attempts"; no call of the worker has returned an error then. *)
Theorem RetryLoop_outcomes (k fuel : nat) (n : Z) (h0 h : History) :
  retry_rounds worker sleeper k 1 h0 = Some (n, h) ->
  (k < fuel)%nat ->
  (Z.of_nat k < Int.max_int -> n = Z.of_nat k + 1)
  /\ (forall finished e h1,
         worker (EvWorker :: h) = ((finished, Some e), h1) ->
         RetryLoop fuel worker sleeper h0 = (Some (Some e), h1))
  /\ (forall h1,
         worker (EvWorker :: h) = ((true, None), h1) ->
         RetryLoop fuel worker sleeper h0 = (Some None, h1))
  /\ (forall h1 sleepSeconds h2,
         worker (EvWorker :: h) = ((false, None), h1) ->
         sleeper n (EvSleeper n :: h1) = ((false, sleepSeconds), h2) ->
         RetryLoop fuel worker sleeper h0 = (Some (Some (giving_up n)), h2)).
Proof.
  intros Hk Hfuel.
  assert (Hrun : RetryLoop fuel worker sleeper h0
                 = RetryLoop_from (S (fuel - S k)) worker sleeper n h).
  { unfold RetryLoop. replace fuel with (k + S (fuel - S k))%nat at 1 by lia.
    now apply RetryLoop_from_rounds. }
  rewrite Hrun. cbn [RetryLoop_from]. split; [|split; [|split]].
  - intros Hsmall. rewrite (retry_rounds_attempts _ _ _ _ _ Hk).
    now apply iter_add_1.
  - intros finished e h1 Hw. unfold bind at 1. unfold bind at 1, call at 1.
    now rewrite Hw.
  - intros h1 Hw. unfold bind at 1. unfold bind at 1, call at 1.
    now rewrite Hw.
  - intros h1 s h2 Hw Hs. unfold bind at 1. unfold bind at 1, call at 1.
    rewrite Hw. unfold bind at 1. unfold bind at 1, call at 1.
    now rewrite Hs.
Qed.

End RetryFacts.

Lemma RetryLoop_outcomes_witness :
  fst (RetryLoop 5
         (WaitUntilNumNodesRunning_worker Scenario.etcd_down
            Scenario.cluster 3)
         (wait_sleeper 2) [])
  = Some (Some "RetryLoop giving up after 3 attempts").
Proof.
  edestruct (RetryLoop_outcomes
               (WaitUntilNumNodesRunning_worker Scenario.etcd_down
                  Scenario.cluster 3)
               (wait_sleeper 2) 2 5) as [_ [_ [_ H]]];
    [reflexivity | lia | ].
  erewrite H; reflexivity.
Defined.

Example WaitUntilNumNodesRunning_gives_up :
  WaitUntilNumNodesRunning Scenario.etcd_down Scenario.cluster 5 3 2 []
  = (Some (Some "RetryLoop giving up after 3 attempts"),
     [EvSleeper 3; EvGet KEY_NODE_STATE false false; EvWorker;
      EvAfter 20000000000; EvSleeper 2;
      EvGet KEY_NODE_STATE false false; EvWorker;
      EvAfter 10000000000; EvSleeper 1;
      EvGet KEY_NODE_STATE false false; EvWorker]).
Proof. reflexivity. Qed.

Lemma JoinExistingCluster_bounded_discovery_witness :
  JoinExistingCluster Scenario.late_peer Scenario.cluster []
  = JoinLiveNode Scenario.late_peer Scenario.cluster "10.0.0.1"
      (EvGet KEY_NODE_STATE false false :: backoff_events 2 ++ [])%list
  /\ JoinExistingCluster Scenario.etcd_down Scenario.cluster []
     = (Some "Failed to join cluster after several retries",
        (backoff_events 10 ++ [])%list).
Proof.
  split.
  - apply (proj1 (JoinExistingCluster_bounded_discovery Scenario.late_peer
                    Scenario.cluster []) 2%nat).
    + lia.
    + intros j Hj. destruct j as [|[|j]]; [reflexivity | reflexivity | lia].
    + discriminate.
  - apply (proj1 (proj2 (JoinExistingCluster_bounded_discovery
                           Scenario.etcd_down Scenario.cluster []))).
    intros j Hj. reflexivity.
Defined.

Example JoinExistingCluster_late_peer_sleeps :
  backoff_events 2
  = [EvAfter 20000000000; EvGet KEY_NODE_STATE false false;
     EvAfter 10000000000; EvGet KEY_NODE_STATE false false].
Proof. reflexivity. Qed.


(** * Further properties *)

(** ** The REST gateway *)

Section PostFacts.

Variable env : Env.
Variable c : CouchbaseCluster.

(** [POST] sends at most one request, the one of [post_request]; it sends
    none when the request cannot be built. *)
Lemma POST_history (creds : bool) (url : string) (data : Values)
      (h : History) :
  snd (POST env c creds url data h)
  = match http_NewRequest env "POST" url with
    | Some _ => h
    | None => EvDo (post_request c creds url data) :: h
    end.
Proof.
  unfold POST, post_request.
  destruct (http_NewRequest env "POST" url); [reflexivity|].
  unfold bind, call.
  destruct creds;
    match goal with
    | |- context [http_Do env h ?r] => destruct (http_Do env h r) as [e|code b]
    end; try reflexivity;
    destruct ((code <? 200) || (code >? 299)); reflexivity.
Qed.

Lemma POST_result (creds : bool) (url : string) (data : Values)
      (h : History) :
  fst (POST env c creds url data h)
  = match http_NewRequest env "POST" url with
    | Some e => Some e
    | None =>
        match http_Do env h (post_request c creds url data) with
        | DoErr e => Some e
        | DoResp statusCode bodyBytes =>
            if (statusCode <? 200) || (statusCode >? 299)
            then Some ("Failed to POST to " ++ url ++ ".  Status code: "
                       ++ Int.format statusCode ++ ".  Body: "
                       ++ match bodyBytes with
                          | inr e => "Unable to read body: " ++ e
                          | inl b => b
                          end)
            else None
        end
    end.
Proof.
  unfold POST, post_request.
  destruct (http_NewRequest env "POST" url); [reflexivity|].
  unfold bind, call.
  destruct creds;
    match goal with
    | |- context [http_Do env h ?r] => destruct (http_Do env h r) as [e|code b]
    end; try reflexivity;
    destruct ((code <? 200) || (code >? 299)); reflexivity.
Qed.

(** [POST] returns no error exactly when the request is built and sent
    and the status of the response is from 200 to 299, whether or not its
    body can be read. *)
Theorem POST_nil_iff (creds : bool) (url : string) (data : Values)
        (h : History) :
  fst (POST env c creds url data h) = None
  <-> http_NewRequest env "POST" url = None
      /\ exists statusCode body,
           http_Do env h (post_request c creds url data)
           = DoResp statusCode body
           /\ 200 <= statusCode <= 299.
Proof.
  rewrite POST_result.
  destruct (http_NewRequest env "POST" url) as [e|].
  { split; [discriminate | intros [H _]; discriminate]. }
  destruct (http_Do env h (post_request c creds url data)) as [e|code b].
  { split; [discriminate | intros [_ [sc [bd [H _]]]]; discriminate]. }
  destruct (code <? 200) eqn:E1; destruct (code >? 299) eqn:E2; cbn [orb];
    rewrite Z.gtb_ltb in E2.
  - split; [discriminate|]. intros [_ [sc [bd [H Hr]]]].
    injection H as <- <-. apply Z.ltb_lt in E1. lia.
  - split; [discriminate|]. intros [_ [sc [bd [H Hr]]]].
    injection H as <- <-. apply Z.ltb_lt in E1. lia.
  - split; [discriminate|]. intros [_ [sc [bd [H Hr]]]].
    injection H as <- <-. apply Z.ltb_lt in E2. lia.
  - apply Z.ltb_ge in E1. apply Z.ltb_ge in E2. split; [|reflexivity].
    intros _. split; [reflexivity|]. exists code, b. split; [reflexivity|lia].
Qed.

End PostFacts.

(** ** Node lists *)

Section NodeListFacts.

Variable env : Env.
Variable c : CouchbaseCluster.

Lemma OtpNodeList_nodes_acc (nodes : list json) (acc : list string) :
  OtpNodeList_nodes nodes acc
  = (acc ++ fst (OtpNodeList_nodes nodes []),
     snd (OtpNodeList_nodes nodes []))%list.
Proof.
  revert acc. induction nodes as [|node rest IH]; intros acc.
  - cbn. now rewrite app_nil_r.
  - cbn [OtpNodeList_nodes].
    destruct node as [| | | | |fields]; try (cbn; now rewrite app_nil_r).
    destruct (map_index fields "otpNode") as [| | |s| |];
      try (cbn; now rewrite app_nil_r).
    rewrite (IH (acc ++ [s])%list), (IH ([] ++ [s])%list). cbn [fst snd].
    now rewrite <- app_assoc.
Qed.

Lemma OtpNodeList_nodes_of_ids (nodes : list json) (ids : list string) :
  map otpNode_of nodes = map Some ids ->
  OtpNodeList_nodes nodes [] = (ids, None).
Proof.
  revert ids. induction nodes as [|node rest IH]; intros ids H.
  - destruct ids; [reflexivity | discriminate].
  - destruct ids as [|i ids]; [discriminate|].
    cbn [map] in H. injection H as Hnode Hrest.
    cbn [OtpNodeList_nodes]. unfold otpNode_of, string_field in Hnode.
    destruct node as [| | | | |fields]; try discriminate.
    destruct (map_index fields "otpNode") as [| | |s| |]; try discriminate.
    injection Hnode as ->.
    now rewrite OtpNodeList_nodes_acc, (IH ids Hrest).
Qed.

(** The loop of [OtpNodeList] succeeds exactly when every entry is an
    object with an [otpNode] string, and then it lists these strings, one
    for each entry, in the order of the entries. *)
Theorem OtpNodeList_nodes_ok_iff (nodes : list json) (ids : list string) :
  OtpNodeList_nodes nodes [] = (ids, None)
  <-> map otpNode_of nodes = map Some ids.
Proof.
  revert ids. induction nodes as [|node rest IH]; intros ids.
  - cbn. split.
    + now intros [= <-].
    + destruct ids; [reflexivity | discriminate].
  - cbn [OtpNodeList_nodes map]. unfold otpNode_of at 1, string_field.
    destruct node as [| | | | |fields];
      try (split; [discriminate | destruct ids; discriminate]).
    destruct (map_index fields "otpNode") as [| | |s| |];
      try (split; [discriminate | destruct ids; discriminate]).
    rewrite OtpNodeList_nodes_acc. cbn [app].
    destruct (OtpNodeList_nodes rest []) as [ids' err] eqn:E. cbn [fst snd].
    split.
    + intros [= <- ->]. cbn [map]. f_equal. now apply IH.
    + destruct ids as [|i ids]; [discriminate|]. cbn [map].
      intros [= <- H]. apply IH in H. now injection H as <- <-.
Qed.

(** When every listed entry has an [otpNode] string, [TriggerRebalance]
    posts them all, in order and joined by commas, as [knownNodes], and
    ejects none. *)
Theorem TriggerRebalance_known_nodes
        (h : History) (liveNodeIp : string) (nodes : list json)
        (ids : list string) :
  fst (GetClusterNodes env c liveNodeIp h) = (nodes, None) ->
  map otpNode_of nodes = map Some ids ->
  TriggerRebalance env c liveNodeIp h
  = POST env c false (rebalance_url c liveNodeIp)
      [("ejectedNodes", []); ("knownNodes", [Strings.Join ids ","])]
      (get_event c (pools_default_url c liveNodeIp) :: h).
Proof.
  intros Hg Hids. apply OtpNodeList_nodes_of_ids in Hids.
  unfold TriggerRebalance, OtpNodeList, bind at 1. unfold bind at 1.
  pose proof (GetClusterNodes_history env c h liveNodeIp) as Hh.
  destruct (GetClusterNodes env c liveNodeIp h) as [[nodes' err] h'].
  cbn in Hg, Hh. injection Hg as -> ->. subst h'.
  unfold ret. rewrite Hids. reflexivity.
Qed.

Lemma CheckHealthy_nodes_all (nodes : list json) :
  CheckHealthy_nodes nodes = (true, None)
  <-> forallb is_healthy nodes = true.
Proof.
  induction nodes as [|node rest IH]; [now split|].
  cbn [CheckHealthy_nodes forallb].
  unfold is_healthy at 1, status_of, string_field.
  destruct node as [| | | | |fields]; try (split; discriminate).
  destruct (map_index fields "status") as [| | |s| |];
    try (split; discriminate).
  destruct (String.eqb s "healthy"); cbn [negb andb];
    [exact IH | split; discriminate].
Qed.

(** [CheckNumNodesClusterHealthy] answers [true] exactly when the node
    list is fetched, it is an array with at least [numNodes] entries (any
    number when [numNodes] is -1), and every entry is an object whose
    status is the string ["healthy"].  An empty list passes when
    [numNodes] is -1 or not positive. *)
Theorem CheckNumNodesClusterHealthy_true_iff
        (h : History) (numNodes : Z) (liveNodeIp : string) :
  fst (CheckNumNodesClusterHealthy env c numNodes liveNodeIp h) = (true, None)
  <-> exists nodes,
      fst (GetClusterNodes env c liveNodeIp h) = (nodes, None)
      /\ (numNodes = -1 \/ numNodes <= Z.of_nat (List.length nodes))
      /\ forallb is_healthy nodes = true.
Proof.
  unfold CheckNumNodesClusterHealthy, bind.
  destruct (GetClusterNodes env c liveNodeIp h) as [[nodes [e|]] h'];
    cbn [fst].
  - split; [discriminate | intros [nodes' [H _]]; discriminate].
  - destruct (numNodes =? -1) eqn:E1; cbn [negb andb].
    + apply Z.eqb_eq in E1. cbn [ret fst]. rewrite CheckHealthy_nodes_all.
      split.
      * intros H. exists nodes. auto.
      * now intros [nodes' [[= <-] [_ H]]].
    + apply Z.eqb_neq in E1.
      destruct (Z.of_nat (List.length nodes) <? numNodes) eqn:E2.
      * apply Z.ltb_lt in E2. cbn. split; [discriminate|].
        intros [nodes' [[= <-] [[H|H] _]]]; [contradiction | lia].
      * apply Z.ltb_ge in E2. cbn [ret fst]. rewrite CheckHealthy_nodes_all.
        split.
        -- intros H. exists nodes. auto.
        -- now intros [nodes' [[= <-] [_ H]]].
Qed.

(** The loop of [CheckIfInClusterAndHealthy] answers [true] only when
    some entry names the local node and is healthy; on a list whose
    entries have the strings it reads, it answers [true] exactly then,
    with no error. *)
Theorem CheckIfInCluster_nodes_member (nodes : list json) :
  (CheckIfInCluster_nodes c nodes = (true, None) ->
   existsb (is_healthy_member c) nodes = true)
  /\ (forallb (member_entry_ok c) nodes = true ->
      CheckIfInCluster_nodes c nodes
      = (existsb (is_healthy_member c) nodes, None)).
Proof.
  split.
  - induction nodes as [|node rest IH]; [discriminate|].
    cbn [CheckIfInCluster_nodes existsb].
    unfold is_healthy_member at 1, is_healthy, hostname_of, status_of,
      string_field.
    destruct node as [| | | | |fields]; try discriminate.
    destruct (map_index fields "hostname") as [| | |hostname| |];
      try discriminate.
    destruct (Strings.Contains hostname (LocalCouchbaseIp c));
      cbn [andb orb]; [|exact IH].
    destruct (map_index fields "status") as [| | |s| |]; try discriminate.
    destruct (String.eqb s "healthy"); cbn [orb]; auto.
  - induction nodes as [|node rest IH]; [reflexivity|].
    cbn [CheckIfInCluster_nodes existsb forallb].
    unfold member_entry_ok at 1, is_healthy_member at 1, is_healthy,
      hostname_of, status_of, string_field.
    destruct node as [| | | | |fields]; try discriminate.
    destruct (map_index fields "hostname") as [| | |hostname| |];
      try discriminate.
    destruct (Strings.Contains hostname (LocalCouchbaseIp c));
      cbn [andb orb]; [|exact IH].
    destruct (map_index fields "status") as [| | |s| |]; try discriminate.
    destruct (String.eqb s "healthy"); cbn [orb]; auto.
Qed.

(** [IsRebalancing] answers [false] only when the progress is fetched and
    its status is the string ["none"]; with every error it answers
    [true]. *)
Theorem IsRebalancing_false_iff (h : History) (liveNodeIp : string) :
  (fst (fst (IsRebalancing env c liveNodeIp h)) = false
   <-> exists jsonMap,
       http_getJsonMap env h (rebalanceProgress_url c liveNodeIp)
         (AdminUsername c) (AdminPassword c) = inl jsonMap
       /\ map_index jsonMap "status" = JString "none")
  /\ (snd (fst (IsRebalancing env c liveNodeIp h)) <> None ->
      fst (fst (IsRebalancing env c liveNodeIp h)) = true).
Proof.
  unfold IsRebalancing, getJsonData_map, rebalanceProgress_url, bind, call.
  destruct (http_getJsonMap env h _ _ _) as [jsonMap|e].
  - destruct (map_index jsonMap "status") as [| | |s| |] eqn:Es; cbn;
      try (split; [split; [discriminate|]|reflexivity];
           intros [m [[= <-] Hm]]; congruence).
    destruct (String.eqb_spec s "none") as [->|Hne]; cbn.
    + split; [|intros H; now contradiction H]. split; [|reflexivity].
      intros _. now exists jsonMap.
    + split; [|reflexivity]. split; [discriminate|].
      intros [m [[= <-] Hm]]. congruence.
  - cbn. split; [|reflexivity]. split; [discriminate|].
    intros [m [H _]]. discriminate.
Qed.

End NodeListFacts.

(** ** What a computation adds to the history *)

Module Emits.

Lemma within_nil (q : Event -> bool) (n : nat) : within q n [].
Proof. split; [reflexivity | cbn; lia]. Qed.

Lemma within_app (q : Event -> bool) (n1 n2 : nat) (x y : list Event) :
  within q n1 x -> within q n2 y -> within q (n1 + n2) (y ++ x).
Proof.
  intros [Hx Cx] [Hy Cy]. split.
  - rewrite forallb_app, Hx, Hy. reflexivity.
  - rewrite filter_app, length_app. lia.
Qed.

Lemma within_le (q : Event -> bool) (n n' : nat) (x : list Event) :
  (n <= n')%nat -> within q n x -> within q n' x.
Proof. intros Hn [Hx Cx]. split; [exact Hx | lia]. Qed.

Lemma ret_emits {A} (P : list Event -> Prop) (a : A) :
  P [] -> emits P (ret a).
Proof. intros HP h. exists []. now split. Qed.

Lemma call_emits {A} (P : list Event -> Prop) (ev : Event)
      (answer : History -> A) :
  P [ev] -> emits P (call ev answer).
Proof. intros HP h. exists [ev]. now split. Qed.

Lemma bind_emits {A B} (P1 P2 P : list Event -> Prop)
      (m : M A) (k : A -> M B) :
  emits P1 m -> (forall a, emits P2 (k a)) ->
  (forall x y, P1 x -> P2 y -> P (y ++ x)%list) ->
  emits P (bind m k).
Proof.
  intros Hm Hk HP h. unfold bind.
  destruct (Hm h) as [x [Hx Px]].
  destruct (m h) as [a h']. cbn [snd] in Hx. subst h'.
  destruct (Hk a (x ++ h)%list) as [y [Hy Py]].
  exists (y ++ x)%list. split; [|now apply HP].
  rewrite Hy. now rewrite app_assoc.
Qed.

Lemma emits_impl {A} (P Q : list Event -> Prop) (m : M A) :
  emits P m -> (forall x, P x -> Q x) -> emits Q m.
Proof.
  intros Hm HPQ h. destruct (Hm h) as [x [Hx Px]]. exists x. auto.
Qed.

(** Sequencing two computations within bounds. *)
Lemma bind_within {A B} (q : Event -> bool) (n1 n2 : nat)
      (m : M A) (k : A -> M B) :
  emits (within q n1) m -> (forall a, emits (within q n2) (k a)) ->
  emits (within q (n1 + n2)) (bind m k).
Proof.
  intros Hm Hk. apply (bind_emits (within q n1) (within q n2)); auto.
  intros x y. apply within_app.
Qed.

Lemma ret_within {A} (q : Event -> bool) (n : nat) (a : A) :
  emits (within q n) (ret a).
Proof. apply ret_emits, within_nil. Qed.

Lemma prefix_app (a b : string) : String.prefix a (a ++ b) = true.
Proof.
  induction a as [|x a IH]; cbn.
  - now destruct b.
  - destruct (ascii_dec x x); [exact IH | contradiction].
Qed.

Lemma append_assoc (a b d : string) : (a ++ b) ++ d = a ++ b ++ d.
Proof. induction a as [|x a IH]; cbn; [reflexivity | now rewrite IH]. Qed.

(** Every address that the join sequence builds starts with the base
    address of the peer. *)
Lemma peer_url (c : CouchbaseCluster) (ip path : string) :
  String.prefix (peer_base c ip)
    ("http://" ++ ip ++ ":" ++ LocalCouchbasePort c ++ String "/" path) = true.
Proof.
  unfold peer_base.
  replace ("http://" ++ ip ++ ":" ++ LocalCouchbasePort c ++ String "/" path)
    with (("http://" ++ ip ++ ":" ++ LocalCouchbasePort c ++ "/") ++ path).
  - apply prefix_app.
  - change (String "/" path) with ("/" ++ path).
    now rewrite !append_assoc.
Qed.

End Emits.

(** ** The join sequence *)

Section JoinSequenceFacts.

Variable env : Env.
Variable c : CouchbaseCluster.
Variable liveNodeIp : string.

Let q : Event -> bool := peer_event c liveNodeIp.

Lemma getJsonData_map_within (url : string) :
  String.prefix (peer_base c liveNodeIp) url = true ->
  emits (within q 0) (getJsonData_map env c url).
Proof.
  intros Hurl. unfold getJsonData_map. apply Emits.call_emits.
  split; [|cbn; lia]. unfold q. cbn [forallb peer_event].
  now rewrite Hurl, !String.eqb_refl.
Qed.

Lemma POST_within (url : string) (data : Values) :
  String.prefix (peer_base c liveNodeIp) url = true ->
  emits (within q 1) (POST env c false url data).
Proof.
  intros Hurl h. rewrite POST_history.
  destruct (http_NewRequest env "POST" url).
  - exists []. split; [reflexivity|]. split; [reflexivity | cbn; lia].
  - exists [EvDo (post_request c false url data)].
    split; [reflexivity|]. split; [|cbn; lia].
    unfold q, post_request.
    cbn [forallb peer_event req_method req_url req_user req_password].
    now rewrite Hurl, !String.eqb_refl.
Qed.

Lemma sleep_seconds_within (s : Z) : emits (within q 0) (sleep_seconds s).
Proof.
  unfold sleep_seconds. apply Emits.call_emits. split; [reflexivity|cbn; lia].
Qed.

Lemma GetClusterNodes_within :
  emits (within q 0) (GetClusterNodes env c liveNodeIp).
Proof.
  unfold GetClusterNodes. apply (Emits.bind_within q 0 0).
  - apply getJsonData_map_within, Emits.peer_url.
  - intros [m|e]; [|apply Emits.ret_within].
    destruct (map_index m "nodes"); apply Emits.ret_within.
Qed.

Lemma IsRebalancing_within :
  emits (within q 0) (IsRebalancing env c liveNodeIp).
Proof.
  unfold IsRebalancing. apply (Emits.bind_within q 0 0).
  - apply getJsonData_map_within, Emits.peer_url.
  - intros [m|e]; [|apply Emits.ret_within].
    destruct (map_index m "status") as [| | |s| |];
      try apply Emits.ret_within.
    destruct (String.eqb s "none"); apply Emits.ret_within.
Qed.

Lemma CheckIfInClusterAndHealthy_within :
  emits (within q 0) (CheckIfInClusterAndHealthy env c liveNodeIp).
Proof.
  unfold CheckIfInClusterAndHealthy. apply (Emits.bind_within q 0 0).
  - apply GetClusterNodes_within.
  - intros [nodes [e|]]; apply Emits.ret_within.
Qed.

Lemma AddNode_within : emits (within q 1) (AddNode env c liveNodeIp).
Proof.
  unfold AddNode. apply (Emits.bind_within q 1 0).
  - apply POST_within, Emits.peer_url.
  - intros [e|]; [|apply Emits.ret_within].
    destruct (Strings.Contains e "Node is already part of cluster");
      apply Emits.ret_within.
Qed.

(** [n] rounds of [AddNodeRetry] send at most [n] POSTs. *)
Lemma AddNodeRetry_loop_within (n : nat) (s : Z) :
  emits (within q n) (AddNodeRetry_loop env c n s liveNodeIp).
Proof.
  revert s. induction n as [|n IH]; intros s; cbn [AddNodeRetry_loop].
  - apply Emits.ret_within.
  - apply (Emits.bind_within q 1 n); [apply AddNode_within|].
    intros [e|]; [|apply Emits.ret_within].
    apply (Emits.bind_within q 0 n); [apply sleep_seconds_within|].
    intros _. apply IH.
Qed.

Lemma WaitUntilNoRebalanceRunning_loop_within (n : nat) (s : Z) :
  emits (within q 0)
        (WaitUntilNoRebalanceRunning_loop env c n s liveNodeIp).
Proof.
  revert s. induction n as [|n IH]; intros s;
    cbn [WaitUntilNoRebalanceRunning_loop].
  - apply Emits.ret_within.
  - apply (Emits.bind_within q 0 0); [apply IsRebalancing_within|].
    intros [[|] [e|]]; try apply Emits.ret_within.
    apply (Emits.bind_within q 0 0); [apply sleep_seconds_within|].
    intros _. apply IH.
Qed.

Lemma TriggerRebalance_within :
  emits (within q 1) (TriggerRebalance env c liveNodeIp).
Proof.
  unfold TriggerRebalance, OtpNodeList. apply (Emits.bind_within q 0 1).
  - apply (Emits.bind_within q 0 0); [apply GetClusterNodes_within|].
    intros [nodes [e|]]; apply Emits.ret_within.
  - intros [ids [e|]]; [apply Emits.ret_within|].
    apply POST_within, Emits.peer_url.
Qed.

(** [JoinLiveNode] only adds to the history, and all it adds are waits
    and GETs and POSTs that go to the peer and carry the configured admin
    identity: it does not touch etcd and does not run [free].  It sends at
    most eleven POSTs, ten to add the node and one to rebalance. *)
Theorem JoinLiveNode_talks_to_peer :
  emits (within (peer_event c liveNodeIp) 11) (JoinLiveNode env c liveNodeIp).
Proof.
  unfold JoinLiveNode. apply (Emits.bind_within q 0 11).
  - apply CheckIfInClusterAndHealthy_within.
  - intros [inCluster [e|]]; [apply Emits.ret_within|].
    apply (Emits.bind_within q 10 1).
    + destruct inCluster; cbn [negb]; [apply Emits.ret_within|].
      apply AddNodeRetry_loop_within.
    + intros [e|]; [apply Emits.ret_within|].
      apply (Emits.bind_within q 0 1).
      * apply WaitUntilNoRebalanceRunning_loop_within.
      * intros [e|]; [apply Emits.ret_within | apply TriggerRebalance_within].
Qed.

End JoinSequenceFacts.

(** ** Waiting for a rebalance to end, adding a node *)

Section RetryLoopFacts.

Variable env : Env.
Variable c : CouchbaseCluster.
Variable liveNodeIp : string.

Lemma IsRebalancing_history (h : History) :
  snd (IsRebalancing env c liveNodeIp h)
  = get_event c (rebalanceProgress_url c liveNodeIp) :: h.
Proof.
  unfold IsRebalancing, getJsonData_map, bind, call.
  destruct (http_getJsonMap env h _ _ _) as [m|e]; [|reflexivity].
  destruct (map_index m "status") as [| | |s| |]; try reflexivity.
  now destruct (String.eqb s "none").
Qed.

(** One round of the loop of [WaitUntilNoRebalanceRunning]. *)
Lemma WaitUntilNoRebalanceRunning_loop_step (n : nat) (s : Z) (h : History) :
  WaitUntilNoRebalanceRunning_loop env c (S n) s liveNodeIp h
  = match fst (IsRebalancing env c liveNodeIp h) with
    | (true, None) =>
        WaitUntilNoRebalanceRunning_loop env c n (Int.add s 100) liveNodeIp
          (rebalance_wait_rounds c liveNodeIp 1 s h)
    | (_, err) =>
        (err, get_event c (rebalanceProgress_url c liveNodeIp) :: h)
    end.
Proof.
  cbn [WaitUntilNoRebalanceRunning_loop rebalance_wait_rounds].
  unfold bind at 1. rewrite <- IsRebalancing_history.
  destruct (IsRebalancing env c liveNodeIp h) as [[[|] [e|]] h'];
    reflexivity.
Qed.

Lemma WaitUntilNoRebalanceRunning_loop_busy
      (k n : nat) (s : Z) (h : History) :
  (forall j, (j < k)%nat ->
     fst (IsRebalancing env c liveNodeIp
            (rebalance_wait_rounds c liveNodeIp j s h)) = (true, None)) ->
  WaitUntilNoRebalanceRunning_loop env c (k + n) s liveNodeIp h
  = WaitUntilNoRebalanceRunning_loop env c n
      (Nat.iter k (fun x => Int.add x 100) s) liveNodeIp
      (rebalance_wait_rounds c liveNodeIp k s h).
Proof.
  revert s h. induction k as [|k IH]; intros s h Hbusy; [reflexivity|].
  cbn [Nat.add]. rewrite WaitUntilNoRebalanceRunning_loop_step.
  assert (H0 := Hbusy 0%nat ltac:(lia)). cbn [rebalance_wait_rounds] in H0.
  rewrite H0. rewrite IH.
  - now rewrite Nat.iter_succ_r.
  - intros j Hj. apply (Hbusy (S j)). lia.
Qed.

Lemma rebalance_wait_rounds_events (k : nat) (h : History) :
  (k <= 10)%nat ->
  rebalance_wait_rounds c liveNodeIp k 0 h
  = (rebalance_wait_events c liveNodeIp k ++ h)%list.
Proof.
  intros Hk. do 11 (destruct k as [|k]; [reflexivity|]). lia.
Qed.

(** [WaitUntilNoRebalanceRunning] polls the peer at most ten times,
    waiting 100 seconds more after each poll that finds a rebalance in
    progress.  The first poll that answers otherwise ends it at once: with
    no error when no rebalance is in progress, with the error of the poll
    when it failed.  Ten polls that find a rebalance in progress give an
    error. *)
Theorem WaitUntilNoRebalanceRunning_polls (h : History) :
  (forall k answer, (k < 10)%nat ->
     (forall j, (j < k)%nat ->
        fst (IsRebalancing env c liveNodeIp
               (rebalance_wait_events c liveNodeIp j ++ h)%list)
        = (true, None)) ->
     fst (IsRebalancing env c liveNodeIp
            (rebalance_wait_events c liveNodeIp k ++ h)%list) = answer ->
     answer <> (true, None) ->
     WaitUntilNoRebalanceRunning env c liveNodeIp h
     = (snd answer,
        get_event c (rebalanceProgress_url c liveNodeIp)
        :: rebalance_wait_events c liveNodeIp k ++ h)%list)
  /\ ((forall j, (j < 10)%nat ->
         fst (IsRebalancing env c liveNodeIp
                (rebalance_wait_events c liveNodeIp j ++ h)%list)
         = (true, None)) ->
      WaitUntilNoRebalanceRunning env c liveNodeIp h
      = (Some "Unable to rebalance after several attempts",
         (rebalance_wait_events c liveNodeIp 10 ++ h)%list)).
Proof.
  unfold WaitUntilNoRebalanceRunning, MAX_RETRIES_JOIN_CLUSTER. split.
  - intros k answer Hk Hbusy Hans Hne.
    replace 10%nat with (k + S (9 - k))%nat by lia.
    rewrite WaitUntilNoRebalanceRunning_loop_busy.
    + rewrite WaitUntilNoRebalanceRunning_loop_step.
      rewrite rebalance_wait_rounds_events by lia. rewrite Hans.
      destruct answer as [[|] [e|]]; try reflexivity.
      now contradiction Hne.
    + intros j Hj. rewrite rebalance_wait_rounds_events by lia.
      now apply Hbusy.
  - intros Hbusy. change 10%nat with (10 + 0)%nat at 1.
    rewrite WaitUntilNoRebalanceRunning_loop_busy.
    + now rewrite rebalance_wait_rounds_events by lia.
    + intros j Hj. rewrite rebalance_wait_rounds_events by lia.
      now apply Hbusy.
Qed.

Hypothesis request_ok :
  http_NewRequest env "POST" (addNode_url c liveNodeIp) = None.

Lemma AddNode_history (h : History) :
  snd (AddNode env c liveNodeIp h) = EvDo (addNode_request c liveNodeIp) :: h.
Proof.
  unfold AddNode, bind.
  pose proof (POST_history env c false (addNode_url c liveNodeIp)
                (req_form (addNode_request c liveNodeIp)) h) as Hh.
  rewrite request_ok in Hh.
  unfold addNode_url, addNode_request in *. cbn [req_form] in Hh.
  destruct (POST env c false _ _ h) as [[e|] h']; cbn [snd] in Hh; subst h'.
  - now destruct (Strings.Contains e "Node is already part of cluster").
  - reflexivity.
Qed.

Lemma AddNodeRetry_loop_step (n : nat) (s : Z) (h : History) :
  AddNodeRetry_loop env c (S n) s liveNodeIp h
  = match fst (AddNode env c liveNodeIp h) with
    | Some _ =>
        AddNodeRetry_loop env c n (Int.add s 10) liveNodeIp
          (addNode_retry_rounds c liveNodeIp 1 s h)
    | None => (None, EvDo (addNode_request c liveNodeIp) :: h)
    end.
Proof.
  cbn [AddNodeRetry_loop addNode_retry_rounds].
  unfold bind at 1. rewrite <- AddNode_history.
  destruct (AddNode env c liveNodeIp h) as [[e|] h']; reflexivity.
Qed.

Lemma AddNodeRetry_loop_failing (k n : nat) (s : Z) (h : History) :
  (forall j, (j < k)%nat ->
     fst (AddNode env c liveNodeIp (addNode_retry_rounds c liveNodeIp j s h))
     <> None) ->
  AddNodeRetry_loop env c (k + n) s liveNodeIp h
  = AddNodeRetry_loop env c n
      (Nat.iter k (fun x => Int.add x 10) s) liveNodeIp
      (addNode_retry_rounds c liveNodeIp k s h).
Proof.
  revert s h. induction k as [|k IH]; intros s h Hfail; [reflexivity|].
  cbn [Nat.add]. rewrite AddNodeRetry_loop_step.
  assert (H0 := Hfail 0%nat ltac:(lia)). cbn [addNode_retry_rounds] in H0.
  destruct (fst (AddNode env c liveNodeIp h)) as [e|];
    [|now contradiction H0].
  rewrite IH.
  - now rewrite Nat.iter_succ_r.
  - intros j Hj. apply (Hfail (S j)). lia.
Qed.

Lemma addNode_retry_rounds_events (k : nat) (h : History) :
  (k <= 10)%nat ->
  addNode_retry_rounds c liveNodeIp k 0 h
  = (addNode_retry_events c liveNodeIp k ++ h)%list.
Proof.
  intros Hk. do 11 (destruct k as [|k]; [reflexivity|]). lia.
Qed.

(** [AddNodeRetry] posts to the peer at most ten times, waiting 10
    seconds more after each attempt that fails, the tenth included.  The
    first attempt that succeeds ends it with no error; ten failed attempts
    give an error that does not carry the error of any attempt. *)
Theorem AddNodeRetry_attempts (h : History) :
  (forall k, (k < 10)%nat ->
     (forall j, (j < k)%nat ->
        fst (AddNode env c liveNodeIp
               (addNode_retry_events c liveNodeIp j ++ h)%list) <> None) ->
     fst (AddNode env c liveNodeIp
            (addNode_retry_events c liveNodeIp k ++ h)%list) = None ->
     AddNodeRetry env c liveNodeIp h
     = (None,
        EvDo (addNode_request c liveNodeIp)
        :: addNode_retry_events c liveNodeIp k ++ h)%list)
  /\ ((forall j, (j < 10)%nat ->
         fst (AddNode env c liveNodeIp
                (addNode_retry_events c liveNodeIp j ++ h)%list) <> None) ->
      AddNodeRetry env c liveNodeIp h
      = (Some "Unable to AddNode after several attempts",
         (addNode_retry_events c liveNodeIp 10 ++ h)%list)).
Proof.
  unfold AddNodeRetry, MAX_RETRIES_JOIN_CLUSTER. split.
  - intros k Hk Hfail Hok.
    replace 10%nat with (k + S (9 - k))%nat by lia.
    rewrite AddNodeRetry_loop_failing.
    + rewrite AddNodeRetry_loop_step.
      rewrite addNode_retry_rounds_events by lia. now rewrite Hok.
    + intros j Hj. rewrite addNode_retry_rounds_events by lia.
      now apply Hfail.
  - intros Hfail. change 10%nat with (10 + 0)%nat at 1.
    rewrite AddNodeRetry_loop_failing.
    + now rewrite addNode_retry_rounds_events by lia.
    + intros j Hj. rewrite addNode_retry_rounds_events by lia.
      now apply Hfail.
Qed.

End RetryLoopFacts.

(** ** Initialising the first node *)

Section InitFacts.

Variable env : Env.
Variable c : CouchbaseCluster.

(** [ClusterInit] first posts the admin identity and the port to
    [/settings/web], with the factory-default identity.  When that fails
    it returns the error and does nothing more; otherwise it reads the
    total memory and returns what the POST of the memory quota, sent with
    the configured identity, returns. *)
Theorem ClusterInit_sequence (h : History) :
  http_NewRequest env "POST" (settings_web_url c) = None ->
  let first := mkRequest "POST" (settings_web_url c)
                 "application/x-www-form-urlencoded" "admin" "password"
                 (settings_web_form c) in
  (forall e,
      fst (POST env c true (settings_web_url c) (settings_web_form c) h)
      = Some e ->
      ClusterInit env c h = (Some e, EvDo first :: h))
  /\ (fst (POST env c true (settings_web_url c) (settings_web_form c) h)
      = None ->
      exists ramMb,
        ClusterInit env c h
        = POST env c false (clusterRam_url c) (clusterRam_form ramMb)
            (EvFree :: EvDo first :: h)).
Proof.
  intros Hreq first.
  assert (Hrun : ClusterInit env c h
                 = match fst (POST env c true (settings_web_url c)
                                (settings_web_form c) h) with
                   | Some e => (Some e, EvDo first :: h)
                   | None => SetClusterRam env c (EvDo first :: h)
                   end).
  { pose proof (POST_history env c true (settings_web_url c)
                  (settings_web_form c) h) as Hh.
    rewrite Hreq in Hh.
    unfold ClusterInit, bind.
    fold (settings_web_url c). fold (settings_web_form c).
    destruct (POST env c true (settings_web_url c) (settings_web_form c) h)
      as [[e|] h']; cbn [fst snd] in *; subst h'; reflexivity. }
  rewrite Hrun. split.
  - now intros e ->.
  - intros ->. unfold SetClusterRam. unfold bind at 1.
    rewrite CalculateClusterRam_of_total.
    destruct (fst (CalculateTotalRam env (EvDo first :: h))) as [n [e|]].
    + now exists "1024".
    + now exists (Int.format (Int.quo (Int.mul n 75) 100)).
Qed.

(** [CreateDefaultBucket] creates nothing when the bucket list already
    holds a bucket named [default], and nothing when the list cannot be
    fetched: then it returns that error.  Otherwise it posts the new
    bucket with the configured identity. *)
Theorem CreateDefaultBucket_only_when_missing (h : History) :
  let fetched := http_getJsonList env h (buckets_url c)
                   (AdminUsername c) (AdminPassword c) in
  let h' := get_event c (buckets_url c) :: h in
  (forall e, fetched = inr e -> CreateDefaultBucket env c h = (Some e, h'))
  /\ (forall jsonList,
         fetched = inl jsonList ->
         existsb is_default_bucket jsonList = true ->
         CreateDefaultBucket env c h = (None, h'))
  /\ (forall jsonList,
         fetched = inl jsonList ->
         existsb is_default_bucket jsonList = false ->
         CreateDefaultBucket env c h
         = POST env c false (buckets_url c) (default_bucket_form c) h').
Proof.
  unfold CreateDefaultBucket, HasDefaultBucket, getJsonData_list, buckets_url,
    get_event, bind, call.
  destruct (http_getJsonList env h _ _ _) as [jsonList|e]; cbn [ret].
  - rewrite HasDefaultBucket_entries_existsb. split; [discriminate|]. split.
    + intros l [= <-] Hex. now rewrite Hex.
    + intros l [= <-] Hex. now rewrite Hex.
  - split; [now intros e' [= <-]|]. split; discriminate.
Qed.

(** [j] fetches that fail: the loop waits ten seconds after each. *)
Lemma FetchClusterDetails_loop_retries (j n : nat) (h : History) :
  (forall i, (i < j)%nat ->
     exists e, http_getJsonMap env (failed_fetches c i h) (pools_url c)
                 (AdminUsername c) (AdminPassword c) = inr e) ->
  FetchClusterDetails_loop env (j + n) c h
  = FetchClusterDetails_loop env n c (failed_fetches c j h).
Proof.
  revert h. induction j as [|j IH]; intros h Hfail; [reflexivity|].
  cbn [Nat.add FetchClusterDetails_loop].
  unfold bind at 1, getJsonData_map, call at 1.
  destruct (Hfail 0%nat ltac:(lia)) as [e He].
  change (failed_fetches c 0 h) with h in He.
  unfold pools_url in He. rewrite He.
  unfold bind at 1, sleep_seconds, call at 1.
  rewrite IH.
  - unfold failed_fetches. now rewrite Nat.iter_succ_r.
  - intros i Hi. destruct (Hfail (S i) ltac:(lia)) as [e' He'].
    exists e'. unfold failed_fetches in *. now rewrite Nat.iter_succ_r in He'.
Qed.

(** [FetchClusterDetails] fetches [/pools] at most ten times, waiting ten
    seconds after each fetch that fails.  The first fetch that succeeds
    decides: a string [implementationVersion] becomes the version of the
    cluster, whose other six fields stay (the cluster that is left is
    written out field by field); anything else is an error, with no
    further fetch and the cluster unchanged.  After ten failed fetches the
    cluster is unchanged too. *)
Theorem FetchClusterDetails_outcome (h : History) :
  (forall j jsonMap, (j < 10)%nat ->
     (forall i, (i < j)%nat ->
        exists e, http_getJsonMap env (failed_fetches c i h) (pools_url c)
                    (AdminUsername c) (AdminPassword c) = inr e) ->
     http_getJsonMap env (failed_fetches c j h) (pools_url c)
       (AdminUsername c) (AdminPassword c) = inl jsonMap ->
     let h' := get_event c (pools_url c) :: failed_fetches c j h in
     (forall version,
         map_index jsonMap "implementationVersion" = JString version ->
         FetchClusterDetails env c h
         = ((None,
             mkCluster (LocalCouchbaseIp c) (LocalCouchbasePort c) version
                       (AdminUsername c) (AdminPassword c)
                       (defaultBucketRamQuotaMB c)
                       (defaultBucketReplicaNumber c)), h'))
     /\ ((forall version,
            map_index jsonMap "implementationVersion" <> JString version) ->
         FetchClusterDetails env c h
         = ((Some "Expected implementationVersion to contain a string", c),
            h')))
  /\ ((forall i, (i < 10)%nat ->
         exists e, http_getJsonMap env (failed_fetches c i h) (pools_url c)
                     (AdminUsername c) (AdminPassword c) = inr e) ->
      FetchClusterDetails env c h
      = ((Some "Unable to fetch cluster details after several attempts", c),
         failed_fetches c 10 h)).
Proof.
  unfold FetchClusterDetails, MAX_RETRIES_JOIN_CLUSTER. split.
  - intros j jsonMap Hj Hfail Hok. cbv zeta.
    assert (Hrun : FetchClusterDetails_loop env 10 c h
                   = (match map_index jsonMap "implementationVersion" with
                      | JString version => (None, set_Version c version)
                      | _ => (Some "Expected implementationVersion to contain a string",
                              c)
                      end,
                      get_event c (pools_url c) :: failed_fetches c j h)).
    { replace 10%nat with (j + S (9 - j))%nat by lia.
      rewrite (FetchClusterDetails_loop_retries j _ h Hfail).
      cbn [FetchClusterDetails_loop].
      unfold bind at 1, getJsonData_map, call at 1.
      unfold pools_url in Hok. rewrite Hok.
      now destruct (map_index jsonMap "implementationVersion"). }
    rewrite Hrun. split.
    + intros version Hv. now rewrite Hv.
    + intros Hv.
      destruct (map_index jsonMap "implementationVersion") eqn:E;
        try reflexivity.
      now contradiction (Hv s).
  - intros Hfail. change 10%nat with (10 + 0)%nat at 1.
    now rewrite (FetchClusterDetails_loop_retries 10 _ h Hfail).
Qed.

End InitFacts.

(** ** Waiting for the cluster *)

Section WaitingFacts.

Variable env : Env.
Variable c : CouchbaseCluster.

(** The worker turns every failure into "not yet": it never returns an
    error. *)
Lemma WaitUntilNumNodesRunning_worker_no_error (numNodes : Z) (h : History) :
  snd (fst (WaitUntilNumNodesRunning_worker env c numNodes h)) = None.
Proof.
  unfold WaitUntilNumNodesRunning_worker, bind.
  destruct (FindLiveNode env h) as [[ip [e|]] h1]; [reflexivity|].
  destruct (String.eqb ip EmptyString); [reflexivity|].
  destruct (CheckNumNodesClusterHealthy env c numNodes ip h1)
    as [[ok [e|]] h2]; [reflexivity|].
  now destruct ok.
Qed.

(** With a worker that never returns an error and the sleeper that stops
    after [maxAttempts] attempts, the loop that is at attempt
    [maxAttempts + 1 - d] ends within [d + 1] rounds. *)
Lemma RetryLoop_from_wait_sleeper (worker : RetryWorker) (maxAttempts : Z) :
  (forall h, snd (fst (worker h)) = None) ->
  maxAttempts < Int.max_int ->
  forall (d fuel : nat) (a : Z) (h : History),
    a = maxAttempts + 1 - Z.of_nat d -> 1 <= a -> (d < fuel)%nat ->
    done_or_gave_up (maxAttempts + 1)
      (fst (RetryLoop_from fuel worker (wait_sleeper maxAttempts) a h)).
Proof.
  intros Hw Hmax. induction d as [|d IH]; intros fuel a h Ha H1 Hfuel;
    (destruct fuel as [|fuel]; [lia|]); cbn [RetryLoop_from];
    unfold bind at 1; unfold bind at 1, call at 1;
    specialize (Hw (EvWorker :: h));
    destruct (worker (EvWorker :: h)) as [[finished err] h1];
    cbn [fst snd] in Hw; subst err;
    (destruct finished; [now left|]);
    unfold bind at 1; unfold bind at 1, call at 1; unfold wait_sleeper at 1.
  - assert (Ea : a = maxAttempts + 1) by lia. rewrite Ea.
    replace (maxAttempts + 1 >? maxAttempts) with true
      by (symmetry; rewrite Z.gtb_ltb; apply Z.ltb_lt; lia).
    right. reflexivity.
  - replace (a >? maxAttempts) with false
      by (symmetry; rewrite Z.gtb_ltb; apply Z.ltb_ge; lia).
    cbn [ret negb]. unfold bind at 1, sleep_seconds, call at 1.
    assert (Hadd : Int.add a 1 = a + 1).
    { unfold Int.add. apply IntFacts.wrap_in_range.
      unfold Int.in_range, Int.min_int, Int.max_int in *. lia. }
    rewrite Hadd. apply IH; lia.
Qed.

Lemma wrap_range (z : Z) : Int.in_range (Int.wrap z).
Proof.
  unfold Int.in_range, Int.wrap, Int.min_int, Int.max_int.
  pose proof (Z.mod_pos_bound (z + 2 ^ 63) (2 ^ 64) ltac:(lia)). lia.
Qed.

(** The sleeper whose bound is the largest [int] never says to stop: with
    a worker that is never done, the loop goes on for as long as it is
    run. *)
Lemma RetryLoop_from_never_stops (worker : RetryWorker) :
  (forall h, fst (worker h) = (false, None)) ->
  forall (fuel : nat) (a : Z) (h : History),
    a <= Int.max_int ->
    fst (RetryLoop_from fuel worker (wait_sleeper Int.max_int) a h) = None.
Proof.
  intros Hw. induction fuel as [|fuel IH]; intros a h Ha; [reflexivity|].
  cbn [RetryLoop_from]. unfold bind at 1. unfold bind at 1, call at 1.
  specialize (Hw (EvWorker :: h)).
  destruct (worker (EvWorker :: h)) as [[finished err] h1].
  cbn [fst] in Hw. injection Hw as -> ->.
  unfold bind at 1. unfold bind at 1, call at 1. unfold wait_sleeper at 1.
  replace (a >? Int.max_int) with false
    by (symmetry; rewrite Z.gtb_ltb; apply Z.ltb_ge; lia).
  cbn [ret negb]. unfold bind at 1, sleep_seconds, call at 1.
  apply IH. unfold Int.add. apply wrap_range.
Qed.

Lemma WaitUntilNumNodesRunning_worker_etcd_down (numNodes : Z) :
  (forall h, exists e,
      etcd_Get env h KEY_NODE_STATE false false = GetErr e) ->
  forall h, fst (WaitUntilNumNodesRunning_worker env c numNodes h)
            = (false, None).
Proof.
  intros Hdown h. destruct (Hdown h) as [e He].
  unfold WaitUntilNumNodesRunning_worker, FindLiveNode, bind, call.
  now rewrite He.
Qed.

(** For [0 <= maxAttempts] below the largest [int],
    [WaitUntilNumNodesRunning] always returns, after at most
    [maxAttempts + 1] calls of its worker: with no error once the worker
    finds enough healthy nodes, and otherwise with the error of the
    exhausted retries.  No failure of etcd or of the peer ends it
    earlier.  The bound on [maxAttempts] is needed: when it is the largest
    [int] the count of the attempts never exceeds it, and while etcd
    cannot be read the call does not return, however long it is run. *)
Theorem WaitUntilNumNodesRunning_returns (numNodes : Z) (h : History) :
  (forall (fuel : nat) (maxAttempts : Z),
      0 <= maxAttempts < Int.max_int ->
      (Z.to_nat maxAttempts < fuel)%nat ->
      done_or_gave_up (maxAttempts + 1)
        (fst (WaitUntilNumNodesRunning env c fuel numNodes maxAttempts h)))
  /\ ((forall h', exists e,
          etcd_Get env h' KEY_NODE_STATE false false = GetErr e) ->
      forall fuel : nat,
        fst (WaitUntilNumNodesRunning env c fuel numNodes Int.max_int h)
        = None).
Proof.
  split.
  - intros fuel maxAttempts Hm Hfuel.
    unfold WaitUntilNumNodesRunning, RetryLoop.
    apply (RetryLoop_from_wait_sleeper _ maxAttempts
             (WaitUntilNumNodesRunning_worker_no_error numNodes)
             ltac:(lia) (Z.to_nat maxAttempts)); lia.
  - intros Hdown fuel. unfold WaitUntilNumNodesRunning, RetryLoop.
    apply RetryLoop_from_never_stops.
    + now apply WaitUntilNumNodesRunning_worker_etcd_down.
    + unfold Int.max_int. lia.
Qed.

(** [WaitUntilClusterRunning] is [WaitUntilNumNodesRunning] with no
    required number of nodes. *)
Lemma WaitUntilClusterRunning_as_num_nodes
      (fuel : nat) (maxAttempts : Z) (h : History) :
  WaitUntilClusterRunning env c fuel maxAttempts h
  = WaitUntilNumNodesRunning env c fuel (-1) maxAttempts h.
Proof. reflexivity. Qed.

End WaitingFacts.

(** ** Printing and reading integers *)

Module FormatFacts.

Import Text.

Lemma digits_value_step (a : ascii) (s : string) (acc : Z) :
  is_digit a = true ->
  digits_value (String a s) acc
  = digits_value s (10 * acc + (Z.of_nat (nat_of_ascii a) - 48)).
Proof. intros Ha. cbn [digits_value]. now rewrite Ha. Qed.

Lemma digits_value_of_uint_acc (d : Decimal.uint) (acc : positive) :
  digits_value (NilEmpty.string_of_uint d) (Z.pos acc)
  = Some (Z.pos (Pos.of_uint_acc d acc)).
Proof.
  revert acc. induction d as [|d IH|d IH|d IH|d IH|d IH|d IH|d IH|d IH|d IH|d IH];
    intros acc; cbn [NilEmpty.string_of_uint Pos.of_uint_acc];
    [reflexivity|..];
    rewrite digits_value_step by reflexivity;
    rewrite <- IH; f_equal;
    match goal with
    | |- context [Z.of_nat (nat_of_ascii ?a)] =>
        let v := eval vm_compute in (Z.of_nat (nat_of_ascii a)) in
        change (Z.of_nat (nat_of_ascii a)) with v
    end; lia.
Qed.

Lemma digits_value_of_uint (d : Decimal.uint) :
  digits_value (NilEmpty.string_of_uint d) 0
  = Some (Z.of_N (Pos.of_uint d)).
Proof.
  induction d as [|d IH|d IH|d IH|d IH|d IH|d IH|d IH|d IH|d IH|d IH];
    cbn [NilEmpty.string_of_uint Pos.of_uint];
    [reflexivity|..];
    rewrite digits_value_step by reflexivity;
    [exact IH|..];
    cbn [Z.of_N]; rewrite <- digits_value_of_uint_acc; f_equal.
Qed.

Lemma string_of_uint_digits (d : Decimal.uint) :
  all_bytes is_digit (NilEmpty.string_of_uint d) = true.
Proof.
  induction d; cbn [NilEmpty.string_of_uint all_bytes]; auto;
    rewrite IHd; reflexivity.
Qed.

(** The decimal digits of a positive number read back as that number. *)
Lemma digits_value_format_pos (p : positive) :
  digits_value (NilEmpty.string_of_uint (Pos.to_uint p)) 0 = Some (Z.pos p).
Proof.
  rewrite digits_value_of_uint, DecimalPos.Unsigned.of_to. reflexivity.
Qed.

Lemma format_pos_nonempty (p : positive) :
  NilEmpty.string_of_uint (Pos.to_uint p) <> EmptyString.
Proof.
  intros H. pose proof (digits_value_format_pos p) as Hv.
  rewrite H in Hv. discriminate.
Qed.

End FormatFacts.

Module ParseFacts.

Import Text Strconv.

Lemma in_range_test (n : Z) :
  Int.in_range n -> (Int.min_int <=? n) && (n <=? Int.max_int) = true.
Proof.
  intros [H1 H2]. apply andb_true_iff. split; now apply Z.leb_le.
Qed.

(** [Atoi] reads the decimal text of a number back. *)
Lemma Atoi_format (n : Z) : Int.in_range n -> Atoi (Int.format n) = inl n.
Proof.
  intros Hr. unfold Int.format. destruct n as [|p|p]; cbn [Z.to_int].
  - reflexivity.
  - cbn [NilEmpty.string_of_int].
    pose proof (FormatFacts.digits_value_format_pos p) as Hv.
    pose proof (FormatFacts.string_of_uint_digits (Pos.to_uint p)) as Hd.
    destruct (NilEmpty.string_of_uint (Pos.to_uint p)) as [|a ds] eqn:Es;
      [discriminate|].
    cbn in Hd. apply andb_true_iff in Hd. destruct Hd as [Ha _].
    unfold Atoi.
    destruct (Ascii.eqb_spec a "-") as [->|_]; [discriminate Ha|].
    destruct (Ascii.eqb_spec a "+") as [->|_]; [discriminate Ha|].
    unfold Atoi_digits. rewrite Hv. cbv zeta.
    now rewrite (in_range_test _ Hr).
  - cbn [NilEmpty.string_of_int].
    pose proof (FormatFacts.digits_value_format_pos p) as Hv.
    unfold Atoi. rewrite Ascii.eqb_refl. unfold Atoi_digits.
    destruct (NilEmpty.string_of_uint (Pos.to_uint p)) as [|a ds] eqn:Es;
      [discriminate|].
    rewrite Hv. cbv zeta. change (- Z.pos p) with (Z.neg p).
    now rewrite (in_range_test _ Hr).
Qed.

Lemma digits_value_ge (s : string) (acc v : Z) :
  digits_value s acc = Some v -> 0 <= acc -> acc <= v.
Proof.
  revert acc. induction s as [|a s IH]; intros acc; cbn [digits_value].
  - intros [= <-]. lia.
  - destruct (is_digit a) eqn:Ea; [|discriminate].
    intros H Hacc.
    unfold is_digit in Ea. apply andb_true_iff in Ea.
    destruct Ea as [H1 _]. apply Nat.leb_le in H1.
    specialize (IH _ H). lia.
Qed.

(** On digits that write a number of 64 bits, the loop of [ParseUint]
    computes that number. *)
Lemma ParseUint_loop_digits (s : string) (acc v : Z) :
  digits_value s acc = Some v -> 0 <= acc -> v <= maxUint64 ->
  ParseUint_loop s acc = inl v.
Proof.
  revert acc. induction s as [|a s IH]; intros acc;
    cbn [digits_value ParseUint_loop].
  - now intros [= <-].
  - destruct (is_digit a) eqn:Ea; [|discriminate].
    intros H Hacc Hv. cbv zeta.
    assert (Hd : 0 <= Z.of_nat (nat_of_ascii a) - 48).
    { unfold is_digit in Ea. apply andb_true_iff in Ea.
      destruct Ea as [H1 _]. apply Nat.leb_le in H1. lia. }
    pose proof (digits_value_ge _ _ _ H ltac:(lia)) as Hge.
    unfold maxUint64 in *.
    replace (acc >=? (2 ^ 64 - 1) / 10 + 1) with false
      by (symmetry; rewrite Z.geb_leb; apply Z.leb_gt;
          change ((2 ^ 64 - 1) / 10 + 1) with 1844674407370955162; lia).
    replace (acc * 10 + (Z.of_nat (nat_of_ascii a) - 48) >? 2 ^ 64 - 1)
      with false
      by (symmetry; rewrite Z.gtb_ltb; apply Z.ltb_ge; lia).
    replace (acc * 10) with (10 * acc) by lia.
    apply IH; [assumption | lia | assumption].
Qed.

(** [ParseInt] reads the decimal text of a number back. *)
Lemma ParseInt_format (n : Z) :
  Int.in_range n -> ParseInt (Int.format n) = (n, None).
Proof.
  intros Hr. unfold Int.format. destruct n as [|p|p]; cbn [Z.to_int].
  - reflexivity.
  - cbn [NilEmpty.string_of_int].
    pose proof (FormatFacts.digits_value_format_pos p) as Hv.
    pose proof (FormatFacts.string_of_uint_digits (Pos.to_uint p)) as Hd.
    destruct (NilEmpty.string_of_uint (Pos.to_uint p)) as [|a ds] eqn:Es;
      [discriminate|].
    cbn in Hd. apply andb_true_iff in Hd. destruct Hd as [Ha _].
    unfold ParseInt. cbv zeta.
    destruct (Ascii.eqb_spec a "-") as [->|_]; [discriminate Ha|].
    destruct (Ascii.eqb_spec a "+") as [->|_]; [discriminate Ha|].
    cbn [orb negb andb]. unfold ParseUint.
    rewrite (ParseUint_loop_digits _ 0 (Z.pos p) Hv ltac:(lia))
      by (unfold maxUint64, Int.in_range, Int.max_int in *; lia).
    replace (Z.pos p >=? 2 ^ 63) with false
      by (symmetry; rewrite Z.geb_leb; apply Z.leb_gt;
          unfold Int.in_range, Int.max_int in Hr; lia).
    reflexivity.
  - cbn [NilEmpty.string_of_int].
    pose proof (FormatFacts.digits_value_format_pos p) as Hv.
    destruct (NilEmpty.string_of_uint (Pos.to_uint p)) as [|a ds] eqn:Es;
      [discriminate|].
    unfold ParseInt. cbv zeta. cbn [append]. rewrite Ascii.eqb_refl.
    replace (Ascii.eqb "-" "+") with false by reflexivity.
    cbn [orb negb andb]. unfold ParseUint.
    rewrite (ParseUint_loop_digits _ 0 (Z.pos p) Hv ltac:(lia))
      by (unfold maxUint64, Int.in_range, Int.min_int in *; lia).
    replace (Z.pos p >? 2 ^ 63) with false
      by (symmetry; rewrite Z.gtb_ltb; apply Z.ltb_ge;
          unfold Int.in_range, Int.min_int in Hr; lia).
    reflexivity.
Qed.

End ParseFacts.

(** ** The major version *)

(** For a version that starts with an ASCII byte, [CouchbaseMajorVersion]
    returns the code of that byte and no error: 51 for a version that
    starts with the digit 3. *)
Theorem CouchbaseMajorVersion_first_byte_code
        (c : CouchbaseCluster) (a : ascii) (rest : string) :
  LocalCouchbaseVersion c = String a rest ->
  Utf8.byte a < 128 ->
  CouchbaseMajorVersion c = (Utf8.byte a, None).
Proof.
  intros Hv Ha. unfold CouchbaseMajorVersion. rewrite Hv.
  cbn [String.length Nat.eqb]. unfold Utf8.DecodeRuneInString.
  cbv zeta. unfold Utf8.first.
  replace (Utf8.byte a <? 128) with true by (symmetry; now apply Z.ltb_lt).
  cbn [Z.geb Z.compare Pos.compare Pos.compare_cont Z.odd].
  rewrite ParseFacts.Atoi_format; [reflexivity|].
  unfold Utf8.byte, Int.in_range, Int.min_int, Int.max_int in *. lia.
Qed.

Lemma CouchbaseMajorVersion_first_byte_code_witness :
  CouchbaseMajorVersion Scenario.cluster = (51, None).
Proof.
  apply (CouchbaseMajorVersion_first_byte_code Scenario.cluster "3" ".0.1");
    [reflexivity | unfold Utf8.byte; cbn; lia].
Defined.

(** ** The arguments of the command line *)

Module JoinSplitFacts.

Import Strings.

Lemma HasPrefix_drop (s p : string) :
  HasPrefix s p = true -> s = p ++ drop (String.length p) s.
Proof.
  unfold HasPrefix. revert s. induction p as [|a p IH]; intros s H.
  - cbn. now destruct s.
  - destruct s as [|b s]; cbn in H; [discriminate|].
    destruct (ascii_dec a b) as [->|]; [|discriminate].
    cbn. f_equal. now apply IH.
Qed.

(** The text is what precedes the first instance of the separator, the
    separator, and what follows it. *)
Lemma Index_cut (s sep : string) (m : nat) :
  Index s sep = Some m ->
  s = take m s ++ sep ++ drop (m + String.length sep) s.
Proof.
  revert m. induction s as [|a s IH]; intros m; cbn [Index].
  - destruct (HasPrefix EmptyString sep) eqn:E; [|discriminate].
    intros [= <-]. now apply HasPrefix_drop in E.
  - destruct (HasPrefix (String a s) sep) eqn:E.
    + intros [= <-]. now apply HasPrefix_drop in E.
    + destruct (Index s sep) as [i|]; [|discriminate].
      intros [= <-]. cbn. f_equal. now apply IH.
Qed.

Lemma genSplit_nonempty (fuel : nat) (s sep : string) :
  genSplit fuel s sep <> [].
Proof.
  destruct fuel; cbn; [discriminate|].
  destruct (Index s sep); discriminate.
Qed.

Lemma Join_cons (x : string) (l : list string) (sep : string) :
  l <> [] -> Join (x :: l) sep = x ++ sep ++ Join l sep.
Proof. destruct l; [contradiction | reflexivity]. Qed.

Lemma Join_genSplit (fuel : nat) (s sep : string) :
  Join (genSplit fuel s sep) sep = s.
Proof.
  revert s. induction fuel as [|fuel IH]; intros s; [reflexivity|].
  cbn [genSplit]. destruct (Index s sep) as [m|] eqn:E; [|reflexivity].
  rewrite Join_cons by apply genSplit_nonempty.
  rewrite IH. symmetry. now apply Index_cut.
Qed.

Lemma Join_explode (s : string) : Join (explode s) EmptyString = s.
Proof.
  induction s as [|a s IH]; [reflexivity|].
  destruct s as [|b s]; [reflexivity|].
  change (explode (String a (String b s)))
    with (String a EmptyString :: explode (String b s)).
  rewrite Join_cons by (cbn; discriminate). now rewrite IH.
Qed.

(** Joining the pieces of a split with the separator gives the text
    back. *)
Lemma Join_Split (s sep : string) : Join (Split s sep) sep = s.
Proof.
  unfold Split. destruct sep; [apply Join_explode | apply Join_genSplit].
Qed.

Lemma Index_byte_take (s : string) (b : ascii) (m : nat) :
  Index s (String b EmptyString) = Some m ->
  Index (take m s) (String b EmptyString) = None.
Proof.
  revert m. induction s as [|a s IH]; intros m; cbn [Index].
  - unfold HasPrefix. cbn. discriminate.
  - unfold HasPrefix. cbn [prefix].
    destruct (ascii_dec b a) as [->|Hne].
    + destruct s; intros [= <-]; reflexivity.
    + destruct (Index s (String b EmptyString)) as [i|] eqn:E;
        [|discriminate].
      intros [= <-]. cbn [take Index]. unfold HasPrefix. cbn [prefix].
      destruct (ascii_dec b a); [contradiction|].
      now rewrite (IH i eq_refl).
Qed.

(** With a one-byte separator and enough fuel, no piece holds the
    separator. *)
Lemma genSplit_byte_pieces (fuel : nat) (s : string) (b : ascii) :
  (String.length s <= fuel)%nat ->
  Forall (fun piece => Contains piece (String b EmptyString) = false)
         (genSplit fuel s (String b EmptyString)).
Proof.
  revert s. induction fuel as [|fuel IH]; intros s Hlen.
  - destruct s; [|cbn in Hlen; lia]. constructor; [|constructor].
    unfold Contains, Index, HasPrefix. reflexivity.
  - cbn [genSplit].
    destruct (Index s (String b EmptyString)) as [m|] eqn:E.
    + constructor.
      * unfold Contains. now rewrite (Index_byte_take _ _ _ E).
      * apply IH. apply SplitFacts.Index_bound in E.
        rewrite SplitFacts.length_drop. cbn [String.length] in *. lia.
    + constructor; [|constructor]. unfold Contains. now rewrite E.
Qed.

End JoinSplitFacts.

(** [ExtractEtcdServerList] cuts the text of [--etcd-servers] at its
    commas: the pieces joined by commas are the text again, no piece holds
    a comma, and there is at least one piece, so that an empty text gives
    one empty server and not an empty list. *)
Theorem ExtractEtcdServerList_round_trip
        (docOptParsed : Arguments) (rawServerListStr : string) :
  args_index docOptParsed "--etcd-servers"
  = Some (VString rawServerListStr) ->
  Strings.Join (ExtractEtcdServerList docOptParsed) "," = rawServerListStr
  /\ ExtractEtcdServerList docOptParsed <> []
  /\ Forall (fun server => Strings.Contains server "," = false)
            (ExtractEtcdServerList docOptParsed).
Proof.
  intros H. unfold ExtractEtcdServerList. rewrite H. split; [|split].
  - apply JoinSplitFacts.Join_Split.
  - apply JoinSplitFacts.genSplit_nonempty.
  - apply JoinSplitFacts.genSplit_byte_pieces. lia.
Qed.

Lemma ExtractEtcdServerList_round_trip_witness :
  Strings.Join
    (ExtractEtcdServerList
       [("--etcd-servers", VString "10.0.0.7:4001,10.0.0.8:4001")]) ","
  = "10.0.0.7:4001,10.0.0.8:4001".
Proof.
  exact (proj1 (ExtractEtcdServerList_round_trip
                  [("--etcd-servers", VString "10.0.0.7:4001,10.0.0.8:4001")]
                  "10.0.0.7:4001,10.0.0.8:4001" eq_refl)).
Defined.

(** [ExtractDockerTagOrLatest] never returns the empty text: it returns
    the text of [--docker-tag] when there is one that is not empty, and
    ["latest"] in every other case. *)
Theorem ExtractDockerTagOrLatest_never_empty (docOptParsed : Arguments) :
  ExtractDockerTagOrLatest docOptParsed <> EmptyString
  /\ (forall dockerTag,
         args_index docOptParsed "--docker-tag" = Some (VString dockerTag) ->
         dockerTag <> EmptyString ->
         ExtractDockerTagOrLatest docOptParsed = dockerTag)
  /\ ((forall dockerTag,
          args_index docOptParsed "--docker-tag" = Some (VString dockerTag) ->
          dockerTag = EmptyString) ->
      ExtractDockerTagOrLatest docOptParsed = "latest").
Proof.
  unfold ExtractDockerTagOrLatest, ExtractStringArg.
  destruct (args_index docOptParsed "--docker-tag") as [[| |s| |]|];
    try (split; [discriminate|]; split; [discriminate | reflexivity]).
  destruct (String.eqb_spec s EmptyString) as [->|Hne].
  - split; [discriminate|]. split; [|reflexivity].
    intros t [= <-] Ht. now contradiction Ht.
  - split; [exact Hne|]. split.
    + now intros t [= <-] _.
    + intros H. now contradiction (Hne (H s eq_refl)).
Qed.

Lemma ExtractDockerTagOrLatest_never_empty_witness :
  ExtractDockerTagOrLatest [("--docker-tag", VString "3.0.1")] = "3.0.1"
  /\ ExtractDockerTagOrLatest [("--docker-tag", VString "")] = "latest".
Proof.
  split.
  - apply (proj1 (proj2 (ExtractDockerTagOrLatest_never_empty
                           [("--docker-tag", VString "3.0.1")])) "3.0.1");
      [reflexivity | discriminate].
  - apply (proj2 (proj2 (ExtractDockerTagOrLatest_never_empty
                           [("--docker-tag", VString "")]))).
    now intros t [= <-].
Defined.

(** [ExtractIntArg] returns -1 with every error, and reads back every
    [int] written in decimal. *)
Theorem ExtractIntArg_reads_decimal
        (docOptParsed : Arguments) (argToExtract : string) :
  (snd (ExtractIntArg docOptParsed argToExtract) <> None ->
   fst (ExtractIntArg docOptParsed argToExtract) = -1)
  /\ (forall n,
         Int.in_range n ->
         args_index docOptParsed argToExtract = Some (VString (Int.format n)) ->
         ExtractIntArg docOptParsed argToExtract = (n, None)).
Proof.
  unfold ExtractIntArg. split.
  - destruct (args_index docOptParsed argToExtract) as [[| |s| |]|];
      try reflexivity.
    destruct (Strconv.ParseInt s) as [intVal [e|]]; [reflexivity|].
    intros H. now contradiction H.
  - intros n Hr ->. now rewrite ParseFacts.ParseInt_format.
Qed.

Lemma ExtractIntArg_reads_decimal_witness :
  ExtractNumNodes [("--num-nodes", VString "3")] = (3, None).
Proof.
  apply (proj2 (ExtractIntArg_reads_decimal
                  [("--num-nodes", VString "3")] "--num-nodes") 3);
    [unfold Int.in_range, Int.min_int, Int.max_int; lia | reflexivity].
Defined.

(** ** Reading the total memory from the output of [free] *)

Module SpanFacts.

Import Text.

Lemma span_app (p : ascii -> bool) (l r : string) :
  all_bytes p l = true -> starts_with p r = false ->
  span p (l ++ r) = (l, r).
Proof.
  intros Hl Hr. induction l as [|a l IH].
  - cbn [append]. destruct r as [|b r]; [reflexivity|].
    cbn in Hr. cbn [span]. now rewrite Hr.
  - cbn in Hl. apply andb_true_iff in Hl. destruct Hl as [Ha Hl].
    cbn [append span]. rewrite Ha, (IH Hl). reflexivity.
Qed.

Lemma digit_not_space (digits rest : string) :
  all_bytes is_digit digits = true -> digits <> EmptyString ->
  starts_with is_space (digits ++ rest) = false.
Proof.
  destruct digits as [|a ds]; [contradiction|]. intros Hd _.
  cbn in Hd. apply andb_true_iff in Hd. destruct Hd as [Ha _].
  cbn. unfold is_space.
  destruct (Ascii.eqb_spec a " ") as [->|]; [discriminate Ha | reflexivity].
Qed.

End SpanFacts.

Section FreeFacts.

Variable env : Env.

(** The first [Mem:] of the output decides: the result is what [Atoi]
    makes of the digits that follow it and its spaces. *)
Lemma CalculateTotalRam_first_Mem
      (h : History) (output : string) (i : nat)
      (spaces digits rest : string) :
  os_free env h = inl output ->
  Strings.Index output "Mem:" = Some i ->
  Strings.drop (i + 4) output = spaces ++ digits ++ rest ->
  Text.all_bytes Text.is_space spaces = true ->
  starts_with Text.is_space (digits ++ rest) = false ->
  Text.all_bytes Text.is_digit digits = true ->
  starts_with Text.is_digit rest = false ->
  fst (CalculateTotalRam env h)
  = match Text.Atoi digits with
    | inr e => (-1, Some e)
    | inl n => (n, None)
    end.
Proof.
  intros Hfree Hi Hdrop Hs Hsd Hd Hrest.
  assert (Hfind : Text.FindString_Mem output = "Mem:" ++ spaces ++ digits).
  { unfold Text.FindString_Mem. rewrite Hi, Hdrop.
    rewrite (SpanFacts.span_app _ _ _ Hs Hsd).
    now rewrite (SpanFacts.span_app _ _ _ Hd Hrest). }
  unfold CalculateTotalRam, bind, call. rewrite Hfree, Hfind.
  replace (String.eqb ("Mem:" ++ spaces ++ digits) EmptyString) with false
    by reflexivity.
  change ("Mem:" ++ spaces ++ digits) with ("Mem" ++ ":" ++ spaces ++ digits).
  rewrite SplitFacts.Contains_colon_app. cbn [negb].
  rewrite (SplitFacts.Split_colon_app "Mem" (spaces ++ digits)) by reflexivity.
  rewrite SplitFacts.Split_no_colon
    by now apply TextFacts.no_colon_spaces_digits.
  cbn [nth]. rewrite TextFacts.TrimSpace_spaces_digits by assumption.
  now destruct (Text.Atoi digits).
Qed.

(** Only the first [Mem:] of the output of [free] is read.  When it is
    followed by spaces, then by digits that are not followed by another
    digit, and the number they write fits an [int], [CalculateTotalRam]
    returns that number, whatever comes before that first [Mem:] and
    after the digits.  When it is followed by spaces and then by
    something that is not a digit, or by nothing, [CalculateTotalRam]
    returns -1 and an error, whatever comes later: another [Mem:] with a
    number does not help. *)
Theorem CalculateTotalRam_reads_total
        (h : History) (output : string) (i : nat) (spaces : string) :
  os_free env h = inl output ->
  Strings.Index output "Mem:" = Some i ->
  Text.all_bytes Text.is_space spaces = true ->
  (forall digits rest v,
      Strings.drop (i + 4) output = spaces ++ digits ++ rest ->
      Text.all_bytes Text.is_digit digits = true ->
      digits <> EmptyString ->
      starts_with Text.is_digit rest = false ->
      Text.digits_value digits 0 = Some v ->
      v <= Int.max_int ->
      fst (CalculateTotalRam env h) = (v, None))
  /\ (forall rest,
         Strings.drop (i + 4) output = spaces ++ rest ->
         starts_with Text.is_space rest = false ->
         starts_with Text.is_digit rest = false ->
         exists e, fst (CalculateTotalRam env h) = (-1, Some e)).
Proof.
  intros Hfree Hi Hs. split.
  - intros digits rest v Hdrop Hd Hne Hrest Hv Hmax.
    rewrite (CalculateTotalRam_first_Mem h output i spaces digits rest)
      by (try assumption; now apply SpanFacts.digit_not_space).
    assert (Ha : Text.Atoi digits = inl v).
    { pose proof (TextFacts.digits_value_nonneg _ _ _ Hv ltac:(lia)) as H0.
      destruct digits as [|a ds]; [contradiction|].
      pose proof Hd as Hd'. cbn in Hd'. apply andb_true_iff in Hd'.
      destruct Hd' as [Hdig _]. unfold Text.Atoi.
      destruct (Ascii.eqb_spec a "-") as [->|_]; [discriminate Hdig|].
      destruct (Ascii.eqb_spec a "+") as [->|_]; [discriminate Hdig|].
      unfold Text.Atoi_digits. rewrite Hv. cbv zeta.
      rewrite ParseFacts.in_range_test; [reflexivity|].
      unfold Int.in_range, Int.min_int, Int.max_int in *. lia. }
    now rewrite Ha.
  - intros rest Hdrop Hsp Hrest.
    rewrite (CalculateTotalRam_first_Mem h output i spaces EmptyString rest)
      by (try assumption; reflexivity).
    eexists. reflexivity.
Qed.

(** [CalculateTotalRam] returns -1 with every error.  The error is that
    of [free] when the command fails, and one that shows the bytes of the
    output when the output holds no [Mem:]. *)
Theorem CalculateTotalRam_failures (h : History) :
  (forall n e, fst (CalculateTotalRam env h) = (n, Some e) -> n = -1)
  /\ (forall e, os_free env h = inr e ->
                fst (CalculateTotalRam env h) = (-1, Some e))
  /\ (forall output,
         os_free env h = inl output ->
         Strings.Index output "Mem:" = None ->
         fst (CalculateTotalRam env h)
         = (-1, Some ("Could not extract Mem total from "
                      ++ Text.format_bytes output))).
Proof.
  unfold CalculateTotalRam, bind, call. split; [|split].
  - intros n e. destruct (os_free env h) as [output|e'].
    + destruct (String.eqb (Text.FindString_Mem output) EmptyString);
        [now intros [= <- _]|].
      destruct (negb (Strings.Contains (Text.FindString_Mem output) ":"));
        [now intros [= <- _]|].
      destruct (Text.Atoi _); [discriminate | now intros [= <- _]].
    + now intros [= <- _].
  - now intros e ->.
  - intros output -> Hi. unfold Text.FindString_Mem. now rewrite Hi.
Qed.

End FreeFacts.

(** ** The further properties on concrete runs *)

Lemma POST_nil_iff_witness :
  fst (POST Scenario.quiet Scenario.cluster true
         "http://10.0.0.2:8091/settings/web" [] []) = None.
Proof.
  apply (proj2 (POST_nil_iff Scenario.quiet Scenario.cluster true
                  "http://10.0.0.2:8091/settings/web" [] [])).
  split; [reflexivity|]. exists 200, (inl EmptyString).
  split; [reflexivity | lia].
Defined.

Lemma OtpNodeList_nodes_ok_iff_witness :
  OtpNodeList_nodes Scenario2.three_members []
  = (["ns_1@10.0.0.1"; "ns_1@10.0.0.2"; "ns_1@10.0.0.3"], None).
Proof.
  apply (proj2 (OtpNodeList_nodes_ok_iff Scenario2.three_members
                  ["ns_1@10.0.0.1"; "ns_1@10.0.0.2"; "ns_1@10.0.0.3"])).
  reflexivity.
Defined.

Lemma TriggerRebalance_known_nodes_witness :
  TriggerRebalance Scenario2.healthy_cluster Scenario.cluster "10.0.0.1" []
  = POST Scenario2.healthy_cluster Scenario.cluster false
      "http://10.0.0.1:8091/controller/rebalance"
      [("ejectedNodes", []);
       ("knownNodes", ["ns_1@10.0.0.1,ns_1@10.0.0.2,ns_1@10.0.0.3"])]
      [EvGetJson "http://10.0.0.1:8091/pools/default" "user" "passw0rd"].
Proof.
  exact (TriggerRebalance_known_nodes Scenario2.healthy_cluster
           Scenario.cluster [] "10.0.0.1" Scenario2.three_members
           ["ns_1@10.0.0.1"; "ns_1@10.0.0.2"; "ns_1@10.0.0.3"]
           eq_refl eq_refl).
Defined.

Lemma CheckNumNodesClusterHealthy_true_iff_witness :
  fst (CheckNumNodesClusterHealthy Scenario2.healthy_cluster Scenario.cluster
         3 "10.0.0.1" []) = (true, None).
Proof.
  apply (proj2 (CheckNumNodesClusterHealthy_true_iff
                  Scenario2.healthy_cluster Scenario.cluster [] 3 "10.0.0.1")).
  exists Scenario2.three_members.
  split; [reflexivity|]. split; [right; cbn; lia | reflexivity].
Defined.

Lemma CheckIfInCluster_nodes_member_witness :
  CheckIfInCluster_nodes Scenario.cluster Scenario2.three_members
  = (true, None).
Proof.
  exact (proj2 (CheckIfInCluster_nodes_member Scenario.cluster
                  Scenario2.three_members) eq_refl).
Defined.

Lemma IsRebalancing_false_iff_witness :
  fst (fst (IsRebalancing Scenario2.healthy_cluster Scenario.cluster
              "10.0.0.1" [])) = false.
Proof.
  apply (proj2 (proj1 (IsRebalancing_false_iff Scenario2.healthy_cluster
                         Scenario.cluster [] "10.0.0.1"))).
  eexists. split; reflexivity.
Defined.

Lemma WaitUntilNoRebalanceRunning_polls_witness :
  WaitUntilNoRebalanceRunning Scenario2.healthy_cluster Scenario.cluster
    "10.0.0.1" []
  = (None,
     [EvGetJson "http://10.0.0.1:8091/pools/default/rebalanceProgress"
        "user" "passw0rd"])
  /\ WaitUntilNoRebalanceRunning Scenario.two_member_cluster Scenario.cluster
       "10.0.0.1" []
     = (Some "Unexepected type in status field in json",
        [EvGetJson "http://10.0.0.1:8091/pools/default/rebalanceProgress"
           "user" "passw0rd"]).
Proof.
  split.
  - apply (proj1 (WaitUntilNoRebalanceRunning_polls Scenario2.healthy_cluster
                    Scenario.cluster "10.0.0.1" []) 0%nat (false, None));
      [lia | intros j Hj; lia | reflexivity | discriminate].
  - apply (proj1 (WaitUntilNoRebalanceRunning_polls
                    Scenario.two_member_cluster Scenario.cluster
                    "10.0.0.1" []) 0%nat
             (true, Some "Unexepected type in status field in json"));
      [lia | intros j Hj; lia | reflexivity | discriminate].
Defined.

Lemma AddNodeRetry_attempts_witness :
  AddNodeRetry Scenario.already_member Scenario.cluster "10.0.0.1" []
  = (None, [EvDo (addNode_request Scenario.cluster "10.0.0.1")]).
Proof.
  apply (proj1 (AddNodeRetry_attempts Scenario.already_member
                  Scenario.cluster "10.0.0.1" eq_refl []) 0%nat);
    [lia | intros j Hj; lia | reflexivity].
Defined.

Lemma ClusterInit_sequence_witness :
  exists ramMb,
    ClusterInit Scenario.host_4000 Scenario.cluster []
    = POST Scenario.host_4000 Scenario.cluster false
        (clusterRam_url Scenario.cluster) (clusterRam_form ramMb)
        [EvFree;
         EvDo (mkRequest "POST" "http://10.0.0.2:8091/settings/web"
                 "application/x-www-form-urlencoded" "admin" "password"
                 (settings_web_form Scenario.cluster))].
Proof.
  exact (proj2 (ClusterInit_sequence Scenario.host_4000 Scenario.cluster []
                  eq_refl) eq_refl).
Defined.

Lemma CreateDefaultBucket_only_when_missing_witness :
  CreateDefaultBucket Scenario.has_buckets Scenario.cluster []
  = (None,
     [EvGetJson "http://10.0.0.2:8091/pools/default/buckets"
        "user" "passw0rd"]).
Proof.
  exact (proj1 (proj2 (CreateDefaultBucket_only_when_missing
                         Scenario.has_buckets Scenario.cluster []))
           Scenario.buckets eq_refl eq_refl).
Defined.

Lemma FetchClusterDetails_outcome_witness :
  FetchClusterDetails Scenario2.healthy_cluster Scenario.cluster []
  = ((None,
      mkCluster "10.0.0.2" "8091" "3.0.1-1444-rel-enterprise" "user"
                "passw0rd" "128" "1"),
     [EvGetJson "http://10.0.0.2:8091/pools" "user" "passw0rd"])
  /\ FetchClusterDetails Scenario.pools_unreachable Scenario.cluster []
     = ((Some "Unable to fetch cluster details after several attempts",
         Scenario.cluster),
        failed_fetches Scenario.cluster 10 []).
Proof.
  split.
  - refine (proj1 (proj1 (FetchClusterDetails_outcome
                            Scenario2.healthy_cluster Scenario.cluster [])
                     0%nat _ _ _ eq_refl) _ eq_refl);
      [lia | intros i Hi; lia].
  - apply (proj2 (FetchClusterDetails_outcome Scenario.pools_unreachable
                    Scenario.cluster [])).
    intros i Hi. eexists. reflexivity.
Defined.

Lemma WaitUntilNumNodesRunning_returns_witness :
  done_or_gave_up 3
    (fst (WaitUntilNumNodesRunning Scenario.etcd_down Scenario.cluster
            5 3 2 []))
  /\ fst (WaitUntilNumNodesRunning Scenario.etcd_down Scenario.cluster
            40 3 Int.max_int []) = None.
Proof.
  split.
  - apply (proj1 (WaitUntilNumNodesRunning_returns Scenario.etcd_down
                    Scenario.cluster 3 []) 5%nat 2);
      [unfold Int.max_int; lia | cbn; lia].
  - apply (proj2 (WaitUntilNumNodesRunning_returns Scenario.etcd_down
                    Scenario.cluster 3 [])).
    intros h'. eexists. reflexivity.
Defined.

Lemma CalculateTotalRam_reads_total_witness :
  fst (CalculateTotalRam Scenario.host_4000 []) = (4000, None)
  /\ exists e,
       fst (CalculateTotalRam
              (Scenario.with_free (fun _ => inl "Mem:x Mem: 34 1 1")
                 Scenario.quiet) []) = (-1, Some e).
Proof.
  split.
  - apply (proj1 (CalculateTotalRam_reads_total Scenario.host_4000 []
                    Scenario.free_output 74 "          "
                    eq_refl eq_refl eq_refl)
                 "4000" (Strings.drop 92 Scenario.free_output) 4000);
      try reflexivity; [discriminate | unfold Int.max_int; lia].
  - apply (proj2 (CalculateTotalRam_reads_total
                    (Scenario.with_free (fun _ => inl "Mem:x Mem: 34 1 1")
                       Scenario.quiet) []
                    "Mem:x Mem: 34 1 1" 0 EmptyString
                    eq_refl eq_refl eq_refl)
                 "x Mem: 34 1 1"); reflexivity.
Defined.

Lemma CalculateTotalRam_failures_witness :
  fst (CalculateTotalRam
         (Scenario.with_free (fun _ => inl "no such line") Scenario.quiet) [])
  = (-1, Some "Could not extract Mem total from [110 111 32 115 117 99 104 32 108 105 110 101]").
Proof.
  exact (proj2 (proj2 (CalculateTotalRam_failures
                         (Scenario.with_free (fun _ => inl "no such line")
                            Scenario.quiet) []))
           "no such line" eq_refl eq_refl).
Defined.

(** ** Credentials and read-only waiting *)

Section MoreCredentialFacts.

Variable env : Env.

Lemma LoadAdminCredsFromEtcd_loop_frame
      (n : nat) (c : CouchbaseCluster) (h : History) :
  same_but_creds c (snd (fst (LoadAdminCredsFromEtcd_loop env n c h))).
Proof.
  revert h. induction n as [|n IH]; intros h.
  - cbn. repeat split.
  - cbn [LoadAdminCredsFromEtcd_loop]. unfold bind at 1, call at 1.
    destruct (etcd_Get env h KEY_USER_PASS false false) as [e|[[node|]]].
    + unfold bind at 1, sleep_seconds, call at 1. apply IH.
    + cbn [RNode].
      destruct (negb (Strings.Contains (Value node) ":"));
        [cbn; repeat split|].
      destruct (Strings.Split (Value node) ":") as [|u [|p rest]];
        cbn; repeat split.
    + cbn. repeat split.
Qed.

(** [LoadAdminCredsFromEtcd] changes nothing of the cluster but the admin
    identity.  When ten reads of the credentials entry fail, it has
    waited ten seconds after each, it returns an error, and the cluster is
    as it was. *)
Theorem LoadAdminCredsFromEtcd_gives_up (c : CouchbaseCluster) (h : History) :
  same_but_creds c (snd (fst (LoadAdminCredsFromEtcd env c h)))
  /\ ((forall i, (i < 10)%nat ->
         exists e, etcd_Get env (failed_reads i h) KEY_USER_PASS false false
                   = GetErr e) ->
      LoadAdminCredsFromEtcd env c h
      = ((Returned (Some "Unable to load admin creds after several retries"),
          c), failed_reads 10 h)).
Proof.
  split; [apply LoadAdminCredsFromEtcd_loop_frame|].
  intros Hfail. unfold LoadAdminCredsFromEtcd, MAX_RETRIES_JOIN_CLUSTER.
  change 10%nat with (10 + 0)%nat at 1.
  now rewrite (LoadAdminCredsFromEtcd_loop_retries env 10 0 c h Hfail).
Qed.

End MoreCredentialFacts.

Lemma LoadAdminCredsFromEtcd_gives_up_witness :
  LoadAdminCredsFromEtcd Scenario.etcd_down Scenario.cluster []
  = ((Returned (Some "Unable to load admin creds after several retries"),
      Scenario.cluster), failed_reads 10 []).
Proof.
  apply (proj2 (LoadAdminCredsFromEtcd_gives_up Scenario.etcd_down
                  Scenario.cluster [])).
  intros i Hi. eexists. reflexivity.
Defined.

Section ReadOnlyFacts.

Variable env : Env.
Variable c : CouchbaseCluster.

(** The retry loop adds nothing of its own to what its worker and its
    sleeper do, but the waits between the attempts. *)
Lemma RetryLoop_from_within (q : Event -> bool)
      (worker : RetryWorker) (sleeper : RetrySleeper) :
  emits (within q 0) worker ->
  (forall n, emits (within q 0) (sleeper n)) ->
  q EvWorker = true -> (forall n, q (EvSleeper n) = true) ->
  (forall d, q (EvAfter d) = true) ->
  forall fuel a, emits (within q 0) (RetryLoop_from fuel worker sleeper a).
Proof.
  intros Hw Hs Qw Qs Qa. induction fuel as [|fuel IH]; intros a;
    cbn [RetryLoop_from]; [apply Emits.ret_within|].
  apply (Emits.bind_within q 0 0).
  - apply (Emits.bind_within q 0 0); [|intros _; exact Hw].
    apply Emits.call_emits. split; [cbn; now rewrite Qw | cbn; lia].
  - intros [finished [e|]]; [apply Emits.ret_within|].
    destruct finished; [apply Emits.ret_within|].
    apply (Emits.bind_within q 0 0).
    + apply (Emits.bind_within q 0 0); [|intros _; apply Hs].
      apply Emits.call_emits. split; [cbn; now rewrite Qs | cbn; lia].
    + intros [[|] s]; cbn [negb]; [|apply Emits.ret_within].
      apply (Emits.bind_within q 0 0); [|intros _; apply IH].
      unfold sleep_seconds. apply Emits.call_emits.
      split; [cbn; now rewrite Qa | cbn; lia].
Qed.

Lemma FindLiveNode_read_only : emits (within read_only 0) (FindLiveNode env).
Proof.
  unfold FindLiveNode. apply (Emits.bind_within read_only 0 0).
  - apply Emits.call_emits. split; [reflexivity | cbn; lia].
  - intros [e|[[node|]]]; try apply Emits.ret_within.
    cbn [RNode]. destruct (Nodes node); apply Emits.ret_within.
Qed.

Lemma CheckNumNodesClusterHealthy_read_only (numNodes : Z) (ip : string) :
  emits (within read_only 0) (CheckNumNodesClusterHealthy env c numNodes ip).
Proof.
  unfold CheckNumNodesClusterHealthy. apply (Emits.bind_within read_only 0 0).
  - unfold GetClusterNodes. apply (Emits.bind_within read_only 0 0).
    + unfold getJsonData_map. apply Emits.call_emits.
      split; [reflexivity | cbn; lia].
    + intros [m|e]; [|apply Emits.ret_within].
      destruct (map_index m "nodes"); apply Emits.ret_within.
  - intros [nodes [e|]]; [apply Emits.ret_within|].
    destruct (negb (numNodes =? -1)
              && (Z.of_nat (List.length nodes) <? numNodes));
      apply Emits.ret_within.
Qed.

(** [WaitUntilNumNodesRunning] only reads: all it adds to the history are
    reads of etcd, GETs, waits and the calls of its closures.  It sends no
    POST, creates nothing in etcd and does not run [free]. *)
Theorem WaitUntilNumNodesRunning_read_only
        (fuel : nat) (numNodes maxAttempts : Z) :
  emits (within read_only 0)
        (WaitUntilNumNodesRunning env c fuel numNodes maxAttempts).
Proof.
  unfold WaitUntilNumNodesRunning, RetryLoop.
  apply RetryLoop_from_within; try reflexivity.
  - unfold WaitUntilNumNodesRunning_worker.
    apply (Emits.bind_within read_only 0 0); [apply FindLiveNode_read_only|].
    intros [ip [e|]]; [apply Emits.ret_within|].
    destruct (String.eqb ip EmptyString); [apply Emits.ret_within|].
    apply (Emits.bind_within read_only 0 0);
      [apply CheckNumNodesClusterHealthy_read_only|].
    intros [ok [e|]]; [apply Emits.ret_within|].
    destruct ok; apply Emits.ret_within.
  - intros n. unfold wait_sleeper.
    destruct (n >? maxAttempts); apply Emits.ret_within.
Qed.

End ReadOnlyFacts.

(** ** The heartbeat *)

Section HeartbeatFacts.

Variable henv : HostEnv.
Variable c : CouchbaseCluster.

Lemma heartbeat_events_shift (n : nat) (w : HostHistory) :
  (heartbeat_events c n
   ++ HvCore (EvAfter (5 * time_Second))
      :: HvSet (node_state_key c) "up" 10
      :: HvUpdateDir KEY_NODE_STATE 10 :: w)%list
  = (heartbeat_events c (S n) ++ w)%list.
Proof.
  induction n as [|n IH]; [reflexivity|].
  cbn [heartbeat_events app] in *. now rewrite IH.
Qed.

Lemma EventLoop_step (n : nat) (lastErr : option error) (w : HostHistory) :
  EventLoop henv c (S n) lastErr w
  = EventLoop henv c n
      (match etcd_Set henv (HvUpdateDir KEY_NODE_STATE 10 :: w)
               (node_state_key c) "up" 10 with
       | Some e => Some e
       | None => None
       end)
      (HvCore (EvAfter (5 * time_Second))
       :: HvSet (node_state_key c) "up" 10
       :: HvUpdateDir KEY_NODE_STATE 10 :: w).
Proof.
  cbn [EventLoop].
  cbv beta iota zeta delta [hbind hcall PublishNodeStateEtcd hsleep_seconds].
  destruct (etcd_Set henv _ _ _ _); [reflexivity|].
  now destruct lastErr.
Qed.

Lemma EventLoop_history (n : nat) (lastErr : option error) (w : HostHistory) :
  snd (EventLoop henv c n lastErr w) = (heartbeat_events c n ++ w)%list.
Proof.
  revert lastErr w. induction n as [|n IH]; intros lastErr w; [reflexivity|].
  rewrite EventLoop_step, IH. apply heartbeat_events_shift.
Qed.

(** Whatever etcd answers, [n] turns of the event loop add exactly the
    events of [n] heartbeats: a failure of the refresh or of the
    publication does not stop the loop or change its pace, and each
    publication lasts twice the wait between two turns.  The variable
    [lastErr] holds the error of the latest publication only. *)
Theorem EventLoop_heartbeats (n : nat) (lastErr : option error)
        (w : HostHistory) :
  snd (EventLoop henv c n lastErr w) = (heartbeat_events c n ++ w)%list
  /\ fst (EventLoop henv c (S n) lastErr w)
     = etcd_Set henv
         (HvUpdateDir KEY_NODE_STATE 10 :: heartbeat_events c n ++ w)%list
         (node_state_key c) "up" 10.
Proof.
  split; [apply EventLoop_history|].
  revert lastErr w. induction n as [|n IH]; intros lastErr w.
  - rewrite EventLoop_step. cbn [EventLoop hret fst app heartbeat_events].
    now destruct (etcd_Set henv _ _ _ _).
  - rewrite EventLoop_step, IH. now rewrite heartbeat_events_shift.
Qed.

End HeartbeatFacts.

(** ** Publishing a node and finding it *)

Module PathFacts.

Import Strings.

Lemma no_slash_cons (a : ascii) (s : string) :
  Index (String a s) "/" = None -> a <> "/"%char /\ Index s "/" = None.
Proof.
  cbn [Index]. unfold HasPrefix. cbn [prefix].
  destruct (ascii_dec "/" a) as [<-|Hne].
  - destruct s; discriminate.
  - destruct (Index s "/"); [discriminate|]. intros _. split; congruence.
Qed.

Lemma split_slash_no_slash (s : string) :
  Index s "/" = None -> Path.split_slash s = [s].
Proof.
  induction s as [|a s IH]; [reflexivity|].
  intros H. apply no_slash_cons in H. destruct H as [Ha Hs].
  cbn [Path.split_slash]. apply Ascii.eqb_neq in Ha. rewrite Ha.
  now rewrite (IH Hs).
Qed.

Lemma LastIndexByte_no_slash (s : string) :
  Index s "/" = None -> LastIndexByte s "/" = None.
Proof.
  induction s as [|a s IH]; [reflexivity|].
  intros H. apply no_slash_cons in H. destruct H as [Ha Hs].
  cbn [LastIndexByte]. rewrite (IH Hs). apply Ascii.eqb_neq in Ha.
  now rewrite Ha.
Qed.

Lemma string_of_list_app (l : list ascii) (s : string) :
  string_of_list_ascii (l ++ list_ascii_of_string s)
  = string_of_list_ascii l ++ s.
Proof.
  induction l as [|a l IH]; cbn.
  - apply string_of_list_ascii_of_string.
  - now rewrite IH.
Qed.

(** Joining the membership directory with a plain element puts a slash
    between them and changes nothing else. *)
Lemma Join_node_state (ip : string) :
  plain_element ip ->
  Path.Join [KEY_NODE_STATE; ip] = KEY_NODE_STATE ++ "/" ++ ip.
Proof.
  intros [Hne [Hslash [Hdot Hdotdot]]].
  unfold Path.Join. cbn [filter].
  replace (String.eqb KEY_NODE_STATE EmptyString) with false by reflexivity.
  apply String.eqb_neq in Hne. rewrite Hne. cbn [negb].
  cbn [Strings.Join]. unfold Path.Clean, KEY_NODE_STATE.
  cbn [append Ascii.eqb Bool.eqb Path.split_slash].
  rewrite (split_slash_no_slash ip Hslash).
  cbn [fold_left Path.clean_step String.eqb Ascii.eqb Bool.eqb fst snd
       List.length Nat.ltb Nat.leb Nat.eqb andb orb negb Path.push
       list_ascii_of_string List.rev_append].
  rewrite Hne.
  apply String.eqb_neq in Hdot. rewrite Hdot.
  apply String.eqb_neq in Hdotdot. rewrite Hdotdot.
  cbn [fst]. unfold Path.push. rewrite rev_append_rev.
  destruct (rev (list_ascii_of_string ip) ++ _)%list eqn:E.
  - apply app_eq_nil in E. destruct E as [_ E]. discriminate.
  - rewrite <- E. rewrite rev_app_distr, rev_involutive.
    cbn [rev app string_of_list_ascii].
    now rewrite string_of_list_ascii_of_string.
Qed.

Lemma path_Split_node_state (ip : string) :
  Index ip "/" = None ->
  path_Split (KEY_NODE_STATE ++ "/" ++ ip) = (KEY_NODE_STATE ++ "/", ip).
Proof.
  intros Hslash. unfold path_Split, KEY_NODE_STATE.
  cbn [append LastIndexByte].
  rewrite (LastIndexByte_no_slash ip Hslash).
  cbn [Ascii.eqb Bool.eqb]. cbn [take drop]. reflexivity.
Qed.

End PathFacts.

Section PublishFacts.

Variable henv : HostEnv.
Variable c : CouchbaseCluster.

(** A node whose address is a plain path element publishes itself under
    the membership directory, a slash and its address; and when the first
    child of the membership directory has that key, [FindLiveNode] returns
    the address of the node. *)
Theorem PublishNodeStateEtcd_found_by_FindLiveNode
        (ttlSeconds : Z) (w : HostHistory) :
  plain_element (LocalCouchbaseIp c) ->
  PublishNodeStateEtcd henv c ttlSeconds w
  = (etcd_Set henv w (KEY_NODE_STATE ++ "/" ++ LocalCouchbaseIp c) "up"
       ttlSeconds,
     HvSet (KEY_NODE_STATE ++ "/" ++ LocalCouchbaseIp c) "up" ttlSeconds :: w)
  /\ (forall env h first rest,
         etcd_Get env h KEY_NODE_STATE false false
         = GetOk (mkResponse
                    (Some (mkNode KEY_NODE_STATE EmptyString true
                             (first :: rest)))) ->
         Key first = node_state_key c ->
         fst (FindLiveNode env h) = (LocalCouchbaseIp c, None)).
Proof.
  intros Hplain.
  assert (Hkey : node_state_key c
                 = KEY_NODE_STATE ++ "/" ++ LocalCouchbaseIp c)
    by now apply PathFacts.Join_node_state.
  split.
  - unfold PublishNodeStateEtcd, hcall. now rewrite Hkey.
  - intros env h first rest Hget Hfirst.
    unfold FindLiveNode, bind, call. rewrite Hget. cbn [RNode Nodes ret fst].
    rewrite Hfirst, Hkey.
    rewrite PathFacts.path_Split_node_state; [reflexivity|].
    apply Hplain.
Qed.

End PublishFacts.

Lemma PublishNodeStateEtcd_found_by_FindLiveNode_witness :
  fst (FindLiveNode
         (Scenario.with_Get
            (fun _ _ _ _ => Scenario.directory [Scenario.peer "10.0.0.2"])
            Scenario.quiet) [])
  = ("10.0.0.2", None).
Proof.
  assert (Hplain : plain_element (LocalCouchbaseIp Scenario.cluster)).
  { repeat split; try discriminate. }
  refine (proj2 (PublishNodeStateEtcd_found_by_FindLiveNode
                   (mkHostEnv Scenario.quiet (fun _ _ _ => None)
                      (fun _ _ _ _ => None)
                      (fun _ _ _ => (EmptyString, None))
                      (fun _ _ => inl 200))
                   Scenario.cluster 10 [] Hplain)
            (Scenario.with_Get
               (fun _ _ _ _ => Scenario.directory [Scenario.peer "10.0.0.2"])
               Scenario.quiet)
            [] (Scenario.peer "10.0.0.2") [] eq_refl eq_refl).
Defined.

(** ** Starting the service *)

Section ServiceFacts.

Variable henv : HostEnv.

Lemma StartCouchbaseService_loop_step (n : nat) (w : HostHistory) :
  StartCouchbaseService_loop henv (S n) w
  = match start_error henv w with
    | Some e => (Some e, HvCommand EmptyString service_start :: w)
    | None =>
        if runs_after_start henv w
        then (None,
              HvCommand EmptyString service_status
              :: HvCommand EmptyString service_start :: w)
        else StartCouchbaseService_loop henv n (service_round w)
    end.
Proof.
  cbn [StartCouchbaseService_loop].
  unfold start_error, runs_after_start, service_round, service_start,
    service_status.
  cbv beta iota zeta
      delta [hbind hcall command CouchbaseServiceRunning hsleep_seconds hret].
  destruct (os_command henv w EmptyString _) as [out [e|]]; cbn [fst snd];
    [reflexivity|].
  destruct (os_command henv _ EmptyString _) as [out' [e'|]]; cbn [fst snd];
    [reflexivity|].
  now destruct (Strings.Contains out' "is running").
Qed.

Lemma StartCouchbaseService_loop_rounds (k n : nat) (w : HostHistory) :
  (forall j, (j < k)%nat ->
     start_error henv (service_rounds j w) = None
     /\ runs_after_start henv (service_rounds j w) = false) ->
  StartCouchbaseService_loop henv (k + n) w
  = StartCouchbaseService_loop henv n (service_rounds k w).
Proof.
  revert w. induction k as [|k IH]; intros w Hdown; [reflexivity|].
  cbn [Nat.add]. rewrite StartCouchbaseService_loop_step.
  destruct (Hdown 0%nat ltac:(lia)) as [Hs Hr].
  change (service_rounds 0 w) with w in Hs, Hr. rewrite Hs, Hr.
  rewrite IH.
  - unfold service_rounds. now rewrite Nat.iter_succ_r.
  - intros j Hj. specialize (Hdown (S j) ltac:(lia)).
    unfold service_rounds in *. now rewrite Nat.iter_succ_r in Hdown.
Qed.

(** [StartCouchbaseService] starts the service at most ten times.  After
    each start it asks for the status, and it waits ten seconds when the
    service is not running, a failing status command counting as not
    running.  A start command that fails ends it with that error, at once;
    the first status that says running ends it with no error; ten turns
    without a running service give an error. *)
Theorem StartCouchbaseService_outcome (w : HostHistory) :
  (forall k, (k < 10)%nat ->
     (forall j, (j < k)%nat ->
        start_error henv (service_rounds j w) = None
        /\ runs_after_start henv (service_rounds j w) = false) ->
     (forall e, start_error henv (service_rounds k w) = Some e ->
        StartCouchbaseService henv w
        = (Some e, HvCommand EmptyString service_start :: service_rounds k w))
     /\ (start_error henv (service_rounds k w) = None ->
         runs_after_start henv (service_rounds k w) = true ->
         StartCouchbaseService henv w
         = (None,
            HvCommand EmptyString service_status
            :: HvCommand EmptyString service_start :: service_rounds k w)))
  /\ ((forall j, (j < 10)%nat ->
         start_error henv (service_rounds j w) = None
         /\ runs_after_start henv (service_rounds j w) = false) ->
      StartCouchbaseService henv w
      = (Some "Unable to start couchbase service after several retries",
         service_rounds 10 w)).
Proof.
  unfold StartCouchbaseService, MAX_RETRIES_START_COUCHBASE. split.
  - intros k Hk Hdown.
    assert (Hrun : StartCouchbaseService_loop henv 10 w
                   = StartCouchbaseService_loop henv (S (9 - k))
                       (service_rounds k w)).
    { replace 10%nat with (k + S (9 - k))%nat at 1 by lia.
      now apply StartCouchbaseService_loop_rounds. }
    rewrite Hrun, StartCouchbaseService_loop_step. split.
    + now intros e ->.
    + now intros -> ->.
  - intros Hdown. change 10%nat with (10 + 0)%nat at 1.
    now rewrite (StartCouchbaseService_loop_rounds 10 0 w Hdown).
Qed.

End ServiceFacts.

(** ** Starting a node *)

Module HostFacts.

Lemma hret_extends {A} (a : A) : hextends (hret a).
Proof. intros w. now exists []. Qed.

Lemma hcall_extends {A} (ev : HostEvent) (answer : HostHistory -> A) :
  hextends (hcall ev answer).
Proof. intros w. now exists [ev]. Qed.

Lemma hbind_extends {A B} (m : HM A) (k : A -> HM B) :
  hextends m -> (forall a, hextends (k a)) -> hextends (hbind m k).
Proof.
  intros Hm Hk w. unfold hbind. destruct (Hm w) as [x Hx].
  destruct (m w) as [a w']. cbn [snd] in Hx. subst w'.
  destruct (Hk a (x ++ w)%list) as [y Hy]. exists (y ++ x)%list.
  rewrite Hy. now rewrite app_assoc.
Qed.

Lemma lift_extends {A} (m : M A) : hextends (lift m).
Proof.
  intros w. unfold lift. destruct (m (core_of w)) as [a h'].
  eexists. reflexivity.
Qed.

(** What holds of the result of every continuation holds of the result
    of the sequence. *)
Lemma hbind_result {A B} (Q : B -> Prop) (m : HM A) (k : A -> HM B)
      (w : HostHistory) :
  (forall a w', Q (fst (k a w'))) -> Q (fst (hbind m k w)).
Proof. intros H. unfold hbind. destruct (m w) as [a w']. apply H. Qed.

Lemma firstn_added {A} (x y : list A) :
  firstn (List.length (x ++ y) - List.length y) (x ++ y) = x.
Proof.
  rewrite length_app, Nat.add_sub.
  induction x as [|a x IH]; cbn; [now destruct y | now rewrite IH].
Qed.

(** A computation that adds [added] to the calls it sees adds them to the
    history of the host. *)
Lemma lift_added {A} (m : M A) (w : HostHistory) (added : list Event) :
  snd (m (core_of w)) = (added ++ core_of w)%list ->
  lift m w = (fst (m (core_of w)), (map HvCore added ++ w)%list).
Proof.
  intros H. unfold lift. destruct (m (core_of w)) as [a h'].
  cbn [fst snd] in *. subst h'. now rewrite firstn_added.
Qed.

End HostFacts.

Section StartupFacts.

Variable henv : HostEnv.

Lemma PrepareVarDirectory_extends : hextends (PrepareVarDirectory henv).
Proof.
  unfold PrepareVarDirectory. apply HostFacts.hbind_extends.
  - apply HostFacts.hcall_extends.
  - intros [out [e|]]; cbn [snd]; [apply HostFacts.hret_extends|].
    apply HostFacts.hbind_extends; [apply HostFacts.hcall_extends|].
    intros [out' [e|]]; apply HostFacts.hret_extends.
Qed.

Lemma StartCouchbaseService_loop_extends (n : nat) :
  hextends (StartCouchbaseService_loop henv n).
Proof.
  induction n as [|n IH]; cbn [StartCouchbaseService_loop].
  - apply HostFacts.hret_extends.
  - apply HostFacts.hbind_extends; [apply HostFacts.hcall_extends|].
    intros [out [e|]]; cbn [snd]; [apply HostFacts.hret_extends|].
    apply HostFacts.hbind_extends.
    + unfold CouchbaseServiceRunning. apply HostFacts.hbind_extends;
        [apply HostFacts.hcall_extends|].
      intros [o [e|]]; apply HostFacts.hret_extends.
    + intros [running [e|]]; cbn [fst snd]; [apply HostFacts.hret_extends|].
      destruct running; [apply HostFacts.hret_extends|].
      apply HostFacts.hbind_extends; [apply HostFacts.hcall_extends|].
      intros _. exact IH.
Qed.

Lemma EventLoop_extends (c : CouchbaseCluster) (n : nat)
      (lastErr : option error) :
  hextends (EventLoop henv c n lastErr).
Proof.
  intros w. exists (heartbeat_events c n). apply EventLoop_history.
Qed.

Lemma BecomeFirstClusterNode_history (env : Env) (h : History) :
  snd (BecomeFirstClusterNode env h)
  = EvCreateDir KEY_NODE_STATE TTL_NONE :: h.
Proof.
  unfold BecomeFirstClusterNode, bind, call.
  destruct (etcd_CreateDir env h KEY_NODE_STATE TTL_NONE) as [e|];
    [|reflexivity].
  now destruct (Strings.Contains e "Key already exists").
Qed.

(** The election, run on the host. *)
Lemma lift_BecomeFirstClusterNode (w : HostHistory) :
  lift (BecomeFirstClusterNode (host_core henv)) w
  = (fst (BecomeFirstClusterNode (host_core henv) (core_of w)),
     HvCore (EvCreateDir KEY_NODE_STATE TTL_NONE) :: w).
Proof.
  apply (HostFacts.lift_added _ w [EvCreateDir KEY_NODE_STATE TTL_NONE]).
  apply BecomeFirstClusterNode_history.
Qed.

(** What [StartCouchbaseNode] does after the election. *)
Lemma StartCouchbaseNode_after_election
      (ticks : nat) (c : CouchbaseCluster) (w : HostHistory) :
  String.eqb (LocalCouchbaseIp c) EmptyString = false ->
  exists k : bool * option error -> HM (Started * CouchbaseCluster),
    (forall r, hextends (k r))
    /\ (forall e success w', k (success, Some e) w'
                             = ((StartReturned (Some e), set_defaults c), w'))
    /\ StartCouchbaseNode henv ticks c w
       = k (fst (BecomeFirstClusterNode (host_core henv) (core_of w)))
           (HvCore (EvCreateDir KEY_NODE_STATE TTL_NONE) :: w).
Proof.
  intros Hip. unfold StartCouchbaseNode. rewrite Hip.
  match goal with
  | |- context [hbind (lift (BecomeFirstClusterNode (host_core henv))) ?k] =>
      exists k
  end.
  split; [|split].
  - intros [success [e|]]; cbn [fst snd]; [apply HostFacts.hret_extends|].
    apply HostFacts.hbind_extends; [apply PrepareVarDirectory_extends|].
    intros [e|]; [apply HostFacts.hret_extends|].
    apply HostFacts.hbind_extends;
      [apply StartCouchbaseService_loop_extends|].
    intros [e|]; [apply HostFacts.hret_extends|].
    apply HostFacts.hbind_extends; [apply HostFacts.lift_extends|].
    intros [[e|] c']; cbn [fst snd]; [apply HostFacts.hret_extends|].
    apply HostFacts.hbind_extends.
    + destruct success; [|apply HostFacts.lift_extends].
      apply HostFacts.hbind_extends; [apply HostFacts.lift_extends|].
      intros [e|]; [apply HostFacts.hret_extends|apply HostFacts.lift_extends].
    + intros [e|]; [apply HostFacts.hret_extends|].
      apply HostFacts.hbind_extends; [apply EventLoop_extends|].
      intros lastErr. apply HostFacts.hret_extends.
  - reflexivity.
  - unfold hbind at 1. now rewrite lift_BecomeFirstClusterNode.
Qed.

(** A node with an address starts with the election: whatever else
    [StartCouchbaseNode] does, the commands that start the service
    included, comes after its attempt to create the membership directory.
    When that attempt fails with an error other than "Key already exists",
    nothing else is done and the error is returned; the cluster then has
    the port 8091, the bucket quota 128 and the replica number 1, and
    its four other fields as they were. *)
Theorem StartCouchbaseNode_election_first
        (ticks : nat) (c : CouchbaseCluster) (w : HostHistory) :
  LocalCouchbaseIp c <> EmptyString ->
  (exists added,
      snd (StartCouchbaseNode henv ticks c w)
      = (added ++ HvCore (EvCreateDir KEY_NODE_STATE TTL_NONE) :: w)%list)
  /\ (forall e,
         etcd_CreateDir (host_core henv) (core_of w) KEY_NODE_STATE TTL_NONE
         = Some e ->
         Strings.Contains e "Key already exists" = false ->
         StartCouchbaseNode henv ticks c w
         = ((StartReturned (Some e),
             mkCluster (LocalCouchbaseIp c) "8091" (LocalCouchbaseVersion c)
                       (AdminUsername c) (AdminPassword c) "128" "1"),
            HvCore (EvCreateDir KEY_NODE_STATE TTL_NONE) :: w)).
Proof.
  intros Hip. apply String.eqb_neq in Hip.
  destruct (StartCouchbaseNode_after_election ticks c w Hip)
    as [k [Hext [Herr Hrun]]].
  rewrite Hrun. split.
  - apply Hext.
  - intros e He Hk.
    unfold BecomeFirstClusterNode, bind, call. rewrite He. cbn [fst].
    rewrite Hk. cbn [ret fst]. apply Herr.
Qed.

(** [StartCouchbaseNode] never reports success: when it returns, it
    returns an error; otherwise it is in its event loop.  Without an
    address it returns an error at once, and has done nothing. *)
Theorem StartCouchbaseNode_never_succeeds
        (ticks : nat) (c : CouchbaseCluster) (w : HostHistory) :
  fst (fst (StartCouchbaseNode henv ticks c w)) <> StartReturned None
  /\ (LocalCouchbaseIp c = EmptyString ->
      StartCouchbaseNode henv ticks c w
      = ((StartReturned
            (Some "You must define LocalCouchbaseIp before calling"), c), w)).
Proof.
  split.
  - unfold StartCouchbaseNode.
    destruct (String.eqb (LocalCouchbaseIp c) EmptyString); [discriminate|].
    apply (HostFacts.hbind_result
             (fun r => fst r <> StartReturned None)).
    intros [success [e|]] w1; cbn [fst snd]; [discriminate|].
    apply (HostFacts.hbind_result (fun r => fst r <> StartReturned None)).
    intros [e|] w2; [discriminate|].
    apply (HostFacts.hbind_result (fun r => fst r <> StartReturned None)).
    intros [e|] w3; [discriminate|].
    apply (HostFacts.hbind_result (fun r => fst r <> StartReturned None)).
    intros [[e|] c'] w4; cbn [fst snd]; [discriminate|].
    apply (HostFacts.hbind_result (fun r => fst r <> StartReturned None)).
    intros [e|] w5; [discriminate|].
    apply (HostFacts.hbind_result (fun r => fst r <> StartReturned None)).
    intros lastErr w6. discriminate.
  - intros Hip. unfold StartCouchbaseNode. now rewrite Hip.
Qed.

End StartupFacts.

Lemma StartCouchbaseService_outcome_witness :
  StartCouchbaseService HostScenario.slow_service []
  = (None,
     HvCommand EmptyString service_status
     :: HvCommand EmptyString service_start :: service_rounds 2 []).
Proof.
  assert (Hdown : forall j, (j < 2)%nat ->
            start_error HostScenario.slow_service (service_rounds j []) = None
            /\ runs_after_start HostScenario.slow_service (service_rounds j [])
               = false).
  { intros j Hj. do 2 (destruct j as [|j]; [split; reflexivity|]). lia. }
  apply (proj1 (StartCouchbaseService_outcome HostScenario.slow_service [])
               2%nat ltac:(lia) Hdown); reflexivity.
Defined.

Lemma StartCouchbaseNode_election_first_witness :
  StartCouchbaseNode (HostScenario.quiet_host Scenario.etcd_down) 3
                     HostScenario.fresh_node []
  = ((StartReturned (Some "501: All the given peers are not reachable"),
      mkCluster "10.0.0.2" "8091" EmptyString EmptyString EmptyString
                "128" "1"),
     [HvCore (EvCreateDir KEY_NODE_STATE TTL_NONE)]).
Proof.
  assert (Hip : LocalCouchbaseIp HostScenario.fresh_node <> EmptyString)
    by discriminate.
  apply (proj2 (StartCouchbaseNode_election_first
                  (HostScenario.quiet_host Scenario.etcd_down) 3
                  HostScenario.fresh_node [] Hip)); reflexivity.
Defined.

Lemma StartCouchbaseNode_never_succeeds_witness :
  StartCouchbaseNode (HostScenario.quiet_host Scenario.quiet) 3
                     HostScenario.no_address []
  = ((StartReturned (Some "You must define LocalCouchbaseIp before calling"),
      HostScenario.no_address), []).
Proof.
  apply (proj2 (StartCouchbaseNode_never_succeeds
                  (HostScenario.quiet_host Scenario.quiet) 3
                  HostScenario.no_address [])); reflexivity.
Defined.

(** ** Waiting for the REST service *)

Section RestFacts.

Variable henv : HostEnv.
Variable c : CouchbaseCluster.

Lemma WaitForRestService_loop_step (n : nat) (w : HostHistory) :
  WaitForRestService_loop henv c (S n) w
  = if rest_up henv c w
    then (None, HvHttpGet (rest_url c) :: w)
    else WaitForRestService_loop henv c n (rest_round c w).
Proof.
  cbn [WaitForRestService_loop]. unfold hbind, hcall, hsleep_seconds, rest_up.
  fold (rest_url c).
  destruct (http_Get henv w (rest_url c)) as [statusCode|e]; [|reflexivity].
  now destruct (statusCode =? 200).
Qed.

Lemma WaitForRestService_loop_rounds (k n : nat) (w : HostHistory) :
  (forall j, (j < k)%nat -> rest_up henv c (rest_rounds c j w) = false) ->
  WaitForRestService_loop henv c (k + n) w
  = WaitForRestService_loop henv c n (rest_rounds c k w).
Proof.
  revert w. induction k as [|k IH]; intros w Hdown; [reflexivity|].
  assert (H0 := Hdown 0%nat ltac:(lia)).
  change (rest_rounds c 0 w) with w in H0.
  change (S k + n)%nat with (S (k + n)).
  rewrite WaitForRestService_loop_step, H0, IH.
  - unfold rest_rounds. now rewrite Nat.iter_succ_r.
  - intros j Hj. specialize (Hdown (S j) ltac:(lia)).
    unfold rest_rounds in *. now rewrite Nat.iter_succ_r in Hdown.
Qed.

(** [WaitForRestService] asks the root of the local REST service at most
    ten times.  An answer other than 200 and a failure of the request are
    treated alike: it waits ten seconds and asks again.  The first 200
    ends it with no error and no wait; ten turns without one give an
    error, after the tenth wait. *)
Theorem WaitForRestService_outcome (w : HostHistory) :
  (forall k, (k < 10)%nat ->
     (forall j, (j < k)%nat -> rest_up henv c (rest_rounds c j w) = false) ->
     rest_up henv c (rest_rounds c k w) = true ->
     WaitForRestService henv c w
     = (None, HvHttpGet (rest_url c) :: rest_rounds c k w))
  /\ ((forall j, (j < 10)%nat ->
         rest_up henv c (rest_rounds c j w) = false) ->
      WaitForRestService henv c w
      = (Some "Unable to connect to REST api after several attempts",
         rest_rounds c 10 w)).
Proof.
  unfold WaitForRestService, MAX_RETRIES_START_COUCHBASE. split.
  - intros k Hk Hdown Hup.
    replace 10%nat with (k + S (9 - k))%nat at 1 by lia.
    rewrite (WaitForRestService_loop_rounds k _ w Hdown).
    now rewrite WaitForRestService_loop_step, Hup.
  - intros Hdown. change 10%nat with (10 + 0)%nat at 1.
    now rewrite (WaitForRestService_loop_rounds 10 0 w Hdown).
Qed.

End RestFacts.

Lemma WaitForRestService_outcome_witness :
  WaitForRestService HostScenario.slow_rest Scenario.cluster []
  = (None,
     [HvHttpGet "http://10.0.0.2:8091/";
      HvCore (EvAfter (10 * time_Second));
      HvHttpGet "http://10.0.0.2:8091/";
      HvCore (EvAfter (10 * time_Second));
      HvHttpGet "http://10.0.0.2:8091/"]).
Proof.
  assert (Hdown : forall j, (j < 2)%nat ->
            rest_up HostScenario.slow_rest Scenario.cluster
                    (rest_rounds Scenario.cluster j []) = false).
  { intros j Hj. do 2 (destruct j as [|j]; [reflexivity|]). lia. }
  apply (proj1 (WaitForRestService_outcome HostScenario.slow_rest
                  Scenario.cluster [])
               2%nat ltac:(lia) Hdown); reflexivity.
Defined.

(** ** The commands that wait for the cluster *)

Section CommandFacts.

Variable env : Env.








End CommandFacts.

